(** * Movie recommendation front ends: a shallow embedding

    Two Streamlit programs are modelled here.

    - [app.py] (module [App]): recommendations from a precomputed
      similarity matrix, posters from the OMDb lookup, a "movie"
      query-string parameter and a trending grid with a rotating offset.
    - [movie_recommender.py] (module [Recommender]): a TMDb client with
      liked movies, a search history, paginated browsing modes and
      content-based recommendations.

    Python values that cross the boundary with the remote services are
    the images of JSON documents ([json]).  Exceptions are explicit
    ([result]); what a [try ... except] catches is written with
    [try_except].  Floating-point scores are taken as rationals: the
    programs only compare them. *)

From Stdlib Require Import ZArith QArith Lia Bool Sorted.
From stdpp Require Import gmap strings list.

Local Open Scope Z_scope.

(** ** Python built-ins used by both programs *)

Module Py.

(** Normalisation of one bound of a slice over a sequence of length
    [len]: negative bounds count from the end, and every bound is
    clamped to [0, len]. *)
Definition slice_bound (len i : Z) : Z :=
  if i <? 0 then Z.max 0 (len + i) else Z.min i len.

(** [l[lo:hi]] with step 1; [None] is an omitted bound. *)
Definition slice {A} (lo hi : option Z) (l : list A) : list A :=
  let len := Z.of_nat (length l) in
  let a := from_option (slice_bound len) 0 lo in
  let b := from_option (slice_bound len) len hi in
  take (Z.to_nat (b - a)) (drop (Z.to_nat a) l).

(** [list(enumerate(l))] *)
Definition enumerate {A} (l : list A) : list (nat * A) :=
  imap (fun i x => (i, x)) l.

(** Insertion of [x] in front of the first element it may precede.
    [x] comes from an earlier position than everything in [l]. *)
Fixpoint insert_before {A} (before : A -> A -> bool) (x : A) (l : list A) : list A :=
  match l with
  | [] => [x]
  | y :: l' => if before x y then x :: y :: l' else y :: insert_before before x l'
  end.

Definition stable_sort {A} (before : A -> A -> bool) (l : list A) : list A :=
  foldr (insert_before before) [] l.

(** [sorted(l, key=key, reverse=True)]: descending keys, and elements
    with equal keys keep their original order (the sort is stable,
    also under [reverse=True]). *)
Definition sorted_desc {A} (key : A -> Q) (l : list A) : list A :=
  stable_sort (fun x y => Qle_bool (key y) (key x)) l.

(** Descending order of keys, as a relation between an element and
    one that comes after it. *)
Definition desc {A} (key : A -> Q) (x y : A) : Prop := (key y <= key x)%Q.

(** Ascending stable sort on keys. *)
Definition sorted_asc {A} (key : A -> Q) (l : list A) : list A :=
  stable_sort (fun x y => Qle_bool (key x) (key y)) l.

(** [a.argsort()]: the positions of [a] in ascending order of value.
    numpy leaves the order of equal values open; the stable order is
    taken here, and nothing below depends on it. *)
Definition argsort (a : list Q) : list nat :=
  (sorted_asc snd (enumerate a)).*1.

End Py.

(** ** JSON values, exceptions and results *)

#[warnings="-register-all"]
Inductive json : Type :=
| JNull
| JBool (b : bool)
| JNum (q : Q)
| JStr (s : string)
| JArr (items : list json)
| JObj (fields : list (string * json)).

(** Lookup of a key among the fields of an object. *)
Fixpoint assoc (k : string) (fields : list (string * json)) : option json :=
  match fields with
  | [] => None
  | (k', v) :: rest => if String.eqb k k' then Some v else assoc k rest
  end.

(** Truth value of a Python object in a condition. *)
Definition truthy (v : json) : bool :=
  match v with
  | JNull => false
  | JBool b => b
  | JNum q => negb (Qeq_bool q 0)
  | JStr s => negb (String.eqb s "")
  | JArr items => negb (Nat.eqb (length items) 0)
  | JObj fields => negb (Nat.eqb (length fields) 0)
  end.

(** [v == n] for an integer [n]. Booleans are the integers 0 and 1. *)
Definition eq_int (v : json) (n : Z) : bool :=
  match v with
  | JNum q => Qeq_bool q (inject_Z n)
  | JBool b => Qeq_bool (if b then 1 else 0) (inject_Z n)
  | _ => false
  end.

(** [v == s] for a string [s]. *)
Definition eq_str (v : json) (s : string) : bool :=
  match v with
  | JStr s' => String.eqb s' s
  | _ => false
  end.

(** The exceptions the modelled code can meet. All derive from
    [Exception]. *)
Inductive exn : Type :=
| ConnectionError
| Timeout
| RetryError
| HTTPError (status : Z)
| JSONDecodeError
| KeyError (key : string)
| TypeError
| AttributeError
| IndexError
| ValueError
| ZeroDivisionError.

Inductive result (A : Type) : Type :=
| Ok (a : A)
| Raise (e : exn).
Arguments Ok {A} a.
Arguments Raise {A} e.

#[global] Instance result_ret : MRet result := fun A a => Ok a.
#[global] Instance result_bind : MBind result := fun A B f r =>
  match r with
  | Ok a => f a
  | Raise e => Raise e
  end.

(** [try: body  except Exception: handler] *)
Definition try_except {A} (body : result A) (handler : exn -> A) : A :=
  match body with
  | Ok a => a
  | Raise e => handler e
  end.

(** [v[k]] for a string key. *)
Definition subscript (v : json) (k : string) : result json :=
  match v with
  | JObj fields =>
      match assoc k fields with
      | Some x => Ok x
      | None => Raise (KeyError k)
      end
  | _ => Raise TypeError
  end.

(** [v.get(k, default)]; only a dict has the method. *)
Definition dict_get (v : json) (k : string) (dflt : json) : result json :=
  match v with
  | JObj fields => Ok (default dflt (assoc k fields))
  | _ => Raise AttributeError
  end.

(** What an HTTP exchange hands back when no exception was raised on
    the way: the status line and the body, [None] when the body is not
    a JSON document. *)
Record response : Type := { status_code : Z; body : option json }.

(** [response.raise_for_status()] *)
Definition raise_for_status (r : response) : result unit :=
  if (400 <=? status_code r) && (status_code r <? 600)
  then Raise (HTTPError (status_code r))
  else Ok tt.

(** [response.json()] *)
Definition response_json (r : response) : result json :=
  match body r with
  | Some j => Ok j
  | None => Raise JSONDecodeError
  end.

(** [a % b] on Python integers: the sign follows the divisor. *)
Definition py_mod (a b : Z) : result Z :=
  if b =? 0 then Raise ZeroDivisionError else Ok (a mod b).


(** ** app.py: similarity-matrix recommendations *)

Module App.

(** The pickled catalog: a data frame with a [title] column and,
    possibly, a [vote_average] column. Rows are addressed by position
    (the frame carries the default range index). *)
Inductive frame : Type :=
| Titles (rows : list string)
| Rated (rows : list (string * Q)).

Definition titles (df : frame) : list string :=
  match df with
  | Titles rows => rows
  | Rated rows => rows.*1
  end.

Definition len (df : frame) : nat := length (titles df).

(** ['vote_average' in movies.columns] *)
Definition has_vote_average (df : frame) : bool :=
  match df with
  | Titles _ => false
  | Rated _ => true
  end.

(** One row, [movies.iloc[i]]: its title and its [vote_average] when
    the column exists. *)
Definition iloc (df : frame) (i : nat) : result (string * option Q) :=
  match df with
  | Titles rows =>
      match rows !! i with
      | Some t => Ok (t, None)
      | None => Raise IndexError
      end
  | Rated rows =>
      match rows !! i with
      | Some (t, r) => Ok (t, Some r)
      | None => Raise IndexError
      end
  end.

(** [movies.sort_values(by='vote_average', ascending=False)] *)
Definition sort_values_desc (df : frame) : frame :=
  match df with
  | Titles rows => Titles rows
  | Rated rows => Rated (Py.sorted_desc snd rows)
  end.

(** [movies.iloc[a:b]] *)
Definition iloc_slice (df : frame) (a b : Z) : frame :=
  match df with
  | Titles rows => Titles (Py.slice (Some a) (Some b) rows)
  | Rated rows => Rated (Py.slice (Some a) (Some b) rows)
  end.

Definition no_image : string :=
  "https://via.placeholder.com/300x450?text=No+Image".

Definition bare_placeholder : string :=
  "https://via.placeholder.com/300x450".

(** [poster in [None, "N/A", ""]] *)
Definition missing_poster (poster : json) : bool :=
  match poster with
  | JNull => true
  | JStr s => String.eqb s "N/A" || String.eqb s ""
  | _ => false
  end.

(** [if poster in [None, "N/A", ""]: poster = "...No+Image"] *)
Definition poster_or_no_image (poster : json) : json :=
  if missing_poster poster then JStr no_image else poster.

(** A dict stored under ['title'] and ['rating'] in [recommend]. *)
Record recommendation : Type := { rec_title : string; rating : Q }.

(** [st.session_state]: a key may be absent ([None]), hold Python's
    [None] ([Some None]) or hold a title. *)
Record session_state : Type := {
  selected_movie_name : option (option string);
  movie_selectbox : option (option string);
  trending_offset : option Z
}.

Section Globals.

(** Module-level names of the script: the secret key, the loaded
    assets, and the network as [requests.get] sees it. *)
Variable API_KEY : string.
Variable movies : frame.
Variable similarity : list (list Q).
Variable requests_get : string -> result response.

Definition fetch_movie_details (title : string) : json :=
  let url := "https://www.omdbapi.com/?t=" +:+ title +:+ "&apikey=" +:+ API_KEY in
  try_except
    (response ← requests_get url;
     data ← response_json response;
     r ← dict_get data "Response" JNull;
     if eq_str r "True" then Ok data else Ok JNull)
    (fun _ => JNull).

(** [details.get("Poster") if details else otherwise] *)
Definition poster_of (details : json) (otherwise : json) : result json :=
  if truthy details then dict_get details "Poster" JNull else Ok otherwise.

(** [movies[movies["title"] == movie_name].index[0]] *)
Definition first_index (movie_name : string) : result nat :=
  match list_find (fun t => t = movie_name) (titles movies) with
  | Some (i, _) => Ok i
  | None => Raise IndexError
  end.

(** [movie_list]: the entries of the similarity row in descending
    order of score, without the first one, up to thirty. *)
Definition movie_list (distances : list Q) : list (nat * Q) :=
  Py.slice (Some 1) (Some 31) (Py.sorted_desc snd (Py.enumerate distances)).

(** [top_picks]: the recommendations in descending order of
    rating, cut at [num_movies]. *)
Definition top_picks (recommendations : list recommendation) (num_movies : Z)
  : list recommendation :=
  Py.slice None (Some num_movies) (Py.sorted_desc rating recommendations).

(** The poster appended for a pick in the last loop of
    [recommend]. *)
Definition recommend_poster (title : string) : result json :=
  let details := fetch_movie_details title in
  poster ← poster_of details JNull;
  mret (poster_or_no_image poster).

Definition recommend (movie_name : string) (num_movies : Z)
  : result (list string * list json) :=
  index ← first_index movie_name;
  distances ← match similarity !! index with
              | Some row => Ok row
              | None => Raise IndexError
              end;
  recommendations ←
    mapM (fun i : nat * Q =>
            m_data ← iloc movies i.1;
            mret {| rec_title := m_data.1; rating := default 0%Q m_data.2 |})
         (movie_list distances);
  posters ← mapM (fun m => recommend_poster (rec_title m))
                 (top_picks recommendations num_movies);
  mret (rec_title <$> top_picks recommendations num_movies, posters).

(** Poster shown in the detail view of the selected movie, reached
    only when the lookup gave a truthy [current_info]. *)
Definition detail_poster (current_info : json) : result json :=
  poster ← dict_get current_info "Poster" JNull;
  mret (poster_or_no_image poster).

(** Poster shown in the recommendation grid for an entry of the
    [posters] list that [recommend] returned. *)
Definition grid_poster (poster_url : json) : json :=
  poster_or_no_image poster_url.

(** Poster shown in the trending grid for a title. *)
Definition trending_poster (title : string) : result json :=
  let details := fetch_movie_details title in
  poster_url ← poster_of details (JStr bare_placeholder);
  mret (poster_or_no_image poster_url).

(** The block that reads the "movie" query-string parameter. *)
Definition handle_url_params (query_params : gmap string string)
    (st : session_state) : session_state :=
  match query_params !! "movie" with
  | Some url_movie =>
      if bool_decide (url_movie ∈ titles movies) then
        if bool_decide (selected_movie_name st = None)
           || negb (bool_decide (selected_movie_name st = Some (Some url_movie)))
        then {| selected_movie_name := Some (Some url_movie);
                movie_selectbox := Some (Some url_movie);
                trending_offset := trending_offset st |}
        else st
      else st
  | None => st
  end.

(** [if 'trending_offset' not in st.session_state: ... = 0] *)
Definition init_trending_offset (st : session_state) : session_state :=
  match trending_offset st with
  | Some _ => st
  | None => {| selected_movie_name := selected_movie_name st;
               movie_selectbox := movie_selectbox st;
               trending_offset := Some 0 |}
  end.

(** [if 'selected_movie_name' not in st.session_state: ... = None] *)
Definition init_selected_movie_name (st : session_state) : session_state :=
  match selected_movie_name st with
  | Some _ => st
  | None => {| selected_movie_name := Some None;
               movie_selectbox := movie_selectbox st;
               trending_offset := trending_offset st |}
  end.

(** The Refresh button: [st.session_state.trending_offset += 10]. The
    key is there once [init_trending_offset] has run. *)
Definition refresh (st : session_state) : result session_state :=
  match trending_offset st with
  | Some offset => Ok {| selected_movie_name := selected_movie_name st;
                         movie_selectbox := movie_selectbox st;
                         trending_offset := Some (offset + 10) |}
  | None => Raise AttributeError
  end.

(** [start_idx]: both branches of the trending view compute
    [trending_offset % (len(...) - 10)]; sorting keeps the length. *)
Definition start_idx (offset : Z) : result Z :=
  py_mod offset (Z.of_nat (len movies) - 10).

(** The titles displayed by the trending view. *)
Definition trending_titles (offset : Z) : result (list string) :=
  let shown := if has_vote_average movies then sort_values_desc movies else movies in
  start ← start_idx offset;
  mret (titles (iloc_slice shown start (start + 10))).

End Globals.

(** The similarity matrix has one row and one column per row of the
    catalog. *)
Definition square (movies : frame) (similarity : list (list Q)) : Prop :=
  length similarity = len movies
  /\ Forall (fun row => length row = len movies) similarity.

(** A string that starts like a web address. *)
Definition is_url (s : string) : bool :=
  String.prefix "http://" s || String.prefix "https://" s.

(** What the lookup service promises about the "Poster" field of a
    result: it is null, or a string that is empty, "N/A" or a web
    address. *)
Definition poster_contract (API_KEY : string)
    (requests_get : string -> result response) : Prop :=
  forall title fields p,
    fetch_movie_details API_KEY requests_get title = JObj fields ->
    assoc "Poster" fields = Some p ->
    p = JNull \/ exists s, p = JStr s /\ (s = "" \/ s = "N/A" \/ is_url s = true).

(** The selection held by a session is a title of the catalog, if
    it is a title at all: the select box offers the titles only. *)
Definition valid_selection (movies : frame) (st : session_state) : Prop :=
  forall t, selected_movie_name st = Some (Some t) -> t ∈ titles movies.

End App.

(** ** movie_recommender.py: the TMDb client *)

Module Recommender.

Definition TMDB_IMAGE_BASE_URL : string := "https://image.tmdb.org/t/p/w500".

Definition no_poster : string :=
  "https://via.placeholder.com/500x750?text=No+Poster".

(** The paths under [TMDB_BASE_URL] that the client requests. *)
Inductive endpoint : Type :=
| DiscoverMovie           (* /discover/movie *)
| TrendingMovieWeek       (* /trending/movie/week *)
| MoviePopular            (* /movie/popular *)
| SearchMovie             (* /search/movie *)
| MovieById (movie_id : json)  (* /movie/{movie_id} *)
| GenreMovieList.         (* /genre/movie/list *)

Record request : Type := {
  url : endpoint;
  headers : list (string * string);
  params : list (string * json)
}.

(** [datetime.now()] is read from a clock; a reading is a number. *)
Definition datetime : Type := Z.

(** The record kept for a liked movie. *)
Record liked : Type := {
  movie_data : json;
  liked_timestamp : datetime;
  liked_mode : string
}.

(** One entry of the search history. *)
Record search_entry : Type := {
  query : string;
  movie_ids : list json;
  languages : list json;
  entry_timestamp : datetime
}.

(** A pickle file on disk. *)
Inductive file (A : Type) : Type :=
| Missing
| Unreadable
| Pickled (a : A).
Arguments Missing {A}.
Arguments Unreadable {A}.
Arguments Pickled {A} a.

(** What happens to the file when it is opened for writing and the
    object is dumped: both succeed, [open] raises, or [dump] raises
    after the file was truncated. *)
Inductive write : Type :=
| Stored
| OpenFailed
| DumpFailed.

Definition dump {A} (w : write) (a : A) (f : file A) : file A :=
  match w with
  | Stored => Pickled a
  | OpenFailed => f
  | DumpFailed => Unreadable
  end.

(** [load_...]: the pickled object, or the empty one when the file
    does not exist or cannot be read. *)
Definition load {A} (empty : A) (f : file A) : A :=
  match f with
  | Pickled a => a
  | _ => empty
  end.

(** The attributes of a [MovieRecommender] that the methods below
    read or write, and the two files behind them. *)
Record MovieRecommender : Type := {
  api_key : string;
  user_search_history : list search_entry;
  liked_movies : gmap Z liked;
  search_history_file : file (list search_entry);
  liked_movies_file : file (gmap Z liked)
}.

(** [MovieRecommender(api_key)] over the files found on disk. *)
Definition init (key : string) (history_pkl : file (list search_entry))
    (liked_pkl : file (gmap Z liked)) : MovieRecommender :=
  {| api_key := key;
     user_search_history := load [] history_pkl;
     liked_movies := load ∅ liked_pkl;
     search_history_file := history_pkl;
     liked_movies_file := liked_pkl |}.

Definition with_liked_movies (m : gmap Z liked) (self : MovieRecommender)
  : MovieRecommender :=
  {| api_key := api_key self;
     user_search_history := user_search_history self;
     liked_movies := m;
     search_history_file := search_history_file self;
     liked_movies_file := liked_movies_file self |}.

Definition with_search_history (h : list search_entry) (self : MovieRecommender)
  : MovieRecommender :=
  {| api_key := api_key self;
     user_search_history := h;
     liked_movies := liked_movies self;
     search_history_file := search_history_file self;
     liked_movies_file := liked_movies_file self |}.

Definition save_search_history (w : write) (self : MovieRecommender)
  : MovieRecommender :=
  {| api_key := api_key self;
     user_search_history := user_search_history self;
     liked_movies := liked_movies self;
     search_history_file :=
       dump w (user_search_history self) (search_history_file self);
     liked_movies_file := liked_movies_file self |}.

Definition save_liked_movies (w : write) (self : MovieRecommender)
  : MovieRecommender :=
  {| api_key := api_key self;
     user_search_history := user_search_history self;
     liked_movies := liked_movies self;
     search_history_file := search_history_file self;
     liked_movies_file := dump w (liked_movies self) (liked_movies_file self) |}.

(** [mode or 'Unknown'] *)
Definition mode_or_unknown (mode : option string) : string :=
  match mode with
  | Some s => if String.eqb s "" then "Unknown" else s
  | None => "Unknown"
  end.

Definition like_movie (movie_id : Z) (data : json) (mode : option string)
    (now : datetime) (w : write) (self : MovieRecommender) : MovieRecommender :=
  let record := {| movie_data := data;
                   liked_timestamp := now;
                   liked_mode := mode_or_unknown mode |} in
  save_liked_movies w (with_liked_movies (<[movie_id := record]> (liked_movies self)) self).

Definition is_movie_liked (movie_id : Z) (self : MovieRecommender) : bool :=
  bool_decide (movie_id ∈ dom (liked_movies self)).

Definition unlike_movie (movie_id : Z) (w : write) (self : MovieRecommender)
  : MovieRecommender :=
  if is_movie_liked movie_id self
  then save_liked_movies w (with_liked_movies (delete movie_id (liked_movies self)) self)
  else self.

(** The [search_entry] dict built by [add_to_search_history];
    [movie_ids or []] and [languages or []] fill the omitted
    arguments. *)
Definition new_entry (q : string) (ids langs : option (list json)) (now : datetime)
  : search_entry :=
  {| query := q;
     movie_ids := default [] ids;
     languages := default [] langs;
     entry_timestamp := now |}.

Definition add_to_search_history (q : string) (ids langs : option (list json))
    (now : datetime) (w : write) (self : MovieRecommender) : MovieRecommender :=
  let appended := user_search_history self ++ [new_entry q ids langs now] in
  let kept := if (50 <? length appended)%nat
              then Py.slice (Some (-50)) None appended
              else appended in
  save_search_history w (with_search_history kept self).

(** The "Clear History" button of the sidebar. *)
Definition clear_history (w : write) (self : MovieRecommender) : MovieRecommender :=
  save_search_history w (with_search_history [] self).

(** The writers of [user_search_history] once the object is built. *)
Inductive history_op : Type :=
| AddToSearchHistory (q : string) (ids langs : option (list json)) (now : datetime)
| ClearHistory.

Definition apply_history_op (op : history_op) (w : write) (self : MovieRecommender)
  : MovieRecommender :=
  match op with
  | AddToSearchHistory q ids langs now => add_to_search_history q ids langs now w self
  | ClearHistory => clear_history w self
  end.

(** *** Remote calls *)

(** [k in v] for a string [k]. *)
Definition contains (k : string) (v : json) : result bool :=
  match v with
  | JObj fields => Ok (if assoc k fields is Some _ then true else false)
  | JArr items => Ok (existsb (fun x => eq_str x k) items)
  | JStr s => Ok (if String.index 0 k s is Some _ then true else false)
  | _ => Raise TypeError
  end.

(** The values a [for] loop over [v] goes through. *)
Definition iter (v : json) : result (list json) :=
  match v with
  | JArr items => Ok items
  | JObj fields => Ok (JStr <$> fields.*1)
  | JStr s => Ok ((fun c => JStr (String c EmptyString)) <$> String.list_ascii_of_string s)
  | _ => Raise TypeError
  end.

(** [v[:n]]. A list or a string can be sliced; anything else raises. *)
Definition slice_to (n : Z) (v : json) : result json :=
  match v with
  | JArr items => Ok (JArr (Py.slice None (Some n) items))
  | JStr s =>
      Ok (JStr (String.string_of_list_ascii (Py.slice None (Some n) (String.list_ascii_of_string s))))
  | _ => Raise TypeError
  end.

(** [sep.join(parts)]: every part has to be a string. *)
Definition join (sep : string) (parts : list json) : result string :=
  strs ← mapM (fun v => if v is JStr s then Ok s else Raise TypeError) parts;
  mret (String.concat sep strs).

Section Session.

(** [self.session.get(url, headers=..., params=..., timeout=10)]
    as the client sees it: a response, or the exception that the
    transport raised once its retries were used up. *)
Variable session_get : request -> result response.

(** The similarity of a target text to each text of a list:
    [cosine_similarity] over the [TfidfVectorizer] rows. The
    vectorizer raises on an empty vocabulary. *)
Variable tfidf_cosine : string -> list string -> result (list Q).

(** Python's [str] on a value that is not a string. *)
Variable str : json -> string.

Definition auth_headers (self : MovieRecommender) : list (string * string) :=
  [("Authorization", "Bearer " +:+ api_key self); ("accept", "application/json")].

Definition page_param (page : Z) : string * json := ("page", JNum (inject_Z page)).

(** The body of the [try] shared by the listing calls:
    [response = get(...); response.raise_for_status();
     return response.json()[key]]. *)
Definition request_field (req : request) (key : string) : result json :=
  response ← session_get req;
  _ ← raise_for_status response;
  data ← response_json response;
  subscript data key.

Definition fetch_trending_movies (self : MovieRecommender) (page : Z)
    (language_code year : json) : json :=
  let req :=
    if truthy language_code || truthy year then
      {| url := DiscoverMovie;
         headers := auth_headers self;
         params :=
           [("sort_by", JStr "popularity.desc"); page_param page]
           ++ (if truthy language_code
               then [("with_original_language", language_code)] else [])
           ++ (if truthy year then [("primary_release_year", year)] else []) |}
    else
      {| url := TrendingMovieWeek;
         headers := auth_headers self;
         params := [page_param page] |} in
  try_except (request_field req "results") (fun _ => JArr []).

Definition fetch_popular_movies (self : MovieRecommender) (page : Z) : json :=
  let req := {| url := MoviePopular;
                headers := auth_headers self;
                params := [page_param page] |} in
  try_except (request_field req "results") (fun _ => JArr []).

Definition search_movies (self : MovieRecommender) (q : string) (page : Z)
  : json * json :=
  let req := {| url := SearchMovie;
                headers := auth_headers self;
                params := [("query", JStr q); page_param page] |} in
  try_except
    (response ← session_get req;
     _ ← raise_for_status response;
     data ← response_json response;
     results ← subscript data "results";
     total_pages ← dict_get data "total_pages" (JNum 1);
     mret (results, total_pages))
    (fun _ => (JArr [], JNum 1)).

Definition get_movie_details (self : MovieRecommender) (movie_id : json) : json :=
  let req := {| url := MovieById movie_id;
                headers := auth_headers self;
                params := [("append_to_response", JStr "credits,keywords,similar")] |} in
  try_except
    (response ← session_get req;
     _ ← raise_for_status response;
     response_json response)
    (fun _ => JNull).

Definition get_movie_by_genre (self : MovieRecommender) (genre_id : json)
    (page : Z) : json :=
  let req := {| url := DiscoverMovie;
                headers := auth_headers self;
                params := [("with_genres", genre_id);
                           ("sort_by", JStr "popularity.desc");
                           page_param page] |} in
  try_except (request_field req "results") (fun _ => JArr []).

Definition get_genres (self : MovieRecommender) : json :=
  let req := {| url := GenreMovieList;
                headers := auth_headers self;
                params := [] |} in
  try_except (request_field req "genres") (fun _ => JArr []).

Definition get_movie_by_language (self : MovieRecommender) (language_code : json)
    (page : Z) : json :=
  let req := {| url := DiscoverMovie;
                headers := auth_headers self;
                params := [("with_original_language", language_code);
                           ("sort_by", JStr "popularity.desc");
                           page_param page] |} in
  try_except (request_field req "results") (fun _ => JArr []).

Definition get_movie_by_year (self : MovieRecommender) (year : json)
    (page : Z) : json :=
  let req := {| url := DiscoverMovie;
                headers := auth_headers self;
                params := [("primary_release_year", year);
                           ("sort_by", JStr "popularity.desc");
                           page_param page] |} in
  try_except (request_field req "results") (fun _ => JArr []).

Definition get_movies_with_filters (self : MovieRecommender)
    (genre_id language_code year : json) (page : Z) : json :=
  let req := {| url := DiscoverMovie;
                headers := auth_headers self;
                params :=
                  [("sort_by", JStr "popularity.desc"); page_param page]
                  ++ (if truthy genre_id then [("with_genres", genre_id)] else [])
                  ++ (if truthy language_code
                      then [("with_original_language", language_code)] else [])
                  ++ (if truthy year then [("primary_release_year", year)] else []) |} in
  try_except (request_field req "results") (fun _ => JArr []).

Definition get_latest_movies (self : MovieRecommender) (page : Z)
    (language_codes : option (list string)) (include_dubbed : bool) : json :=
  let codes := default [] language_codes in
  let req := {| url := DiscoverMovie;
                headers := auth_headers self;
                params :=
                  [("sort_by", JStr "primary_release_date.desc"); page_param page]
                  ++ (if (0 <? length codes)%nat then
                        if include_dubbed
                        then [("with_original_language", JStr (String.concat "|" codes))]
                        else [("with_original_language", JStr (String.concat "|" codes))]
                      else []) |} in
  try_except (request_field req "results") (fun _ => JArr []).

Definition get_dubbed_movies (self : MovieRecommender) (target_language : string)
    (exclude_original : bool) (page : Z) : json :=
  let req := {| url := DiscoverMovie;
                headers := auth_headers self;
                params :=
                  [("sort_by", JStr "popularity.desc"); page_param page;
                   ("vote_count.gte", JNum 100)]
                  ++ (if exclude_original
                      then [("with_original_language", JStr ("!" +:+ target_language))]
                      else []) |} in
  try_except (request_field req "results") (fun _ => JArr []).

(** The exchange for [req] went through: the transport returned a
    response, its status is not an error status, and its body is a
    JSON object. *)
Definition exchanged (req : request) (fields : list (string * json)) : Prop :=
  exists r, session_get req = Ok r
            /\ ~ (400 <= status_code r < 600)
            /\ body r = Some (JObj fields).

(** What a listing call may return: the empty list, or the value
    that a successful exchange with one of [endpoints] holds under
    [key]. *)
Definition empty_or_reported (v : json) (endpoints : list endpoint) (key : string)
  : Prop :=
  v = JArr []
  \/ exists req fields, url req ∈ endpoints
                        /\ exchanged req fields
                        /\ assoc key fields = Some v.

(** *** Content-based recommendations *)

(** [[x['name'] for x in items]] *)
Definition names (items : list json) : result (list json) :=
  mapM (fun x => subscript x "name") items.

Definition create_feature_string (movie : json) : result string :=
  has_genres ← contains "genres" movie;
  genres ← (if has_genres : bool then
              v ← subscript movie "genres"; items ← iter v; names items
            else Ok []);
  has_keywords ← (outer ← contains "keywords" movie;
                  if outer : bool then
                    v ← subscript movie "keywords"; contains "keywords" v
                  else Ok false);
  keywords ← (if has_keywords : bool then
                v ← subscript movie "keywords";
                ks ← subscript v "keywords";
                first ← slice_to 10 ks;
                items ← iter first;
                names items
              else Ok []);
  has_crew ← (outer ← contains "credits" movie;
              if outer : bool then
                v ← subscript movie "credits"; contains "crew" v
              else Ok false);
  directors ← (if has_crew : bool then
                 v ← subscript movie "credits";
                 crew ← subscript v "crew";
                 items ← iter crew;
                 picked ← mapM (fun c =>
                                  job ← subscript c "job";
                                  if eq_str job "Director"
                                  then n ← subscript c "name"; mret [n]
                                  else mret []) items;
                 mret (concat picked)
               else Ok []);
  has_cast ← (outer ← contains "credits" movie;
              if outer : bool then
                v ← subscript movie "credits"; contains "cast" v
              else Ok false);
  cast ← (if has_cast : bool then
            v ← subscript movie "credits";
            c ← subscript v "cast";
            first ← slice_to 5 c;
            items ← iter first;
            names items
          else Ok []);
  has_overview ← contains "overview" movie;
  overview ← (if has_overview : bool then
                v ← subscript movie "overview"; mret [v]
              else Ok []);
  join " " (genres ++ keywords ++ directors ++ cast ++ overview).

(** The loop over [movies_list]: for a candidate whose id differs
    from the target's and whose details can be fetched, the pair of
    its feature string and its details. *)
Definition candidate (self : MovieRecommender) (movie_id : Z) (movie : json)
  : result (option (string * json)) :=
  id ← subscript movie "id";
  if negb (eq_int id movie_id) then
    let details := get_movie_details self id in
    if truthy details then
      feature_str ← create_feature_string details;
      mret (Some (feature_str, details))
    else mret None
  else mret None.

Definition get_content_based_recommendations (self : MovieRecommender)
    (movie_id : Z) (movies_list : list json) (top_n : Z) : result (list json) :=
  let target_movie := get_movie_details self (JNum (inject_Z movie_id)) in
  if negb (truthy target_movie) then Ok [] else
  target_features ← create_feature_string target_movie;
  found ← mapM (candidate self movie_id) movies_list;
  let movie_features := (omap id found).*1 in
  let valid_movies := (omap id found).*2 in
  if (length movie_features =? 0)%nat then Ok [] else
  similarities ← tfidf_cosine target_features movie_features;
  let similar_indices :=
    reverse (Py.slice (Some (- top_n)) None (Py.argsort similarities)) in
  mapM (fun i => match valid_movies !! i with
                 | Some m => Ok m
                 | None => Raise IndexError
                 end)
       similar_indices.

(** *** The poster of a movie card *)

(** The image that [display_movie_card] shows. *)
Definition card_poster (movie : json) : result string :=
  poster_path ← dict_get movie "poster_path" JNull;
  if truthy poster_path then
    match poster_path with
    | JStr p => mret (TMDB_IMAGE_BASE_URL +:+ p)
    | v => mret (TMDB_IMAGE_BASE_URL +:+ str v)
    end
  else mret no_poster.

End Session.

(** *** Pagination in [main] *)

(** The choices of the sidebar radio. *)
Inductive mode : Type :=
| SearchMovies
| BrowseTrending
| LatestMovies
| BrowseByGenre
| BrowseByLanguage
| BrowseByYear
| DubbedMovies
| AdvancedFilters.

#[global] Instance mode_eq_dec : EqDecision mode.
Proof. solve_decision. Defined.

(** The buttons that move a page number. [Previous_top] stands for
    the key [prev_trending], [prev_latest], ... of the mode on
    screen, and so on for the other three; at most one button is
    pressed in a run of the script. *)
Inductive button : Type :=
| Previous_top
| Next_top
| Previous_bottom
| Next_bottom
| Previous_rec_top
| Next_rec_top
| Previous_rec_bottom
| Next_rec_bottom
| Back_to_browse.

#[global] Instance button_eq_dec : EqDecision button.
Proof. solve_decision. Defined.

(** The keys of [st.session_state] that pagination reads or writes.
    [search_page] and [recommendation_page] are created with value 1
    the first time their view is rendered, before any other use. *)
Record pages : Type := {
  current_page : Z;
  previous_mode : option mode;
  search_page : Z;
  previous_search_query : string;
  recommendation_page : Z
}.

(** A fresh session. *)
Definition fresh : pages :=
  {| current_page := 1;
     previous_mode := None;
     search_page := 1;
     previous_search_query := "";
     recommendation_page := 1 |}.

Definition set_current_page (p : Z) (s : pages) : pages :=
  {| current_page := p;
     previous_mode := previous_mode s;
     search_page := search_page s;
     previous_search_query := previous_search_query s;
     recommendation_page := recommendation_page s |}.

Definition set_previous_mode (m : mode) (s : pages) : pages :=
  {| current_page := current_page s;
     previous_mode := Some m;
     search_page := search_page s;
     previous_search_query := previous_search_query s;
     recommendation_page := recommendation_page s |}.

Definition set_search_page (p : Z) (s : pages) : pages :=
  {| current_page := current_page s;
     previous_mode := previous_mode s;
     search_page := p;
     previous_search_query := previous_search_query s;
     recommendation_page := recommendation_page s |}.

Definition set_previous_search_query (q : string) (s : pages) : pages :=
  {| current_page := current_page s;
     previous_mode := previous_mode s;
     search_page := search_page s;
     previous_search_query := q;
     recommendation_page := recommendation_page s |}.

Definition set_recommendation_page (p : Z) (s : pages) : pages :=
  {| current_page := current_page s;
     previous_mode := previous_mode s;
     search_page := search_page s;
     previous_search_query := previous_search_query s;
     recommendation_page := p |}.

(** What a run of the script reads from the widgets and from the
    network. The session keys that do not hold a page number are
    summarised by the flags, each of which may take any value. *)
Record inputs : Type := {
  mode_radio : mode;
  (** the [previous_...] key of the mode differs from its selection *)
  filter_changed : bool;
  (** [get_genres()] gave a truthy list (genre mode) *)
  genres_found : bool;
  (** the selectbox of the genre, language or year mode is truthy *)
  selected : bool;
  clicked : option button;
  (** what the listing call of the mode returns for a page *)
  listing : Z -> json;
  search_query : string;
  (** what [search_movies] returns for a page: the movies and the
      page count *)
  search_result : Z -> json * Z;
  (** [show_recommendations] and [selected_movie_id] are truthy *)
  panel_open : bool;
  (** the recommendations are computed anew in this run *)
  regenerate : bool;
  (** [st.session_state['all_recommendations']] once computed *)
  all_recommendations : list json
}.

(** [st.rerun()] ends the run at once. *)
Inductive outcome : Type :=
| Continue (s : pages)
| Rerun (s : pages).

Definition pressed (b : button) (i : inputs) : bool :=
  bool_decide (clicked i = Some b).

(** The page navigation shared by the seven browsing modes: the top
    buttons, the listing call, then the bottom buttons or the
    back-off on an empty listing. *)
Definition browse (i : inputs) (s : pages) : outcome :=
  if pressed Previous_top i && (1 <? current_page s) then
    Rerun (set_current_page (current_page s - 1) s)
  else if pressed Next_top i then
    Rerun (set_current_page (current_page s + 1) s)
  else if truthy (listing i (current_page s)) then
    if pressed Previous_bottom i && (1 <? current_page s) then
      Rerun (set_current_page (current_page s - 1) s)
    else if pressed Next_bottom i then
      Rerun (set_current_page (current_page s + 1) s)
    else Continue s
  else if 1 <? current_page s then
    Continue (set_current_page (current_page s - 1) s)
  else Continue s.

(** [if st.session_state['previous_...'] != selection:
       st.session_state['current_page'] = 1] *)
Definition reset_on_filter_change (i : inputs) (s : pages) : pages :=
  if filter_changed i then set_current_page 1 s else s.

Definition search (i : inputs) (s : pages) : outcome :=
  let s := if negb (String.eqb (search_query i) (previous_search_query s))
           then set_previous_search_query (search_query i) (set_search_page 1 s)
           else s in
  if negb (String.eqb (search_query i) "") then
    if pressed Previous_top i && (1 <? search_page s) then
      Rerun (set_search_page (search_page s - 1) s)
    else if pressed Next_top i then
      Rerun (set_search_page (search_page s + 1) s)
    else
      let '(movies, total_pages) := search_result i (search_page s) in
      if truthy movies then
        if pressed Previous_bottom i && (1 <? search_page s) then
          Rerun (set_search_page (search_page s - 1) s)
        else if pressed Next_bottom i && (search_page s <? total_pages) then
          Rerun (set_search_page (search_page s + 1) s)
        else Continue s
      else Continue s
  else Continue (set_search_page 1 s).

(** The branch of [main] for the mode on screen. *)
Definition render_mode (i : inputs) (s : pages) : outcome :=
  match mode_radio i with
  | SearchMovies => search i s
  | BrowseTrending | LatestMovies | DubbedMovies | AdvancedFilters =>
      browse i (reset_on_filter_change i s)
  | BrowseByGenre =>
      if genres_found i then
        let s := reset_on_filter_change i s in
        if selected i then browse i s else Continue s
      else Continue s
  | BrowseByLanguage | BrowseByYear =>
      let s := reset_on_filter_change i s in
      if selected i then browse i s else Continue s
  end.

(** The recommendation panel under the mode's view. *)
Definition render_panel (i : inputs) (s : pages) : pages :=
  if panel_open i then
    let s := if regenerate i then set_recommendation_page 1 s else s in
    let recommendations := all_recommendations i in
    let paged :=
      if (0 <? length recommendations)%nat then
        let items_per_page := 10 in
        let total_pages :=
          (Z.of_nat (length recommendations) + items_per_page - 1) / items_per_page in
        let current := recommendation_page s in
        if pressed Previous_rec_top i && (1 <? current) then
          Rerun (set_recommendation_page (recommendation_page s - 1) s)
        else if pressed Next_rec_top i && (current <? total_pages) then
          Rerun (set_recommendation_page (recommendation_page s + 1) s)
        else if pressed Previous_rec_bottom i && (1 <? current) then
          Rerun (set_recommendation_page (recommendation_page s - 1) s)
        else if pressed Next_rec_bottom i && (current <? total_pages) then
          Rerun (set_recommendation_page (recommendation_page s + 1) s)
        else Continue s
      else Continue s in
    match paged with
    | Rerun s' => s'
    | Continue s' =>
        if pressed Back_to_browse i then set_recommendation_page 1 s' else s'
    end
  else s.

(** One run of [main], as far as the page numbers go. *)
Definition main (i : inputs) (s : pages) : pages :=
  let s := if previous_mode s is Some _ then s else set_previous_mode (mode_radio i) s in
  let s := if bool_decide (previous_mode s = Some (mode_radio i)) then s
           else set_previous_mode (mode_radio i) (set_current_page 1 s) in
  match render_mode i s with
  | Rerun s' => s'
  | Continue s' => render_panel i s'
  end.

(** The sessions a user can get to. *)
Inductive reachable : pages -> Prop :=
| reachable_fresh : reachable fresh
| reachable_main i s : reachable s -> reachable (main i s).

(** The session a run ends with. *)
Definition final (o : outcome) : pages :=
  match o with
  | Continue s => s
  | Rerun s => s
  end.

(** No page number is below 1. *)
Definition pages_ok (s : pages) : Prop :=
  1 <= current_page s /\ 1 <= search_page s /\ 1 <= recommendation_page s.

End Recommender.

(** ** app.py: the rest of the script *)

Module AppView.
Import App.

Definition with_selected (v : option string) (st : session_state) : session_state :=
  {| selected_movie_name := Some v;
     movie_selectbox := movie_selectbox st;
     trending_offset := trending_offset st |}.

(** [set_movie] *)
Definition set_movie (movie_title : string) (st : session_state) : session_state :=
  {| selected_movie_name := Some (Some movie_title);
     movie_selectbox := Some (Some movie_title);
     trending_offset := trending_offset st |}.

(** [go_back]: the selection becomes [None] and
    [st.query_params.clear()] empties the query string. *)
Definition go_back (st : session_state) (query_params : gmap string string)
  : session_state * gmap string string :=
  (with_selected None st, ∅).

(** [default_index]: the position of the stored selection among the
    titles, [None] when nothing is stored or the value is no title. *)
Definition default_index (movies : frame) (st : session_state) : option nat :=
  match selected_movie_name st with
  | Some (Some val) => fst <$> list_find (fun t => t = val) (titles movies)
  | _ => None
  end.

(** A string in a condition. *)
Definition chosen (selected_movie : option string) : bool :=
  match selected_movie with
  | Some t => negb (String.eqb t "")
  | None => false
  end.

(** The two blocks after the select box: the stored selection follows
    the value [selected_movie] that the select box returned, and the
    "movie" parameter is written for a chosen movie and removed
    otherwise. The key [selected_movie_name] exists by then. *)
Definition sync_selection (selected_movie : option string) (st : session_state)
    (query_params : gmap string string)
  : result (session_state * gmap string string) :=
  match selected_movie_name st with
  | None => Raise AttributeError
  | Some current =>
      let st' := if bool_decide (selected_movie = current) then st
                 else with_selected selected_movie st in
      let query_params' :=
        match selected_movie with
        | Some t => if chosen selected_movie then <["movie" := t]> query_params
                    else delete "movie" query_params
        | None => delete "movie" query_params
        end in
      Ok (st', query_params')
  end.

(** [range(0, stop, step)] for a positive step. *)
Definition range_step (stop step : nat) : list nat :=
  (fun k => k * step)%nat <$> seq 0 ((stop + step - 1) / step).

(** The cells of one grid row: [for j in 0..4: if i + j < len(items):
    items[i + j]]. *)
Definition grid_row {A} (items : list A) (i : nat) : list A :=
  omap (fun j => if (i + j <? length items)%nat then items !! (i + j)%nat else None)
       (seq 0 5).

(** The rows of a card grid: [for i in range(0, len(items), 5)]. *)
Definition grid {A} (items : list A) : list (list A) :=
  grid_row items <$> range_step (length items) 5.

(** A session before the first run of the script. *)
Definition blank : session_state :=
  {| selected_movie_name := None; movie_selectbox := None; trending_offset := None |}.

(** The sessions that the handlers of the script lead to. *)
Inductive reachable (movies : frame) : session_state -> Prop :=
| reachable_blank : reachable movies blank
| reachable_url query_params st :
    reachable movies st -> reachable movies (handle_url_params movies query_params st)
| reachable_init st :
    reachable movies st ->
    reachable movies (init_selected_movie_name (init_trending_offset st))
| reachable_set_movie t st :
    reachable movies st -> reachable movies (set_movie t st)
| reachable_go_back query_params st :
    reachable movies st -> reachable movies (go_back st query_params).1
| reachable_sync selected_movie query_params st st' query_params' :
    reachable movies st ->
    sync_selection selected_movie st query_params = Ok (st', query_params') ->
    reachable movies st'
| reachable_refresh st st' :
    reachable movies st -> refresh st = Ok st' -> reachable movies st'.

End AppView.

(** ** movie_recommender.py: cards, sidebar and the recommendation panel *)

Module Views.
Import Recommender.

(** The Like or Unlike button of a movie card, whichever is drawn,
    when pressed; [movie_id] is the value of [movie['id']]. *)
Definition like_button_press (movie_id : Z) (movie : json) (current_mode : option string)
    (now : datetime) (w : write) (self : MovieRecommender) : MovieRecommender :=
  if is_movie_liked movie_id self
  then unlike_movie movie_id w self
  else like_movie movie_id movie current_mode now w self.

(** The "Recent Searches" of the sidebar:
    [[entry for entry in reversed(history[-5:])
      if entry['query'] != 'browsing']]. *)
Definition recent_searches (self : MovieRecommender) : list search_entry :=
  filter (fun entry => query entry <> "browsing")
         (reverse (Py.slice (Some (-5)) None (user_search_history self))).

(** The object that the next run of [main] builds: a new
    [MovieRecommender] over the files as they are. *)
Definition reopen (self : MovieRecommender) : MovieRecommender :=
  init (api_key self) (search_history_file self) (liked_movies_file self).

(** The object holds what its files hold. *)
Definition synced (self : MovieRecommender) : Prop := reopen self = self.

(** A press on the Like or Unlike button as the user meets it: the
    handler ends with [st.rerun()], and the run that follows builds
    its recommender from the files. *)
Definition press_like (movie_id : Z) (movie : json) (current_mode : option string)
    (now : datetime) (w : write) (self : MovieRecommender) : MovieRecommender :=
  reopen (like_button_press movie_id movie current_mode now w self).

(** The methods that write to the object. *)
Inductive method : Type :=
| Like (movie_id : Z) (data : json) (mode : option string) (now : datetime)
| Unlike (movie_id : Z)
| AddToHistory (q : string) (ids langs : option (list json)) (now : datetime)
| Clear.

Definition call (m : method) (w : write) (self : MovieRecommender) : MovieRecommender :=
  match m with
  | Like movie_id data mode now => like_movie movie_id data mode now w self
  | Unlike movie_id => unlike_movie movie_id w self
  | AddToHistory q ids langs now => add_to_search_history q ids langs now w self
  | Clear => clear_history w self
  end.

(** What the search view records once [search_movies] has returned
    [movies] for [search_page]: on the first page of a search with
    results, the ids of the movies and their truthy languages. *)
Definition track_search (search_query : string) (search_page : Z) (movies : json)
    (now : datetime) (w : write) (self : MovieRecommender) : result MovieRecommender :=
  if truthy movies then
    if search_page =? 1 then
      items ← iter movies;
      ids ← mapM (fun movie => subscript movie "id") items;
      langs ← mapM (fun movie =>
                      language ← dict_get movie "original_language" JNull;
                      mret (if truthy language then [language] else []))
                   items;
      mret (add_to_search_history search_query (Some ids) (Some (concat langs)) now w self)
    else Ok self
  else Ok self.

(** The arguments of one call of [add_to_search_history], with the
    clock reading and the outcome of the write. *)
Record search_call : Type := {
  call_query : string;
  call_ids : option (list json);
  call_langs : option (list json);
  call_now : datetime;
  call_write : write
}.

Definition entry_of (c : search_call) : search_entry :=
  new_entry (call_query c) (call_ids c) (call_langs c) (call_now c).

(** One call after the other. *)
Definition add_all (calls : list search_call) (self : MovieRecommender)
  : MovieRecommender :=
  foldl (fun s c =>
           add_to_search_history (call_query c) (call_ids c) (call_langs c)
             (call_now c) (call_write c) s)
        self calls.

End Views.

(** ** movie_recommender.py: the recommendation panel of [main] *)

Module Panel.
Import Recommender.

(** The keys of [st.session_state] behind the panel, each with the
    value it is created with. *)
Record state : Type := {
  selected_movie_id : option Z;
  show_recommendations : bool;
  all_recommendations : list json;
  last_recommended_movie_id : option Z;
  recommendation_page : Z
}.

Definition fresh : state :=
  {| selected_movie_id := None;
     show_recommendations := false;
     all_recommendations := [];
     last_recommended_movie_id := None;
     recommendation_page := 1 |}.

Definition set_page (p : Z) (s : state) : state :=
  {| selected_movie_id := selected_movie_id s;
     show_recommendations := show_recommendations s;
     all_recommendations := all_recommendations s;
     last_recommended_movie_id := last_recommended_movie_id s;
     recommendation_page := p |}.

(** The Recommend button of a movie card. *)
Definition press_recommend (movie_id : Z) (s : state) : state :=
  {| selected_movie_id := Some movie_id;
     show_recommendations := true;
     all_recommendations := all_recommendations s;
     last_recommended_movie_id := last_recommended_movie_id s;
     recommendation_page := recommendation_page s |}.

(** The "Back to Browse" button. *)
Definition back_to_browse (s : state) : state :=
  {| selected_movie_id := None;
     show_recommendations := false;
     all_recommendations := [];
     last_recommended_movie_id := last_recommended_movie_id s;
     recommendation_page := 1 |}.

Definition items_per_page : Z := 10.

(** [(len(recommendations) + items_per_page - 1) // items_per_page] *)
Definition total_pages (recommendations : list json) : Z :=
  (Z.of_nat (length recommendations) + items_per_page - 1) / items_per_page.

(** [recommendations[start_idx:end_idx]] for the page on screen. *)
Definition page_recommendations (recommendations : list json) (current_page : Z)
  : list json :=
  let start_idx := (current_page - 1) * items_per_page in
  let end_idx := Z.min (start_idx + items_per_page) (Z.of_nat (length recommendations)) in
  Py.slice (Some start_idx) (Some end_idx) recommendations.

(** How a run goes on after a block: to the next statement, or no
    further because [st.rerun()] was called. *)
Inductive flow : Type :=
| Go (s : state)
| Stop (s : state).

Section Session.
Variable session_get : request -> result response.
Variable tfidf_cosine : string -> list string -> result (list Q).

(** [base_movies]: five pages of popular movies, each added with
    [extend]. *)
Definition base_movies (self : MovieRecommender) : result (list json) :=
  pages ← mapM (fun page => iter (fetch_popular_movies session_get self page))
               [1; 2; 3; 4; 5];
  mret (concat pages).

(** The recommendations are computed when there are none or when they
    were computed for another movie. *)
Definition generate (self : MovieRecommender) (movie_id : Z) (s : state) : result state :=
  if (length (all_recommendations s) =? 0)%nat
     || negb (bool_decide (last_recommended_movie_id s = Some movie_id))
  then
    movies ← base_movies self;
    all_recs ← get_content_based_recommendations session_get tfidf_cosine self
                 movie_id movies 50;
    mret {| selected_movie_id := selected_movie_id s;
            show_recommendations := show_recommendations s;
            all_recommendations := all_recs;
            last_recommended_movie_id := Some movie_id;
            recommendation_page := 1 |}
  else Ok s.

(** The page buttons above and below the cards. *)
Definition paginate (clicked : option button) (s : state) : flow :=
  let recommendations := all_recommendations s in
  if (0 <? length recommendations)%nat then
    let current_page := recommendation_page s in
    if bool_decide (clicked = Some Previous_rec_top) && (1 <? current_page) then
      Stop (set_page (recommendation_page s - 1) s)
    else if bool_decide (clicked = Some Next_rec_top)
            && (current_page <? total_pages recommendations) then
      Stop (set_page (recommendation_page s + 1) s)
    else if bool_decide (clicked = Some Previous_rec_bottom) && (1 <? current_page) then
      Stop (set_page (recommendation_page s - 1) s)
    else if bool_decide (clicked = Some Next_rec_bottom)
            && (current_page <? total_pages recommendations) then
      Stop (set_page (recommendation_page s + 1) s)
    else Go s
  else Go s.

(** The panel in one run of [main]. An exception of the
    recommendation call ends the run with the session as it was. *)
Definition render (clicked : option button) (self : MovieRecommender) (s : state)
  : result state :=
  match selected_movie_id s with
  | Some movie_id =>
      if show_recommendations s && negb (movie_id =? 0) then
        s1 ← generate self movie_id s;
        match paginate clicked s1 with
        | Stop s2 => Ok s2
        | Go s2 =>
            if bool_decide (clicked = Some Back_to_browse)
            then Ok (back_to_browse s2) else Ok s2
        end
      else Ok s
  | None => Ok s
  end.

(** The sessions that the buttons lead to. *)
Inductive reachable : state -> Prop :=
| reachable_fresh : reachable fresh
| reachable_recommend movie_id s :
    reachable s -> reachable (press_recommend movie_id s)
| reachable_render clicked self s s' :
    reachable s -> render clicked self s = Ok s' -> reachable s'.

End Session.

(** The page number is one of the pages that exist. *)
Definition in_range (s : state) : Prop :=
  1 <= recommendation_page s
  /\ (all_recommendations s <> [] ->
      recommendation_page s <= total_pages (all_recommendations s)).

End Panel.

(** ** movie_recommender.py: the end of [get_recommendations_from_history] *)

Module History.
Import Recommender.

(** Lists and dicts cannot be members of a set. *)
Definition hashable (v : json) : bool :=
  match v with
  | JArr _ | JObj _ => false
  | _ => true
  end.

(** The number a value stands for in a comparison: [True] is 1 and
    [False] is 0. *)
Definition number (v : json) : option Q :=
  match v with
  | JNum q => Some q
  | JBool b => Some (if b then 1 else 0)%Q
  | _ => None
  end.

(** [v == w] for two hashable values. *)
Definition py_eq (v w : json) : bool :=
  match v, w with
  | JNull, JNull => true
  | JStr s, JStr t => String.eqb s t
  | _, _ =>
      match number v, number w with
      | Some p, Some q => Qeq_bool p q
      | _, _ => false
      end
  end.

(** [set(items)], kept as the list of its members: the code only asks
    whether a value is in the set, adds to it, or hands it on. *)
Definition set_of (items : list json) : result (list json) :=
  if forallb hashable items then Ok items else Raise TypeError.

(** [x in members] *)
Definition set_contains (x : json) (members : list json) : result bool :=
  if hashable x then Ok (existsb (py_eq x) members) else Raise TypeError.

(** [all_movie_ids]: the ids of every entry of the search history. *)
Definition all_movie_ids (self : MovieRecommender) : list json :=
  concat (movie_ids <$> user_search_history self).

(** The loop that removes duplicates and the movies that are in the
    history already: a movie is kept when its id is not in
    [seen_ids], and its id is added to [seen_ids]. *)
Fixpoint unique_recommendations (seen_ids : list json) (recommended_movies : list json)
  : result (list json) :=
  match recommended_movies with
  | [] => Ok []
  | movie :: rest =>
      id ← subscript movie "id";
      seen ← set_contains id seen_ids;
      if seen : bool then unique_recommendations seen_ids rest
      else more ← unique_recommendations (id :: seen_ids) rest; mret (movie :: more)
  end.

(** [liked_genres]: the [genre_ids] of the liked movies, in one set. *)
Definition liked_genres (liked_movie_details : list json) : result (list json) :=
  groups ← mapM (fun liked_movie =>
                   genre_ids ← dict_get liked_movie "genre_ids" (JArr []);
                   items ← iter genre_ids;
                   set_of items)
                liked_movie_details;
  mret (concat groups).

Section Scoring.

(** The score that the body of the scoring loop gives a movie, for
    the liked genres and for the languages, genres and year of the
    call: a float, taken as the rational it is ([nan] does not come
    out of TMDb's numbers). The body can raise, on a popularity that
    is no number for one. *)
Variable score : list json -> json -> result Q.

(** From [recommended_movies] to the value returned. *)
Definition top_scored (all_ids liked_movie_details recommended_movies : list json)
    (top_n : Z) : result (list json) :=
  seen_ids ← set_of all_ids;
  unique ← unique_recommendations seen_ids recommended_movies;
  genres ← liked_genres liked_movie_details;
  scored_movies ← mapM (fun movie => s ← score genres movie; mret (s, movie)) unique;
  mret (Py.slice None (Some top_n) (Py.sorted_desc fst scored_movies)).*2.

End Scoring.

(** Two movies whose ids differ. *)
Definition other_id (movie movie' : json) : Prop :=
  forall id id', subscript movie "id" = Ok id -> subscript movie' "id" = Ok id' ->
                 py_eq id id' = false.

(** A movie whose id is none of [ids]. *)
Definition unseen (ids : list json) (movie : json) : Prop :=
  exists id, subscript movie "id" = Ok id /\ Forall (fun seen => py_eq id seen = false) ids.

End History.

(** ** movie_recommender.py: the preferred languages *)

Module Languages.
Import Recommender History.

(** [language_frequency[lang] = language_frequency.get(lang, 0) + 1]
    on a dict kept as the list of its items in insertion order: the
    count of the key that equals [lang] goes up, or [lang] becomes a
    new key at the end. *)
Fixpoint bump (lang : json) (items : list (json * Z)) : list (json * Z) :=
  match items with
  | [] => [(lang, 1)]
  | (key, count) :: rest =>
      if py_eq key lang then (key, count + 1) :: rest
      else (key, count) :: bump lang rest
  end.

(** The counting loop, from the dict [items] on. A value that is
    truthy and cannot be hashed raises. *)
Fixpoint count_languages (items : list (json * Z)) (langs : list json)
  : result (list (json * Z)) :=
  match langs with
  | [] => Ok items
  | lang :: rest =>
      if truthy lang then
        if hashable lang then count_languages (bump lang items) rest
        else Raise TypeError
      else count_languages items rest
  end.

Definition language_frequency (langs : list json) : result (list (json * Z)) :=
  count_languages [] langs.

(** [language_frequency[x]] for the sort key; [x] is one of the keys
    whenever the code asks. *)
Definition frequency_of (items : list (json * Z)) (x : json) : Z :=
  match list_find (fun item : json * Z => py_eq item.1 x = true) items with
  | Some (_, item) => item.2
  | None => 0
  end.

(** [preferred_languages]: the keys counted twice or more, sorted by
    count, largest first. *)
Definition preferred_languages (langs : list json) : result (list json) :=
  items ← language_frequency langs;
  let preferred := (filter (fun item : json * Z => 2 <= item.2) items).*1 in
  mret (Py.sorted_desc (fun x => inject_Z (frequency_of items x)) preferred).

(** How often a language was searched: the truthy values of [langs]
    that equal [x]. *)
Definition searches (langs : list json) (x : json) : Z :=
  Z.of_nat (length (filter (fun lang => truthy lang && py_eq x lang = true) langs)).

End Languages.

(** ** The remote calls: what they return *)

Module Remote.
Import Recommender.

Section Session.
Variable session_get : request -> result response.

(** The exchange for [req] went through and the JSON object it
    returned holds [v] under [key]. *)
Definition reports (req : request) (key : string) (v : json) : Prop :=
  exists fields, exchanged session_get req fields /\ assoc key fields = Some v.

(** [req] goes to [target] with the client's headers. *)
Definition asks (self : MovieRecommender) (target : endpoint) (req : request) : Prop :=
  url req = target /\ headers req = auth_headers self.

(** A call that sends [req] and reads [key] returns [value]: what the
    exchange reports under the key, and [empty] when anything fails
    on the way, be it an exception of the transport, an error status,
    a body that is no JSON object, or a missing key. The exception
    of the transport is spelled out. *)
Definition degrades_to (empty value : json) (req : request) (key : string) : Prop :=
  (forall v, reports req key v -> value = v)
  /\ ((forall v, ~ reports req key v) -> value = empty)
  /\ (forall e, session_get req = Raise e -> value = empty).

(** The search returns a pair: the results with the reported page
    count, 1 when the count is absent, and the empty list with 1 when
    anything fails. *)
Definition search_degrades (value : json * json) (req : request) : Prop :=
  (forall fields results,
      exchanged session_get req fields -> assoc "results" fields = Some results ->
      value = (results, default (JNum 1) (assoc "total_pages" fields)))
  /\ ((forall v, ~ reports req "results" v) -> value = (JArr [], JNum 1))
  /\ (forall e, session_get req = Raise e -> value = (JArr [], JNum 1)).

(** The lookup of one movie returns the body of the answer, whatever
    JSON value it is, and [None] when anything fails. *)
Definition details_degrade (value : json) (req : request) : Prop :=
  (forall r data,
      session_get req = Ok r -> ~ (400 <= status_code r < 600) -> body r = Some data ->
      value = data)
  /\ ((forall r data,
          session_get req = Ok r -> ~ (400 <= status_code r < 600) ->
          body r <> Some data) ->
      value = JNull)
  /\ (forall e, session_get req = Raise e -> value = JNull).

End Session.

(** The OMDb lookup of app.py returns the JSON object of the answer
    when its "Response" is "True", and [None] otherwise or when
    anything fails. *)
Definition omdb_degrades (requests_get : string -> result response) (value : json)
    (address : string) : Prop :=
  (forall r fields,
      requests_get address = Ok r -> body r = Some (JObj fields) ->
      assoc "Response" fields = Some (JStr "True") ->
      value = JObj fields)
  /\ ((forall r fields,
          requests_get address = Ok r -> body r = Some (JObj fields) ->
          assoc "Response" fields <> Some (JStr "True")) ->
      value = JNull)
  /\ (forall e, requests_get address = Raise e -> value = JNull).

End Remote.

(** ** app.py: the poster that belongs to a name *)

Module Lookup.
Import App.

Section Service.
Variable API_KEY : string.
Variable requests_get : string -> result response.

(** OMDb answers the lookup of [title] with a result, a JSON object
    whose "Response" is "True", that holds [p] under "Poster". *)
Definition reported_poster (title : string) (p : json) : Prop :=
  exists r fields,
    requests_get ("https://www.omdbapi.com/?t=" +:+ title +:+ "&apikey=" +:+ API_KEY) = Ok r
    /\ body r = Some (JObj fields)
    /\ assoc "Response" fields = Some (JStr "True")
    /\ assoc "Poster" fields = Some p.

(** [poster] is the poster of [name]: the value that OMDb reports
    for the name, unless that value is [None], "N/A" or empty; the
    placeholder when it is one of these, when the result holds no
    poster and when the lookup fails. *)
Definition poster_for (name : string) (poster : json) : Prop :=
  (forall p, reported_poster name p -> missing_poster p = false -> poster = p)
  /\ ((forall p, reported_poster name p -> missing_poster p = true) ->
      poster = JStr no_image).

End Service.

End Lookup.

(** ** app.py: the trending view, whatever order the sort gives ties *)

Module Trending.
Import App.

(** What [sort_values(by='vote_average', ascending=False)] gives for
    a rated frame: the same rows, rearranged so that no rating is
    above one before it. pandas sorts with quicksort unless told
    otherwise, so the order of rows with equal ratings is left open. *)
Definition sorts_by_rating (sort_values : frame -> frame) : Prop :=
  forall rows, exists sorted,
    sort_values (Rated rows) = Rated sorted
    /\ sorted ≡ₚ rows
    /\ StronglySorted (Py.desc snd) sorted.

Section Sort.
Variable sort_values : frame -> frame.
Variable movies : frame.

(** [trending_movies]: the two branches of the trending view. *)
Definition trending_movies (offset : Z) : result frame :=
  if has_vote_average movies then
    let sorted_movies := sort_values movies in
    start_idx ← py_mod offset (Z.of_nat (len sorted_movies) - 10);
    mret (iloc_slice sorted_movies start_idx (start_idx + 10))
  else
    start_idx ← py_mod offset (Z.of_nat (len movies) - 10);
    mret (iloc_slice movies start_idx (start_idx + 10)).

(** [trending_titles = trending_movies['title'].tolist()] *)
Definition trending_titles (offset : Z) : result (list string) :=
  shown ← trending_movies offset;
  mret (titles shown).

End Sort.

End Trending.

(** ** movie_recommender.py: a browsing view across runs *)

Module Browsing.
Import Recommender.

(** In run [i] the listing of the browsing mode [m] is on screen: the
    radio is on [m], the filter of the mode is the one of the run
    before, and the selections that the mode asks for are made. *)
Definition on_screen (m : mode) (i : inputs) : Prop :=
  mode_radio i = m
  /\ m <> SearchMovies
  /\ filter_changed i = false
  /\ genres_found i = true
  /\ selected i = true.

End Browsing.

(** ** Sample data *)

Module Demo.
Import Recommender.

(** A TMDb list entry. *)
Definition matrix : json :=
  JObj [("id", JNum 603); ("title", JStr "The Matrix");
        ("poster_path", JStr "/matrix.jpg"); ("original_language", JStr "en")].

Definition matrix_search : search_entry :=
  {| query := "matrix";
     movie_ids := [JNum 603];
     languages := [JStr "en"];
     entry_timestamp := 1700000000 |}.

(** A recommender with one liked movie and one search on record. *)
Definition recommender : MovieRecommender :=
  init "key"
       (Pickled [matrix_search])
       (Pickled {[ 603 := {| movie_data := matrix;
                             liked_timestamp := 1700000100;
                             liked_mode := "Search Movies" |} ]}).

(** A catalog of 25 titles without ratings. *)
Definition shelf : App.frame := App.Titles (replicate 25 "Untitled").

(** A run in the trending mode with a press on the top Next button
    and a listing of one movie. *)
Definition next_click : inputs :=
  {| mode_radio := BrowseTrending;
     filter_changed := false;
     genres_found := false;
     selected := false;
     clicked := Some Next_top;
     listing := fun _ => JArr [matrix];
     search_query := "";
     search_result := fun _ => (JArr [], 1);
     panel_open := false;
     regenerate := false;
     all_recommendations := [] |}.

(** A network that is down. *)
Definition offline : string -> result response := fun _ => Raise ConnectionError.

(** [str] on the values met in the samples. *)
Definition str (v : json) : string :=
  match v with
  | JStr s => s
  | JBool true => "True"
  | JBool false => "False"
  | _ => "None"
  end.

(** The details that the service holds for two films. *)
Definition matrix_details : json :=
  JObj [("id", JNum 603); ("title", JStr "The Matrix");
        ("genres", JArr [JObj [("id", JNum 28); ("name", JStr "Action")]]);
        ("overview", JStr "A hacker learns what the world is.")].

Definition reloaded : json :=
  JObj [("id", JNum 604); ("title", JStr "The Matrix Reloaded");
        ("poster_path", JNull); ("original_language", JStr "en")].

Definition reloaded_details : json :=
  JObj [("id", JNum 604); ("title", JStr "The Matrix Reloaded");
        ("genres", JArr [JObj [("id", JNum 28); ("name", JStr "Action")]]);
        ("overview", JStr "The war against the machines goes on.")].

(** A TMDb service that knows these two films. *)
Definition tmdb (req : request) : result response :=
  match url req with
  | MovieById (JNum q) =>
      if Qeq_bool q 603 then Ok {| status_code := 200; body := Some matrix_details |}
      else if Qeq_bool q 604 then Ok {| status_code := 200; body := Some reloaded_details |}
      else Ok {| status_code := 404; body := Some (JObj [("success", JBool false)]) |}
  | _ => Raise Timeout
  end.

(** A stand-in for the similarity computation: the same score for
    every text. *)
Definition flat_scores (target : string) (texts : list string) : result (list Q) :=
  Ok (replicate (length texts) (1 # 2)).

(** A catalog of 31 rated films and a similarity matrix over it: 1 on
    the diagonal, smaller the further two rows are apart. *)
Definition library : App.frame :=
  App.Rated
    [("Film 01", 50 # 10);
     ("Film 02", 57 # 10);
     ("Film 03", 64 # 10);
     ("Film 04", 71 # 10);
     ("Film 05", 78 # 10);
     ("Film 06", 85 # 10);
     ("Film 07", 52 # 10);
     ("Film 08", 59 # 10);
     ("Film 09", 66 # 10);
     ("Film 10", 73 # 10);
     ("Film 11", 80 # 10);
     ("Film 12", 87 # 10);
     ("Film 13", 54 # 10);
     ("Film 14", 61 # 10);
     ("Film 15", 68 # 10);
     ("Film 16", 75 # 10);
     ("Film 17", 82 # 10);
     ("Film 18", 89 # 10);
     ("Film 19", 56 # 10);
     ("Film 20", 63 # 10);
     ("Film 21", 70 # 10);
     ("Film 22", 77 # 10);
     ("Film 23", 84 # 10);
     ("Film 24", 51 # 10);
     ("Film 25", 58 # 10);
     ("Film 26", 65 # 10);
     ("Film 27", 72 # 10);
     ("Film 28", 79 # 10);
     ("Film 29", 86 # 10);
     ("Film 30", 53 # 10);
     ("Film 31", 60 # 10)]%Q.

Definition closeness : list (list Q) :=
  (fun i => (fun j => if (i =? j)%nat then 1%Q
                      else 1 # Pos.of_nat (1 + (i - j) + (j - i))) <$> seq 0 31)
  <$> seq 0 31.

(** An OMDb service that knows the poster of one film and reports
    "N/A" for another. *)
Definition omdb (address : string) : result response :=
  if String.eqb address "https://www.omdbapi.com/?t=Film 06&apikey=key" then
    Ok {| status_code := 200;
          body := Some (JObj [("Response", JStr "True");
                              ("Poster", JStr "https://img.omdbapi.com/film06.jpg")]) |}
  else if String.eqb address "https://www.omdbapi.com/?t=Film 04&apikey=key" then
    Ok {| status_code := 200;
          body := Some (JObj [("Response", JStr "True"); ("Poster", JStr "N/A")]) |}
  else
    Ok {| status_code := 200;
          body := Some (JObj [("Response", JStr "False");
                              ("Error", JStr "Movie not found!")]) |}.

(** Four films, the first two with the same tags: their similarity
    is 1, as on the diagonal. *)
Definition twins : list (list Q) :=
  [[1; 1; 4 # 10; 1 # 10];
   [1; 1; 4 # 10; 1 # 10];
   [4 # 10; 4 # 10; 1; 2 # 10];
   [1 # 10; 1 # 10; 2 # 10; 1]]%Q.

(** A small rated catalog. *)
Definition catalog : App.frame :=
  App.Rated [("Alien", 81 # 10); ("Aliens", 79 # 10); ("Brazil", 77 # 10);
             ("Heat", 79 # 10)]%Q.

(** A session in which nothing was selected yet. *)
Definition idle : App.session_state :=
  {| App.selected_movie_name := Some None;
     App.movie_selectbox := None;
     App.trending_offset := Some 0 |}.

End Demo.

(** ** More sample data *)

Module Samples.
Import Recommender.

(** A catalog of exactly ten titles. *)
Definition ten : App.frame :=
  App.Titles ["Alien"; "Aliens"; "Brazil"; "Heat"; "Jaws";
              "Psycho"; "Ran"; "Solaris"; "Stalker"; "Vertigo"].

(** Details that come without a text for the overview. *)
Definition untranslated_details : json :=
  JObj [("id", JNum 603); ("title", JStr "The Matrix"); ("overview", JNull)].

Definition tmdb_untranslated (req : request) : result response :=
  match url req with
  | MovieById _ => Ok {| status_code := 200; body := Some untranslated_details |}
  | _ => Raise Timeout
  end.

(** A scoring that gives every movie the same score. *)
Definition level (genres : list json) (movie : json) : result Q := Ok 1%Q.

(** The languages of a history of searches. *)
Definition spoken : list json :=
  [JStr "fr"; JStr "en"; JStr ""; JStr "en"; JStr "de"; JStr "fr"; JStr "en"].

(** An OMDb service that writes "n/a" where it has no poster. *)
Definition omdb_lowercase (address : string) : result response :=
  Ok {| status_code := 200;
        body := Some (JObj [("Response", JStr "True"); ("Poster", JStr "n/a")]) |}.

(** A listing entry without a language. *)
Definition silent : json :=
  JObj [("id", JNum 700); ("title", JStr "Silent"); ("original_language", JStr "")].

(** Two more films, and a TMDb service that knows the four and
    lists them as popular, four to a page. *)
Definition revolutions : json :=
  JObj [("id", JNum 605); ("title", JStr "The Matrix Revolutions");
        ("poster_path", JNull); ("original_language", JStr "en")].

Definition revolutions_details : json :=
  JObj [("id", JNum 605); ("title", JStr "The Matrix Revolutions");
        ("genres", JArr [JObj [("id", JNum 28); ("name", JStr "Action")]]);
        ("overview", JStr "The war ends.")].

Definition animatrix : json :=
  JObj [("id", JNum 606); ("title", JStr "The Animatrix");
        ("poster_path", JNull); ("original_language", JStr "ja")].

Definition animatrix_details : json :=
  JObj [("id", JNum 606); ("title", JStr "The Animatrix");
        ("genres", JArr [JObj [("id", JNum 16); ("name", JStr "Animation")]]);
        ("overview", JStr "Nine short films.")].

Definition franchise (req : request) : result response :=
  match url req with
  | MovieById (JNum q) =>
      if Qeq_bool q 603 then Ok {| status_code := 200; body := Some Demo.matrix_details |}
      else if Qeq_bool q 604
      then Ok {| status_code := 200; body := Some Demo.reloaded_details |}
      else if Qeq_bool q 605
      then Ok {| status_code := 200; body := Some revolutions_details |}
      else if Qeq_bool q 606
      then Ok {| status_code := 200; body := Some animatrix_details |}
      else Ok {| status_code := 404; body := Some (JObj [("success", JBool false)]) |}
  | MoviePopular =>
      Ok {| status_code := 200;
            body := Some (JObj [("results",
                                 JArr [Demo.matrix; Demo.reloaded; revolutions;
                                       animatrix])]) |}
  | _ => Raise Timeout
  end.

(** A stand-in for the similarity computation that scores the texts
    higher and higher: 1/100 for the first, 2/100 for the second, and
    so on. *)
Definition rising (target : string) (texts : list string) : result (list Q) :=
  Ok (imap (fun i _ => Z.of_nat (S i) # 100) texts).

(** A network that is down, as the TMDb client sees it. *)
Definition unplugged : request -> result response := fun _ => Raise ConnectionError.

(** The panel with the recommendations for movie 603 on screen. *)
Definition open_panel : Panel.state :=
  {| Panel.selected_movie_id := Some 603;
     Panel.show_recommendations := true;
     Panel.all_recommendations := [Demo.reloaded_details];
     Panel.last_recommended_movie_id := Some 603;
     Panel.recommendation_page := 1 |}.

(** A session on page 3 of the trending view. *)
Definition third_page : pages :=
  {| current_page := 3;
     previous_mode := Some BrowseTrending;
     search_page := 1;
     previous_search_query := "";
     recommendation_page := 1 |}.

(** A run in mode [m] with button [b] pressed, a listing of one
    movie on every page and the panel closed. *)
Definition run (m : mode) (b : option button) : inputs :=
  {| mode_radio := m;
     filter_changed := false;
     genres_found := true;
     selected := true;
     clicked := b;
     listing := fun _ => JArr [Demo.matrix];
     search_query := "";
     search_result := fun _ => (JArr [], 1);
     panel_open := false;
     regenerate := false;
     all_recommendations := [] |}.

(** The same with a listing that ends after page [last_page]. *)
Definition run_until (last_page : Z) (m : mode) (b : option button) : inputs :=
  {| mode_radio := m;
     filter_changed := false;
     genres_found := true;
     selected := true;
     clicked := b;
     listing := fun page => if page <=? last_page then JArr [Demo.matrix] else JArr [];
     search_query := "";
     search_result := fun _ => (JArr [], 1);
     panel_open := false;
     regenerate := false;
     all_recommendations := [] |}.

End Samples.

(** * Properties *)

(** ** Slices and sorting *)

Section PyFacts.
Context {A : Type}.
Implicit Types (l : list A) (before : A -> A -> bool) (key : A -> Q).

Lemma slice_to_take (n : Z) l :
  0 <= n -> Py.slice None (Some n) l = take (Z.to_nat n) l.
Proof.
  intros Hn. unfold Py.slice, Py.slice_bound. simpl.
  destruct (Z.ltb_spec n 0) as [|_]; [exfalso; lia|].
  rewrite drop_0, Z.sub_0_r.
  destruct (Z.min_spec n (Z.of_nat (length l))) as [[? ->]|[? ->]]; [done|].
  rewrite Nat2Z.id, firstn_all.
  symmetry. apply take_ge. lia.
Qed.

Lemma slice_1_31 l : Py.slice (Some 1) (Some 31) l = take 30 (drop 1 l).
Proof.
  unfold Py.slice, Py.slice_bound. simpl.
  destruct l as [|x l]; [done|].
  rewrite length_cons.
  replace (Z.to_nat (1 `min` Z.of_nat (S (length l)))) with 1%nat by lia.
  destruct (decide (30 <= length l)%nat).
  - f_equal. lia.
  - rewrite !take_ge; [done| |]; rewrite length_drop; simpl; lia.
Qed.

Lemma slice_between (a b : Z) l :
  0 <= a <= b -> b <= Z.of_nat (length l) ->
  Py.slice (Some a) (Some b) l = take (Z.to_nat (b - a)) (drop (Z.to_nat a) l).
Proof.
  intros Hab Hb. unfold Py.slice, Py.slice_bound. simpl.
  destruct (Z.ltb_spec a 0); [exfalso; lia|].
  destruct (Z.ltb_spec b 0); [exfalso; lia|].
  by rewrite !Z.min_l by lia.
Qed.

Lemma length_slice_between (a b : Z) l :
  0 <= a <= b -> b <= Z.of_nat (length l) ->
  length (Py.slice (Some a) (Some b) l) = Z.to_nat (b - a).
Proof.
  intros Hab Hb. rewrite slice_between by done.
  rewrite length_take, length_drop. lia.
Qed.

Lemma slice_last (k : Z) l :
  0 < k -> Py.slice (Some (- k)) None l = drop (length l - Z.to_nat k) l.
Proof.
  intros Hk. unfold Py.slice, Py.slice_bound. simpl.
  destruct (Z.ltb_spec (- k) 0) as [_|]; [|exfalso; lia].
  set (n := length l).
  assert (Z.to_nat (Z.max 0 (Z.of_nat n + - k)) = (n - Z.to_nat k)%nat) as -> by lia.
  apply take_ge. rewrite length_drop. fold n. lia.
Qed.

Lemma slice_minus_zero l : Py.slice (Some (- 0)) None l = l.
Proof.
  unfold Py.slice, Py.slice_bound. simpl.
  replace ((- 0) `min` Z.of_nat (length l)) with 0 by lia.
  rewrite Z.sub_0_r, Nat2Z.id. apply firstn_all.
Qed.

Lemma insert_before_Permutation before (x : A) l :
  Py.insert_before before x l ≡ₚ x :: l.
Proof.
  induction l as [|y l IH]; simpl; [done|].
  destruct (before x y); [done|].
  rewrite IH. apply Permutation_swap.
Qed.

Lemma stable_sort_Permutation before l : Py.stable_sort before l ≡ₚ l.
Proof.
  induction l as [|x l IH]; simpl; [done|].
  rewrite insert_before_Permutation. by f_equiv.
Qed.

Lemma length_stable_sort before l : length (Py.stable_sort before l) = length l.
Proof. apply Permutation_length, stable_sort_Permutation. Qed.

Lemma elem_of_stable_sort before l (x : A) : x ∈ Py.stable_sort before l ↔ x ∈ l.
Proof. by rewrite stable_sort_Permutation. Qed.

Lemma insert_desc_sorted key (x : A) l :
  StronglySorted (Py.desc key) l ->
  StronglySorted (Py.desc key)
    (Py.insert_before (fun a b => Qle_bool (key b) (key a)) x l).
Proof.
  induction 1 as [|y l Hl IH Hy]; simpl.
  - repeat constructor.
  - destruct (Qle_bool (key y) (key x)) eqn:E.
    + apply Qle_bool_iff in E.
      constructor; [by constructor|].
      constructor; [done|].
      eapply Forall_impl; [exact Hy|]. intros z Hz. unfold Py.desc in *.
      eapply Qle_trans; eassumption.
    + constructor; [done|].
      assert (Py.desc key y x) as Hyx.
      { unfold Py.desc. apply Qlt_le_weak, Qnot_le_lt. intros Hle.
        apply Qle_bool_iff in Hle. congruence. }
      rewrite insert_before_Permutation. by constructor.
Qed.

Lemma sorted_desc_sorted key l : StronglySorted (Py.desc key) (Py.sorted_desc key l).
Proof.
  unfold Py.sorted_desc, Py.stable_sort.
  induction l as [|x l IH]; simpl; [constructor|].
  by apply insert_desc_sorted.
Qed.

Lemma StronglySorted_take (R : A -> A -> Prop) (n : nat) l :
  StronglySorted R l -> StronglySorted R (take n l).
Proof.
  intros H. revert n. induction H as [|x l Hl IH Hx]; intros [|n]; simpl;
    try constructor; [apply IH|].
  by apply Forall_take.
Qed.

End PyFacts.

(** ** Loops that can raise *)

Section MapM.
Context {A B : Type} (f : A -> result B).

Lemma mapM_Ok_inv (l : list A) (k : list B) :
  mapM f l = Ok k -> Forall2 (fun x y => f x = Ok y) l k.
Proof.
  revert k. induction l as [|x l IH]; intros k; simpl.
  - intros [= <-]. constructor.
  - destruct (f x) as [y|e] eqn:Hx; simpl; [|discriminate].
    destruct (mapM f l) as [k'|e]; simpl; [|discriminate].
    intros [= <-]. constructor; [done|]. by apply IH.
Qed.

Lemma mapM_Ok_intro (l : list A) (k : list B) :
  Forall2 (fun x y => f x = Ok y) l k -> mapM f l = Ok k.
Proof.
  induction 1 as [|x y l k Hx _ IH]; simpl; [done|].
  by rewrite Hx; simpl; rewrite IH.
Qed.

Lemma mapM_Ok_total (l : list A) :
  Forall (fun x => exists y, f x = Ok y) l -> exists k, mapM f l = Ok k.
Proof.
  induction 1 as [|x l [y Hx] _ [k IH]]; simpl; [by eexists|].
  exists (y :: k). by rewrite Hx; simpl; rewrite IH.
Qed.

Lemma mapM_Ok_length (l : list A) (k : list B) :
  mapM f l = Ok k -> length k = length l.
Proof. intros H. symmetry. by eapply Forall2_length, mapM_Ok_inv. Qed.

End MapM.

(** ** Liked movies *)

Section Liked.
Import Recommender.
Implicit Types (self : MovieRecommender) (movie_id : Z).

Lemma liked_movies_like movie_id data mode now w self :
  liked_movies (like_movie movie_id data mode now w self)
  = <[movie_id := {| movie_data := data;
                     liked_timestamp := now;
                     liked_mode := mode_or_unknown mode |}]> (liked_movies self).
Proof. reflexivity. Qed.

Lemma is_movie_liked_spec movie_id self :
  is_movie_liked movie_id self = true <-> is_Some (liked_movies self !! movie_id).
Proof.
  unfold is_movie_liked. rewrite bool_decide_eq_true. apply elem_of_dom.
Qed.

Lemma liked_movies_unlike movie_id w self :
  liked_movies (unlike_movie movie_id w self) = delete movie_id (liked_movies self).
Proof.
  unfold unlike_movie. destruct (is_movie_liked movie_id self) eqn:E; [done|].
  symmetry. apply delete_id.
  apply not_elem_of_dom. unfold is_movie_liked in E.
  by apply bool_decide_eq_false in E.
Qed.

(** C2. Liking a movie that is already liked replaces the record
    kept under its id by the new one and changes nothing else: the
    set of liked ids and the record of every other id are as before.
    Unliking a movie that is not liked leaves the recommender as it
    was, the liked mapping included. *)
Theorem like_unlike_idempotent movie_id data mode now w self :
  (is_movie_liked movie_id self = true ->
     let self' := like_movie movie_id data mode now w self in
     dom (liked_movies self') = dom (liked_movies self)
     /\ liked_movies self' !! movie_id
        = Some {| movie_data := data;
                  liked_timestamp := now;
                  liked_mode := mode_or_unknown mode |}
     /\ (forall other, other <> movie_id ->
           liked_movies self' !! other = liked_movies self !! other)
     /\ user_search_history self' = user_search_history self)
  /\ (is_movie_liked movie_id self = false ->
        unlike_movie movie_id w self = self
        /\ liked_movies (unlike_movie movie_id w self) = liked_movies self).
Proof.
  split.
  - intros Hliked. cbv zeta. rewrite liked_movies_like.
    repeat split.
    + rewrite dom_insert_L.
      unfold is_movie_liked in Hliked. apply bool_decide_eq_true in Hliked.
      apply subseteq_union_1_L. by apply singleton_subseteq_l.
    + apply lookup_insert_eq.
    + intros other Hne. by apply lookup_insert_ne.
  - intros Hnot. unfold unlike_movie. by rewrite Hnot.
Qed.

(** C10. After a like followed by an unlike of the same id, the id is
    not liked, and the record of every other id is the one held
    before the two calls. *)
Theorem like_then_unlike movie_id data mode now w1 w2 self :
  let self' := unlike_movie movie_id w2 (like_movie movie_id data mode now w1 self) in
  is_movie_liked movie_id self' = false
  /\ liked_movies self' = delete movie_id (liked_movies self)
  /\ (forall other, other <> movie_id ->
        liked_movies self' !! other = liked_movies self !! other).
Proof.
  cbv zeta.
  assert (liked_movies
            (unlike_movie movie_id w2 (like_movie movie_id data mode now w1 self))
          = delete movie_id (liked_movies self)) as Heq.
  { rewrite liked_movies_unlike, liked_movies_like. apply delete_insert_eq. }
  repeat split.
  - unfold is_movie_liked. apply bool_decide_eq_false.
    rewrite Heq, dom_delete_L. rewrite elem_of_difference, elem_of_singleton.
    by intros [_ []].
  - done.
  - intros other Hne. rewrite Heq. by apply lookup_delete_ne.
Qed.

End Liked.

Lemma like_unlike_idempotent_witness :
  let self := Demo.recommender in
  let self' := Recommender.like_movie 603 Demo.matrix None 1700000200 Recommender.Stored self in
  (Recommender.is_movie_liked 603 self = true
   /\ dom (Recommender.liked_movies self') = dom (Recommender.liked_movies self))
  /\ (Recommender.is_movie_liked 604 self = false
      /\ Recommender.unlike_movie 604 Recommender.Stored self = self).
Proof.
  cbv zeta. split; split.
  - reflexivity.
  - apply (like_unlike_idempotent 603 Demo.matrix None 1700000200
             Recommender.Stored Demo.recommender).
    reflexivity.
  - reflexivity.
  - apply (like_unlike_idempotent 604 Demo.matrix None 1700000200
             Recommender.Stored Demo.recommender).
    reflexivity.
Defined.

Lemma like_then_unlike_witness :
  Recommender.liked_movies
    (Recommender.unlike_movie 603 Recommender.Stored
       (Recommender.like_movie 603 Demo.matrix None 1700000200 Recommender.Stored
          Demo.recommender))
  !! 603 = None.
Proof.
  destruct (like_then_unlike 603 Demo.matrix None 1700000200
              Recommender.Stored Recommender.Stored Demo.recommender) as (_ & -> & _).
  apply lookup_delete_eq.
Defined.

(** ** Search history *)

Section History.
Import Recommender.
Implicit Types (self : MovieRecommender) (h : list search_entry).

Lemma history_after_add q ids langs now w self :
  let appended := user_search_history self ++ [new_entry q ids langs now] in
  user_search_history (add_to_search_history q ids langs now w self)
  = drop (length appended - 50) appended.
Proof.
  cbv zeta. unfold add_to_search_history. simpl.
  set (appended := user_search_history self ++ [new_entry q ids langs now]).
  destruct (Nat.ltb_spec 50 (length appended)) as [Hlt|Hle].
  - by rewrite (slice_last 50) by lia.
  - by replace (length appended - 50)%nat with 0%nat by lia.
Qed.

(** C6, as amended. A call of [add_to_search_history] puts one entry
    with the query, the ids and the languages at the end of the log
    and then keeps the last 50 entries: the new log is a suffix of
    the old one followed by the entry, ends with the entry, and has
    [min 50 (old length + 1)] entries. The only other writer, the
    Clear History button, empties the log. *)
Theorem search_history_capped_log (op : history_op) (w : write) self :
  let h := user_search_history self in
  let h' := user_search_history (apply_history_op op w self) in
  match op with
  | AddToSearchHistory q ids langs now =>
      let entry := new_entry q ids langs now in
      h' = drop (length (h ++ [entry]) - 50) (h ++ [entry])
      /\ h' `suffix_of` h ++ [entry]
      /\ last h' = Some entry
      /\ length h' = Nat.min 50 (length h + 1)
      /\ query entry = q /\ movie_ids entry = default [] ids
      /\ languages entry = default [] langs
  | ClearHistory => h' = []
  end.
Proof.
  cbv zeta. destruct op as [q ids langs now|]; [|done].
  unfold apply_history_op.
  pose proof (history_after_add q ids langs now w self) as Hadd.
  cbv zeta in Hadd. rewrite Hadd.
  set (h := user_search_history self). set (entry := new_entry q ids langs now).
  repeat split.
  - apply suffix_drop.
  - rewrite drop_app_le; [apply last_snoc|]. rewrite length_app. simpl. lia.
  - rewrite length_drop, length_app. change (length [entry]) with 1%nat. lia.
Qed.

End History.

(** C6, as stated, fails: a log below the cap loses its entry when the
    Clear History button is pressed. *)
Lemma clear_history_removes_entries :
  let self := Demo.recommender in
  let cleared := Recommender.apply_history_op Recommender.ClearHistory Recommender.Stored self in
  Recommender.user_search_history self = [Demo.matrix_search]
  /\ (length (Recommender.user_search_history self) < 50)%nat
  /\ Recommender.user_search_history cleared = []
  /\ ~ Recommender.user_search_history self `prefix_of` Recommender.user_search_history cleared.
Proof.
  cbv zeta. repeat split.
  - simpl. lia.
  - simpl. intros [k Hk]. discriminate Hk.
Qed.

(** ** The "movie" query-string parameter *)

Section DeepLink.
Import App.
Implicit Types (st : session_state) (movies : frame).

(** C7. With a "movie" parameter of value [url_movie]: when the
    value is a title of the catalog, the selected movie is that
    title afterwards; when it is not, the session state is left as
    it was. Over a session whose selection is valid, the selected
    movie is the parameter's value afterwards exactly when the value
    is a title of the catalog. *)
Theorem url_movie_selects movies (query_params : gmap string string) st url_movie :
  query_params !! "movie" = Some url_movie ->
  let st' := handle_url_params movies query_params st in
  (url_movie ∈ titles movies -> selected_movie_name st' = Some (Some url_movie))
  /\ (url_movie ∉ titles movies -> st' = st)
  /\ (valid_selection movies st ->
        (selected_movie_name st' = Some (Some url_movie) <-> url_movie ∈ titles movies)).
Proof.
  intros Hq. cbv zeta. unfold handle_url_params. rewrite Hq.
  assert (url_movie ∈ titles movies ->
          selected_movie_name
            (if bool_decide (url_movie ∈ titles movies)
             then if bool_decide (selected_movie_name st = None)
                     || negb (bool_decide (selected_movie_name st = Some (Some url_movie)))
                  then {| selected_movie_name := Some (Some url_movie);
                          movie_selectbox := Some (Some url_movie);
                          trending_offset := trending_offset st |}
                  else st
             else st) = Some (Some url_movie)) as Hin.
  { intros Hin. rewrite bool_decide_eq_true_2 by done.
    destruct (bool_decide (selected_movie_name st = None)); simpl; [done|].
    case_bool_decide; simpl; done. }
  split; [exact Hin|]. split.
  - intros Hnot. by rewrite bool_decide_eq_false_2.
  - intros Hvalid. split; [|exact Hin].
    destruct (decide (url_movie ∈ titles movies)) as [|Hnot]; [done|].
    rewrite bool_decide_eq_false_2 by done. intros Hsel. by apply Hvalid.
Qed.

(** Without the parameter the block does nothing. *)
Lemma no_url_movie movies (query_params : gmap string string) st :
  query_params !! "movie" = None -> handle_url_params movies query_params st = st.
Proof. intros Hq. unfold handle_url_params. by rewrite Hq. Qed.

End DeepLink.

Lemma url_movie_selects_witness :
  let params : gmap string string := {[ "movie" := "Heat" ]} in
  params !! "movie" = Some "Heat"
  /\ "Heat" ∈ App.titles Demo.catalog
  /\ App.selected_movie_name (App.handle_url_params Demo.catalog params Demo.idle)
     = Some (Some "Heat").
Proof.
  cbv zeta. split; [reflexivity|].
  assert ("Heat" ∈ App.titles Demo.catalog) as Hin.
  { simpl. repeat first [apply list_elem_of_here | apply list_elem_of_further]. }
  split; [exact Hin|].
  refine (proj1 (url_movie_selects Demo.catalog ({[ "movie" := "Heat" ]} : gmap string string)
                   Demo.idle "Heat" _) Hin).
  reflexivity.
Defined.

(** ** Pagination *)

Section Pagination.
Import Recommender.
Implicit Types (s : pages) (i : inputs).

Local Ltac split_ifs :=
  repeat match goal with
    | |- context [if ?b then _ else _] => destruct b eqn:?; simpl
    | |- context [let '(_, _) := ?p in _] => destruct p; simpl
    end.

Local Ltac pages_ok_tac :=
  unfold pages_ok in *; simpl in *; intuition lia.

(** Previous, Next and the back-off of a browsing mode keep
    [current_page] at 1 or above, and touch no other page number. *)
Lemma browse_ok i s : pages_ok s -> pages_ok (final (browse i s)).
Proof.
  intros Hs. unfold browse.
  destruct (Z.ltb_spec 1 (current_page s));
    rewrite ?andb_true_r, ?andb_false_r; split_ifs; pages_ok_tac.
Qed.

Lemma search_ok i s : pages_ok s -> pages_ok (final (search i s)).
Proof.
  intros Hs. unfold search.
  destruct (negb (String.eqb (search_query i) (previous_search_query s))); simpl.
  - destruct (negb (String.eqb (search_query i) "")); [|pages_ok_tac].
    rewrite ?andb_false_r. split_ifs; pages_ok_tac.
  - destruct (negb (String.eqb (search_query i) "")); [|pages_ok_tac].
    destruct (Z.ltb_spec 1 (search_page s));
      rewrite ?andb_true_r, ?andb_false_r; split_ifs; pages_ok_tac.
Qed.

Lemma reset_on_filter_change_ok i s : pages_ok s -> pages_ok (reset_on_filter_change i s).
Proof. intros Hs. unfold reset_on_filter_change. split_ifs; pages_ok_tac. Qed.

Lemma render_mode_ok i s : pages_ok s -> pages_ok (final (render_mode i s)).
Proof.
  intros Hs. unfold render_mode.
  pose proof (reset_on_filter_change_ok i s Hs).
  destruct (mode_radio i); simpl;
    repeat match goal with
      | |- context [if ?b then _ else _] =>
          lazymatch b with
          | genres_found _ => destruct b
          | selected _ => destruct b
          end
      end;
    auto using browse_ok, search_ok.
Qed.

Lemma render_panel_ok i s : pages_ok s -> pages_ok (render_panel i s).
Proof.
  intros Hs. unfold render_panel.
  destruct (panel_open i); [|done].
  destruct (regenerate i); simpl.
  - destruct (0 <? length (all_recommendations i))%nat; simpl;
      rewrite ?andb_false_l, ?andb_false_r; split_ifs; pages_ok_tac.
  - destruct (0 <? length (all_recommendations i))%nat; simpl.
    + destruct (Z.ltb_spec 1 (recommendation_page s));
        rewrite ?andb_true_r, ?andb_false_r; split_ifs; pages_ok_tac.
    + split_ifs; pages_ok_tac.
Qed.

Lemma main_ok i s : pages_ok s -> pages_ok (main i s).
Proof.
  intros Hs. unfold main.
  set (s1 := if previous_mode s is Some _ then s else set_previous_mode (mode_radio i) s).
  assert (pages_ok s1) as H1 by (subst s1; destruct (previous_mode s); pages_ok_tac).
  set (s2 := if bool_decide (previous_mode s1 = Some (mode_radio i)) then s1
             else set_previous_mode (mode_radio i) (set_current_page 1 s1)).
  assert (pages_ok s2) as H2 by (subst s2; case_bool_decide; pages_ok_tac).
  pose proof (render_mode_ok i s2 H2) as H3.
  destruct (render_mode i s2); simpl in H3; [by apply render_panel_ok|done].
Qed.

Lemma reachable_ok s : reachable s -> pages_ok s.
Proof.
  induction 1 as [|i s _ IH]; [|by apply main_ok].
  unfold pages_ok. simpl. lia.
Qed.

End Pagination.

(** ** The trending offset *)

Section Trending.
Import App.
Implicit Types (movies : frame) (offset : Z).

Lemma len_sort_values_desc movies : len (sort_values_desc movies) = len movies.
Proof.
  destruct movies as [rows|rows]; [done|].
  unfold len. simpl. rewrite !length_fmap. apply length_stable_sort.
Qed.

Lemma len_iloc_slice movies (a b : Z) :
  0 <= a <= b -> b <= Z.of_nat (len movies) ->
  len (iloc_slice movies a b) = Z.to_nat (b - a).
Proof.
  intros Hab Hb. destruct movies as [rows|rows]; unfold len in *; simpl in *.
  - by apply length_slice_between.
  - rewrite length_fmap in *. by apply length_slice_between.
Qed.

Lemma start_idx_mod movies offset :
  (10 < len movies)%nat ->
  start_idx movies offset = Ok (offset mod (Z.of_nat (len movies) - 10)).
Proof.
  intros Hlen. unfold start_idx, py_mod.
  destruct (Z.eqb_spec (Z.of_nat (len movies) - 10) 0); [exfalso; lia|done].
Qed.

Lemma trending_titles_window movies offset :
  (10 < len movies)%nat ->
  exists shown, trending_titles movies offset = Ok shown /\ length shown = 10%nat.
Proof.
  intros Hlen. unfold trending_titles.
  rewrite start_idx_mod by done. simpl.
  set (start := offset mod (Z.of_nat (len movies) - 10)).
  assert (0 <= start < Z.of_nat (len movies) - 10) as Hstart
    by (apply Z.mod_pos_bound; lia).
  eexists. split; [reflexivity|].
  change (length (titles ?df)) with (len df).
  rewrite len_iloc_slice; [lia|lia|].
  destruct (has_vote_average movies); rewrite ?len_sort_values_desc; lia.
Qed.

End Trending.

(** C3, as amended. From a fresh session, whatever the runs of the
    script, the page number of the browsing modes, the page number of
    the search and the page number of the recommendation panel are at
    least 1, and they still are after one more run: Previous only
    steps down from a page above 1, Next steps up, and the back-off on
    an empty listing only steps down from a page above 1. In the
    select-box program, over a catalog of more than 10 titles, the
    trending offset is reduced modulo the number of titles minus 10:
    the start index lies between 0 and that modulus, ten titles are
    shown, and an offset larger by the modulus shows the same
    window. *)
Theorem pagination_bounds (s : Recommender.pages) (i : Recommender.inputs)
    (movies : App.frame) (offset : Z) :
  Recommender.reachable s ->
  (10 < App.len movies)%nat ->
  (Recommender.pages_ok s
   /\ Recommender.pages_ok (Recommender.final (Recommender.browse i s))
   /\ Recommender.pages_ok (Recommender.main i s))
  /\ (let modulus := Z.of_nat (App.len movies) - 10 in
      App.start_idx movies offset = Ok (offset mod modulus)
      /\ 0 <= offset mod modulus < modulus
      /\ App.start_idx movies (offset + modulus) = App.start_idx movies offset
      /\ exists shown, App.trending_titles movies offset = Ok shown
                       /\ length shown = 10%nat).
Proof.
  intros Hs Hlen. apply reachable_ok in Hs. split.
  - auto using browse_ok, main_ok.
  - cbv zeta. rewrite !start_idx_mod by done.
    split; [done|]. split; [apply Z.mod_pos_bound; lia|].
    split; [|by apply trending_titles_window].
    f_equal. rewrite <- (Z.mul_1_l (Z.of_nat (App.len movies) - 10)) at 1.
    apply Z_mod_plus_full.
Qed.

Lemma pagination_bounds_witness :
  Recommender.reachable Recommender.fresh
  /\ (10 < App.len Demo.shelf)%nat
  /\ Recommender.pages_ok (Recommender.main Demo.next_click Recommender.fresh)
  /\ App.start_idx Demo.shelf 20 = Ok (20 mod 15).
Proof.
  assert (Recommender.reachable Recommender.fresh) as Hfresh by constructor.
  assert (10 < App.len Demo.shelf)%nat as Hlen by (vm_compute; lia).
  destruct (pagination_bounds Recommender.fresh Demo.next_click Demo.shelf 20 Hfresh Hlen)
    as [(_ & _ & Hmain) (Hstart & _)].
  split; [exact Hfresh|]. split; [exact Hlen|]. split; [exact Hmain|exact Hstart].
Defined.

(** C3, as stated, fails: with 25 titles and the offset 20 reached by
    two presses on Refresh, the start index is 5, while 20 modulo the
    number of titles is 20. *)
Lemma trending_offset_not_modulo_size :
  App.len Demo.shelf = 25%nat
  /\ (st ← App.refresh Demo.idle; st' ← App.refresh st; mret (App.trending_offset st'))
     = Ok (Some 20)
  /\ App.start_idx Demo.shelf 20 = Ok 5
  /\ 20 mod Z.of_nat (App.len Demo.shelf) = 20
  /\ App.start_idx Demo.shelf 20 <> Ok (20 mod Z.of_nat (App.len Demo.shelf)).
Proof. repeat split. vm_compute. discriminate. Qed.

(** ** Remote calls degrade to an empty result *)

Section Fetch.
Import Recommender.
Variable session_get : request -> result response.
Implicit Types (self : MovieRecommender) (req : request).

Lemma raise_for_status_Ok (r : response) :
  raise_for_status r = Ok tt -> ~ (400 <= status_code r < 600).
Proof.
  unfold raise_for_status.
  destruct (Z.leb_spec 400 (status_code r)), (Z.ltb_spec (status_code r) 600);
    simpl; intros; (discriminate || lia).
Qed.

Lemma eq_str_true (v : json) (s : string) : eq_str v s = true -> v = JStr s.
Proof.
  destruct v; simpl; try discriminate. by intros ->%String.eqb_eq.
Qed.

(** The shape shared by the listing calls. *)
Lemma try_request_field req key :
  empty_or_reported session_get
    (try_except (request_field session_get req key) (fun _ => JArr [])) [url req] key.
Proof.
  unfold request_field, empty_or_reported, exchanged.
  destruct (session_get req) as [r|e] eqn:Hget; simpl; [|by left].
  destruct (raise_for_status r) as [[]|e] eqn:Hstatus; simpl; [|by left].
  unfold response_json. destruct (body r) as [data|] eqn:Hbody; simpl; [|by left].
  destruct data as [| | | | |fields]; simpl; try by left.
  destruct (assoc key fields) as [v|] eqn:Hkey; simpl; [|by left].
  right. exists req, fields. split; [apply list_elem_of_here|].
  split; [|done]. exists r. eauto using raise_for_status_Ok.
Qed.

Lemma empty_or_reported_weaken (v : json) (endpoints endpoints' : list endpoint) key :
  endpoints ⊆ endpoints' ->
  empty_or_reported session_get v endpoints key ->
  empty_or_reported session_get v endpoints' key.
Proof.
  intros Hsub [->|(req & fields & Hin & Hex & Hkey)]; [by left|].
  right. exists req, fields. auto.
Qed.

Lemma fetch_trending_movies_degrades self page language_code year :
  empty_or_reported session_get
    (fetch_trending_movies session_get self page language_code year)
    [DiscoverMovie; TrendingMovieWeek] "results".
Proof.
  unfold fetch_trending_movies.
  destruct (truthy language_code || truthy year);
    (eapply empty_or_reported_weaken; [|apply try_request_field]); simpl;
    intros x ->%list_elem_of_singleton.
  - apply list_elem_of_here.
  - apply list_elem_of_further, list_elem_of_here.
Qed.

Lemma search_movies_degrades self q page :
  search_movies session_get self q page = (JArr [], JNum 1)
  \/ exists req fields results,
       url req = SearchMovie
       /\ exchanged session_get req fields
       /\ assoc "results" fields = Some results
       /\ search_movies session_get self q page
          = (results, default (JNum 1) (assoc "total_pages" fields)).
Proof.
  unfold search_movies, exchanged.
  set (req := {| url := SearchMovie; headers := _; params := _ |}).
  destruct (session_get req) as [r|e] eqn:Hget; simpl; [|by left].
  destruct (raise_for_status r) as [[]|e] eqn:Hstatus; simpl; [|by left].
  unfold response_json. destruct (body r) as [data|] eqn:Hbody; simpl; [|by left].
  destruct data as [| | | | |fields]; simpl; try by left.
  destruct (assoc "results" fields) as [v|] eqn:Hkey; simpl; [|by left].
  right. exists req, fields, v. repeat split; try done.
  exists r. eauto using raise_for_status_Ok.
Qed.

Lemma get_movie_details_degrades self movie_id :
  get_movie_details session_get self movie_id = JNull
  \/ exists req r,
       url req = MovieById movie_id
       /\ session_get req = Ok r
       /\ ~ (400 <= status_code r < 600)
       /\ body r = Some (get_movie_details session_get self movie_id).
Proof.
  unfold get_movie_details.
  set (req := {| url := MovieById movie_id; headers := _; params := _ |}).
  destruct (session_get req) as [r|e] eqn:Hget; simpl; [|by left].
  destruct (raise_for_status r) as [[]|e] eqn:Hstatus; simpl; [|by left].
  unfold response_json. destruct (body r) as [data|] eqn:Hbody; simpl; [|by left].
  right. exists req, r. eauto using raise_for_status_Ok.
Qed.

Lemma fetch_movie_details_degrades (API_KEY : string)
    (requests_get : string -> result response) (title : string) :
  App.fetch_movie_details API_KEY requests_get title = JNull
  \/ exists r fields,
       requests_get ("https://www.omdbapi.com/?t=" +:+ title +:+ "&apikey=" +:+ API_KEY)
       = Ok r
       /\ body r = Some (JObj fields)
       /\ assoc "Response" fields = Some (JStr "True")
       /\ App.fetch_movie_details API_KEY requests_get title = JObj fields.
Proof.
  unfold App.fetch_movie_details.
  destruct (requests_get _) as [r|e] eqn:Hget; simpl; [|by left].
  unfold response_json. destruct (body r) as [data|] eqn:Hbody; simpl; [|by left].
  destruct data as [| | | | |fields]; simpl; try by left.
  destruct (eq_str (default JNull (assoc "Response" fields)) "True") eqn:Heq;
    simpl; [|by left].
  right. exists r, fields. repeat split; try done.
  apply eq_str_true in Heq.
  destruct (assoc "Response" fields); simpl in Heq; congruence.
Qed.

(** When the transport raises for every request, the calls give
    their empty results. *)
Lemma unreachable_service_gives_empty self page language_code year q movie_id :
  (forall req, exists e, session_get req = Raise e) ->
  fetch_trending_movies session_get self page language_code year = JArr []
  /\ search_movies session_get self q page = (JArr [], JNum 1)
  /\ get_movie_details session_get self movie_id = JNull.
Proof.
  intros Hdown. repeat split.
  - destruct (fetch_trending_movies_degrades self page language_code year)
      as [?|(req & fields & _ & (r & Hr & _) & _)]; [done|].
    destruct (Hdown req) as [e He]. congruence.
  - destruct (search_movies_degrades self q page)
      as [?|(req & fields & results & _ & (r & Hr & _) & _)]; [done|].
    destruct (Hdown req) as [e He]. congruence.
  - destruct (get_movie_details_degrades self movie_id)
      as [?|(req & r & _ & Hr & _)]; [done|].
    destruct (Hdown req) as [e He]. congruence.
Qed.

Lemma raise_for_status_Raise (r : response) (e : exn) :
  raise_for_status r = Raise e -> 400 <= status_code r < 600.
Proof.
  unfold raise_for_status.
  destruct (Z.leb_spec 400 (status_code r)), (Z.ltb_spec (status_code r) 600);
    simpl; intros; (discriminate || lia).
Qed.

(** How an exchange ends: with the JSON object of the answer, or with
    nothing that could be read. *)
Lemma exchange_cases req :
  (exists r fields, session_get req = Ok r
                    /\ raise_for_status r = Ok tt
                    /\ body r = Some (JObj fields)
                    /\ exchanged session_get req fields)
  \/ ((forall fields, ~ exchanged session_get req fields)
      /\ forall key, exists e, request_field session_get req key = Raise e).
Proof.
  unfold exchanged, request_field.
  destruct (session_get req) as [r|e] eqn:Hget; simpl.
  2: { right. split; [|by eexists]. intros fields (r & Hr & _). discriminate. }
  destruct (raise_for_status r) as [[]|e] eqn:Hstatus; simpl.
  2: { right. split; [|by eexists]. intros fields (r' & [= <-] & Hok & _).
       by apply Hok, (raise_for_status_Raise _ e). }
  unfold response_json. destruct (body r) as [data|] eqn:Hbody; simpl.
  2: { right. split; [|by eexists]. intros fields (r' & [= <-] & _ & Hbody').
       congruence. }
  destruct data as [| | | | |fields];
    try (right; split; [|by eexists]; intros fields' (r' & [= <-] & _ & Hbody');
         congruence).
  left. exists r, fields. repeat split; try done.
  exists r. eauto using raise_for_status_Ok.
Qed.

Lemma exchanged_once req (fields fields' : list (string * json)) :
  exchanged session_get req fields -> exchanged session_get req fields' -> fields = fields'.
Proof. intros (r & Hr & _ & Hb) (r' & Hr' & _ & Hb'). congruence. Qed.

Lemma request_field_degrades req key :
  Remote.degrades_to session_get (JArr [])
    (try_except (request_field session_get req key) (fun _ => JArr [])) req key.
Proof.
  unfold Remote.degrades_to, Remote.reports.
  cut ((forall v, (exists fields, exchanged session_get req fields
                                  /\ assoc key fields = Some v) ->
                  try_except (request_field session_get req key) (fun _ => JArr []) = v)
       /\ ((forall v, ~ (exists fields, exchanged session_get req fields
                                        /\ assoc key fields = Some v)) ->
           try_except (request_field session_get req key) (fun _ => JArr []) = JArr [])).
  { intros [Hgood Hbad]. split; [done|]. split; [done|]. intros e He. apply Hbad.
    intros v (fields & (r & Hr & _) & _). congruence. }
  destruct (exchange_cases req) as [(r & fields & Hget & Hstatus & Hbody & Hex)|[Hno Hraise]].
  - unfold request_field, response_json. rewrite Hget. simpl. rewrite Hstatus. simpl.
    rewrite Hbody. simpl.
    destruct (assoc key fields) as [v|] eqn:Hkey; simpl.
    + split; [|intros Hnone; by destruct (Hnone v); exists fields].
      intros v' (fields' & Hex' & Hkey').
      rewrite <- (exchanged_once _ _ _ Hex Hex') in Hkey'. congruence.
    + split; [|done]. intros v' (fields' & Hex' & Hkey').
      rewrite <- (exchanged_once _ _ _ Hex Hex') in Hkey'. congruence.
  - destruct (Hraise key) as [e ->]. simpl.
    split; [|done]. intros v (fields & Hex & _). by destruct (Hno fields).
Qed.

Lemma search_movies_degrades_to self q page :
  exists req,
    Remote.asks self SearchMovie req
    /\ ("query", JStr q) ∈ params req
    /\ page_param page ∈ params req
    /\ Remote.search_degrades session_get (search_movies session_get self q page) req.
Proof.
  unfold search_movies.
  set (req := {| url := SearchMovie; headers := _; params := _ |}).
  exists req. split; [done|].
  split; [apply list_elem_of_here|].
  split; [apply list_elem_of_further, list_elem_of_here|].
  unfold Remote.search_degrades, Remote.reports.
  match goal with
  | |- ?good /\ ?bad /\ _ =>
      cut (good /\ bad);
      [intros [Hgood Hbad]; split; [done|]; split; [done|]; intros e He; apply Hbad;
       intros v (fields & (r & Hr & _) & _); congruence|]
  end.
  destruct (exchange_cases req) as [(r & fields & Hget & Hstatus & Hbody & Hex)|[Hno Hraise]].
  - unfold response_json. rewrite Hget. simpl. rewrite Hstatus. simpl.
    rewrite Hbody. simpl.
    destruct (assoc "results" fields) as [v|] eqn:Hkey; simpl.
    + split; [|intros Hnone; by destruct (Hnone v); exists fields].
      intros fields' results Hex' Hkey'.
      rewrite <- (exchanged_once _ _ _ Hex Hex') in *. congruence.
    + split; [|done]. intros fields' results Hex' Hkey'.
      rewrite <- (exchanged_once _ _ _ Hex Hex') in Hkey'. congruence.
  - destruct (Hraise "results") as [e He]. unfold request_field in He.
    destruct (session_get req) as [r|e0]; simpl in *;
      [|split; [|done]; intros fields results Hex; by destruct (Hno fields)].
    destruct (raise_for_status r) as [[]|e1]; simpl in *;
      [|split; [|done]; intros fields results Hex; by destruct (Hno fields)].
    destruct (response_json r) as [data|e2]; simpl in *;
      [|split; [|done]; intros fields results Hex; by destruct (Hno fields)].
    rewrite He. simpl.
    split; [|done]. intros fields results Hex. by destruct (Hno fields).
Qed.

Lemma get_movie_details_degrades_to self movie_id :
  exists req,
    Remote.asks self (MovieById movie_id) req
    /\ Remote.details_degrade session_get
         (get_movie_details session_get self movie_id) req.
Proof.
  unfold get_movie_details.
  set (req := {| url := MovieById movie_id; headers := _; params := _ |}).
  exists req. split; [done|]. unfold Remote.details_degrade.
  match goal with
  | |- ?good /\ ?bad /\ _ =>
      cut (good /\ bad);
      [intros [Hgood Hbad]; split; [done|]; split; [done|]; intros e He; apply Hbad;
       intros r data Hr; congruence|]
  end.
  destruct (session_get req) as [r|e] eqn:Hget; simpl;
    [|split; [intros r data [=]|done]].
  destruct (raise_for_status r) as [[]|e] eqn:Hstatus; simpl.
  2: { split; [|done]. intros r' data [= <-] Hok.
       destruct Hok. exact (raise_for_status_Raise r e Hstatus). }
  apply raise_for_status_Ok in Hstatus.
  unfold response_json. destruct (body r) as [data|] eqn:Hbody; simpl.
  - split; [intros r' data' [= <-] _; congruence|].
    intros Hnone. by destruct (Hnone r data).
  - split; [|done]. intros r' data' [= <-] _. congruence.
Qed.

Lemma fetch_movie_details_degrades_to (API_KEY : string)
    (requests_get : string -> result response) (title : string) :
  Remote.omdb_degrades requests_get (App.fetch_movie_details API_KEY requests_get title)
    ("https://www.omdbapi.com/?t=" +:+ title +:+ "&apikey=" +:+ API_KEY).
Proof.
  unfold App.fetch_movie_details, Remote.omdb_degrades.
  match goal with
  | |- ?good /\ ?bad /\ _ =>
      cut (good /\ bad);
      [intros [Hgood Hbad]; split; [done|]; split; [done|]; intros e He; apply Hbad;
       intros r fields Hr; congruence|]
  end.
  destruct (requests_get _) as [r|e] eqn:Hget; simpl;
    [|split; [intros r fields [=]|done]].
  unfold response_json. destruct (body r) as [data|] eqn:Hbody; simpl;
    [|split; [intros r' fields [= <-]; congruence|done]].
  destruct data as [| | | | |fields]; simpl;
    try (split; [intros r' fields' [= <-]; congruence|done]).
  destruct (assoc "Response" fields) as [answer|] eqn:Hanswer; simpl.
  - destruct (eq_str answer "True") eqn:Heq; simpl.
    + apply eq_str_true in Heq as ->.
      split; [intros r' fields' [= <-]; congruence|].
      intros Hnone. by destruct (Hnone r fields).
    + split; [|done]. intros r' fields' [= <-] Hbody' Htrue.
      rewrite Hbody in Hbody'. injection Hbody' as <-.
      rewrite Hanswer in Htrue. injection Htrue as ->. by simpl in Heq.
  - split; [|done]. intros r' fields' [= <-] Hbody' Htrue. congruence.
Qed.

Local Ltac sent :=
  cbv zeta;
  match goal with
  | |- exists req, _ /\ _ =>
      match goal with
      | |- context [request_field _ ?r _] => exists r
      end
  end.

Local Ltac listed := repeat first [apply list_elem_of_here | apply list_elem_of_further].

Local Ltac paged_call :=
  sent; split; [done|]; split; [simpl; listed|apply request_field_degrades].

(** C5. No remote call lets an exception out: each returns a value
    whatever the transport does, and the value is settled by the
    exchange for the request that the call sends. A listing call
    returns what the service reports under the key it reads, and the
    empty list when anything fails on the way: the transport raises,
    the status is an error status, the body is no JSON object, or the
    key is missing. The search returns the reported results with the
    reported page count, 1 when the count is absent, and the empty
    list with page count 1 on failure. The two single lookups return
    the answer, and [None] on failure. *)
Theorem remote_fetch_degrades self (page : Z) (language_code year genre_id : json)
    (language_codes : option (list string)) (include_dubbed exclude_original : bool)
    (target_language q : string) (movie_id : json)
    (API_KEY title : string) (requests_get : string -> result response) :
  let listing (target : endpoint) (key : string) (value : json) : Prop :=
    exists req, Remote.asks self target req
                /\ Remote.degrades_to session_get (JArr []) value req key in
  let paged (target : endpoint) (value : json) : Prop :=
    exists req, Remote.asks self target req
                /\ page_param page ∈ params req
                /\ Remote.degrades_to session_get (JArr []) value req "results" in
  paged (if truthy language_code || truthy year then DiscoverMovie else TrendingMovieWeek)
    (fetch_trending_movies session_get self page language_code year)
  /\ paged MoviePopular (fetch_popular_movies session_get self page)
  /\ listing GenreMovieList "genres" (get_genres session_get self)
  /\ paged DiscoverMovie (get_movie_by_genre session_get self genre_id page)
  /\ paged DiscoverMovie (get_movie_by_language session_get self language_code page)
  /\ paged DiscoverMovie (get_movie_by_year session_get self year page)
  /\ paged DiscoverMovie
       (get_movies_with_filters session_get self genre_id language_code year page)
  /\ paged DiscoverMovie
       (get_latest_movies session_get self page language_codes include_dubbed)
  /\ paged DiscoverMovie
       (get_dubbed_movies session_get self target_language exclude_original page)
  /\ (exists req,
        Remote.asks self SearchMovie req
        /\ ("query", JStr q) ∈ params req
        /\ page_param page ∈ params req
        /\ Remote.search_degrades session_get (search_movies session_get self q page) req)
  /\ (exists req,
        Remote.asks self (MovieById movie_id) req
        /\ Remote.details_degrade session_get
             (get_movie_details session_get self movie_id) req)
  /\ Remote.omdb_degrades requests_get (App.fetch_movie_details API_KEY requests_get title)
       ("https://www.omdbapi.com/?t=" +:+ title +:+ "&apikey=" +:+ API_KEY).
Proof.
  cbv zeta.
  split.
  { unfold fetch_trending_movies.
    destruct (truthy language_code || truthy year); sent; split; try done;
      (split; [simpl; listed|apply request_field_degrades]). }
  split; [unfold fetch_popular_movies; paged_call|].
  split.
  { unfold get_genres. sent. split; [done|apply request_field_degrades]. }
  split; [unfold get_movie_by_genre; paged_call|].
  split; [unfold get_movie_by_language; paged_call|].
  split; [unfold get_movie_by_year; paged_call|].
  split; [unfold get_movies_with_filters; paged_call|].
  split; [unfold get_latest_movies; paged_call|].
  split; [unfold get_dubbed_movies; paged_call|].
  split; [apply search_movies_degrades_to|].
  split; [apply get_movie_details_degrades_to|].
  apply fetch_movie_details_degrades_to.
Qed.

End Fetch.

(** ** Poster placeholders *)

Section Posters.
Import App.
Variable API_KEY : string.
Variable requests_get : string -> result response.

Lemma missing_poster_spec (poster : json) :
  missing_poster poster = true
  <-> poster = JNull \/ poster = JStr "N/A" \/ poster = JStr "".
Proof.
  destruct poster as [| | |s| |]; simpl;
    try (split; [discriminate|intros [?|[?|?]]; discriminate]).
  - split; auto.
  - rewrite orb_true_iff, !String.eqb_eq.
    split; [intros [->| ->]; auto|intros [?|[[= ->]|[= ->]]]; auto; discriminate].
Qed.

(** A dict returned by the lookup holds a "Response" and is truthy. *)
Lemma fetch_movie_details_truthy (title : string) (fields : list (string * json)) :
  fetch_movie_details API_KEY requests_get title = JObj fields ->
  truthy (JObj fields) = true.
Proof.
  intros Hfetch.
  destruct (fetch_movie_details_degrades API_KEY requests_get title)
    as [Hnull|(r & fields' & _ & _ & Hresponse & Heq)]; [congruence|].
  rewrite Hfetch in Heq. injection Heq as ->.
  by destruct fields'.
Qed.

(** A lookup returns [None] or a dict. *)
Lemma fetch_movie_details_shape (title : string) :
  fetch_movie_details API_KEY requests_get title = JNull
  \/ exists fields, fetch_movie_details API_KEY requests_get title = JObj fields.
Proof.
  destruct (fetch_movie_details_degrades API_KEY requests_get title)
    as [?|(r & fields & _ & _ & _ & ?)]; eauto.
Qed.

(** The Poster field of a lookup result; [None] without a result. *)
Lemma recommend_poster_Ok (title : string) :
  exists poster,
    poster_of (fetch_movie_details API_KEY requests_get title) JNull = Ok poster
    /\ recommend_poster API_KEY requests_get title = Ok (poster_or_no_image poster).
Proof.
  unfold recommend_poster, poster_of.
  destruct (fetch_movie_details_shape title) as [->|[fields ->]]; simpl.
  - by exists JNull.
  - destruct (negb _); simpl; eauto.
Qed.

(** C4, as amended. In the select-box program a poster that is
    [None] (the lookup failed or the field is absent), empty or
    "N/A" is replaced by one constant, the "No Image" URL, in the
    loop of [recommend], in the detail view and in the recommendation
    grid, and in the trending grid when the lookup succeeded. In the
    TMDb program the movie card replaces a [poster_path] that is
    absent, [None] or empty by that program's own constant, the "No
    Poster" URL. *)
Theorem missing_poster_placeholders (str : json -> string) (title : string)
    (fields card : list (string * json)) (poster : json) :
  missing_poster poster = true ->
  default JNull (assoc "Poster" fields) = poster ->
  truthy (default JNull (assoc "poster_path" card)) = false ->
  (fetch_movie_details API_KEY requests_get title = JNull
   \/ fetch_movie_details API_KEY requests_get title = JObj fields ->
   recommend_poster API_KEY requests_get title = Ok (JStr no_image))
  /\ detail_poster (JObj fields) = Ok (JStr no_image)
  /\ grid_poster poster = JStr no_image
  /\ (fetch_movie_details API_KEY requests_get title = JObj fields ->
      trending_poster API_KEY requests_get title = Ok (JStr no_image))
  /\ Recommender.card_poster str (JObj card) = Ok Recommender.no_poster.
Proof.
  intros Hmissing Hfield Hcard. repeat split.
  - unfold recommend_poster, poster_of. intros [->| ->]; simpl; [done|].
    rewrite Hfield. destruct (negb _); simpl; unfold poster_or_no_image;
      by rewrite ?Hmissing.
  - unfold detail_poster. simpl. rewrite Hfield.
    unfold poster_or_no_image. by rewrite Hmissing.
  - unfold grid_poster, poster_or_no_image. by rewrite Hmissing.
  - intros Hfetch. pose proof (fetch_movie_details_truthy _ _ Hfetch) as Htruthy.
    unfold trending_poster, poster_of. rewrite Hfetch, Htruthy. simpl.
    rewrite Hfield. unfold poster_or_no_image. by rewrite Hmissing.
  - unfold Recommender.card_poster. simpl. by rewrite Hcard.
Qed.

End Posters.

Lemma missing_poster_placeholders_witness :
  let fields := [("Response", JStr "True"); ("Poster", JStr "N/A")] in
  App.missing_poster (JStr "N/A") = true
  /\ App.detail_poster (JObj fields) = Ok (JStr App.no_image)
  /\ Recommender.card_poster Demo.str (JObj [("poster_path", JNull)])
     = Ok Recommender.no_poster.
Proof.
  cbv zeta.
  destruct (missing_poster_placeholders "key" Demo.offline Demo.str "Heat"
              [("Response", JStr "True"); ("Poster", JStr "N/A")]
              [("poster_path", JNull)] (JStr "N/A") eq_refl eq_refl eq_refl)
    as (_ & Hdetail & _ & _ & Hcard).
  split; [reflexivity|]. split; [exact Hdetail|exact Hcard].
Defined.

(** C4, as stated, fails: when the lookup fails, the loop of
    [recommend] puts the "No Image" URL in place of the poster and the
    trending grid another URL; the movie card of the TMDb program has a
    third one for a missing [poster_path], and keeps an "N/A" path. *)
Lemma placeholder_differs_between_sites :
  App.fetch_movie_details "key" Demo.offline "Heat" = JNull
  /\ App.recommend_poster "key" Demo.offline "Heat"
     = Ok (JStr "https://via.placeholder.com/300x450?text=No+Image")
  /\ App.trending_poster "key" Demo.offline "Heat"
     = Ok (JStr "https://via.placeholder.com/300x450")
  /\ Recommender.card_poster Demo.str (JObj [("id", JNum 603)])
     = Ok "https://via.placeholder.com/500x750?text=No+Poster"
  /\ Recommender.card_poster Demo.str (JObj [("poster_path", JStr "N/A")])
     = Ok "https://image.tmdb.org/t/p/w500N/A"
  /\ App.recommend_poster "key" Demo.offline "Heat"
     <> App.trending_poster "key" Demo.offline "Heat".
Proof. repeat split. discriminate. Qed.

(** ** The lists returned by [recommend] *)

Section Recommend.
Import App.
Variable API_KEY : string.
Variable movies : frame.
Variable similarity : list (list Q).
Variable requests_get : string -> result response.

Lemma length_enumerate {A} (l : list A) : length (Py.enumerate l) = length l.
Proof. apply length_imap. Qed.

Lemma elem_of_enumerate {A} (l : list A) (i : nat) (x : A) :
  (i, x) ∈ Py.enumerate l <-> l !! i = Some x.
Proof.
  unfold Py.enumerate. rewrite elem_of_lookup_imap. split.
  - by intros (j & y & [= -> ->] & Hj).
  - intros Hi. by exists i, x.
Qed.

Lemma first_index_Ok (movie_name : string) :
  movie_name ∈ titles movies ->
  exists index, first_index movies movie_name = Ok index
                /\ titles movies !! index = Some movie_name.
Proof.
  intros Hin. unfold first_index.
  destruct (list_find_elem_of (fun t => t = movie_name) _ _ Hin eq_refl) as [[i t] Hfind].
  rewrite Hfind. exists i. split; [done|].
  apply list_find_Some in Hfind as (Hi & -> & _). done.
Qed.

Lemma iloc_Ok (i : nat) :
  (i < len movies)%nat -> exists row, iloc movies i = Ok row /\ titles movies !! i = Some row.1.
Proof.
  unfold len, iloc, titles. destruct movies as [rows|rows]; intros Hi.
  - destruct (lookup_lt_is_Some_2 rows i Hi) as [t Ht]. rewrite Ht. eauto.
  - rewrite length_fmap in Hi.
    destruct (lookup_lt_is_Some_2 rows i Hi) as [[t r] Ht]. rewrite Ht.
    eexists. split; [done|]. by rewrite list_lookup_fmap, Ht.
Qed.

Lemma movie_list_take (distances : list Q) :
  movie_list distances = take 30 (drop 1 (Py.sorted_desc snd (Py.enumerate distances))).
Proof. apply slice_1_31. Qed.

Lemma length_movie_list (distances : list Q) :
  length (movie_list distances) = Nat.min 30 (length distances - 1).
Proof.
  rewrite movie_list_take, length_take, length_drop.
  unfold Py.sorted_desc. by rewrite length_stable_sort, length_enumerate.
Qed.

Lemma elem_of_movie_list (distances : list Q) (i : nat) (q : Q) :
  (i, q) ∈ movie_list distances -> distances !! i = Some q.
Proof.
  rewrite movie_list_take. intros Hin.
  apply elem_of_enumerate, (elem_of_stable_sort (fun x y => Qle_bool y.2 x.2)).
  by eapply subseteq_drop, subseteq_take.
Qed.

Lemma length_top_picks (recommendations : list recommendation) (num_movies : Z) :
  0 <= num_movies ->
  length (top_picks recommendations num_movies)
  = Nat.min (Z.to_nat num_movies) (length recommendations).
Proof.
  intros Hn. unfold top_picks. rewrite slice_to_take by done.
  rewrite length_take. unfold Py.sorted_desc. by rewrite length_stable_sort.
Qed.

Lemma is_url_nonempty (s : string) : is_url s = true -> s <> "".
Proof. by intros Hs ->. Qed.

(** Under the contract of the lookup service every poster that the
    loop of [recommend] appends is a web address. *)
Lemma recommend_poster_is_url (title : string) (poster : json) :
  poster_contract API_KEY requests_get ->
  recommend_poster API_KEY requests_get title = Ok poster ->
  exists s, poster = JStr s /\ s <> "" /\ is_url s = true.
Proof.
  intros Hcontract. unfold recommend_poster, poster_of.
  assert (exists s, JStr no_image = JStr s /\ s <> "" /\ is_url s = true) as Hplaceholder
    by (by exists no_image).
  destruct (fetch_movie_details_shape API_KEY requests_get title)
    as [->|[fields Hfetch]]; simpl.
  - by intros [= <-].
  - rewrite Hfetch. simpl.
    destruct (negb _); simpl; [|by intros [= <-]].
    destruct (assoc "Poster" fields) as [p|] eqn:Hp; simpl; [|by intros [= <-]].
    destruct (Hcontract title fields p Hfetch Hp) as [->|(s & -> & [->|[->|Hurl]])];
      try by intros [= <-].
    unfold poster_or_no_image. destruct (missing_poster (JStr s)); intros [= <-];
      eauto using is_url_nonempty.
Qed.

Lemma length_top_picks_any (recommendations : list recommendation) (num_movies : Z) :
  length (top_picks recommendations num_movies)
  = Z.to_nat (if num_movies <? 0
              then Z.max 0 (Z.of_nat (length recommendations) + num_movies)
              else Z.min num_movies (Z.of_nat (length recommendations))).
Proof.
  unfold top_picks, Py.slice, Py.slice_bound, Py.sorted_desc. simpl.
  rewrite drop_0, length_take, length_stable_sort.
  destruct (Z.ltb_spec num_movies 0); lia.
Qed.

(** The poster that the loop of [recommend] appends for a name is
    the poster of that name. *)
Lemma recommend_poster_for (title : string) (poster : json) :
  recommend_poster API_KEY requests_get title = Ok poster ->
  Lookup.poster_for API_KEY requests_get title poster.
Proof.
  unfold recommend_poster, poster_of, Lookup.poster_for, Lookup.reported_poster.
  destruct (fetch_movie_details_degrades_to API_KEY requests_get title) as [Hgood _].
  destruct (fetch_movie_details_degrades API_KEY requests_get title)
    as [Hnull|(r & fields & Hget & Hbody & Hanswer & Hfetch)].
  - rewrite Hnull. simpl. intros [= <-]. split; [|done].
    intros p (r & fields & Hget & Hbody & Hanswer & _) _.
    specialize (Hgood r fields Hget Hbody Hanswer). congruence.
  - rewrite Hfetch.
    assert (truthy (JObj fields) = true) as -> by (by destruct fields).
    simpl. intros [= <-].
    assert (forall p, (exists r' fields',
                requests_get ("https://www.omdbapi.com/?t=" +:+ title +:+ "&apikey=" +:+ API_KEY)
                = Ok r'
                /\ body r' = Some (JObj fields')
                /\ assoc "Response" fields' = Some (JStr "True")
                /\ assoc "Poster" fields' = Some p) <-> assoc "Poster" fields = Some p)
      as Hreported.
    { intros p. split.
      - intros (r' & fields' & Hget' & Hbody' & _ & Hp). congruence.
      - intros Hp. by exists r, fields. }
    unfold poster_or_no_image. split.
    + intros p Hp%Hreported Hshown. rewrite Hp. simpl. by rewrite Hshown.
    + intros Hmissing. destruct (assoc "Poster" fields) as [p|] eqn:Hp; simpl; [|done].
      by rewrite (Hmissing p (proj2 (Hreported p) eq_refl)).
Qed.

(** C8. For a title of the catalog, when the catalog has at least 31
    rows and the similarity matrix has the catalog's size, [recommend]
    returns a list of names and a list of posters of the same length:
    [min n 30] for a count [n] that is not negative, and
    [max 0 (30 + n)] for a negative one, which cuts from the end. The
    poster at a position is the poster of the name at that position:
    the value that OMDb reports for the name, or the placeholder when
    that value is [None], "N/A" or empty, when there is none and when
    the lookup fails. Where the service keeps to web addresses in its
    Poster field, every poster is a non-empty web address. *)
Theorem recommend_lists (movie_name : string) (num_movies : Z) :
  movie_name ∈ titles movies ->
  (31 <= len movies)%nat ->
  square movies similarity ->
  exists names posters,
    recommend API_KEY movies similarity requests_get movie_name num_movies
    = Ok (names, posters)
    /\ length names
       = Z.to_nat (if num_movies <? 0 then Z.max 0 (30 + num_movies)
                   else Z.min num_movies 30)
    /\ length posters = length names
    /\ Forall2 (Lookup.poster_for API_KEY requests_get) names posters
    /\ (poster_contract API_KEY requests_get ->
        Forall (fun poster => exists s, poster = JStr s /\ s <> "" /\ is_url s = true)
          posters).
Proof.
  intros Hin Hlen [Hrows Hcols]. unfold recommend.
  destruct (first_index_Ok movie_name Hin) as (index & -> & Hindex). simpl.
  apply lookup_lt_Some in Hindex. fold (len movies) in Hindex.
  destruct (lookup_lt_is_Some_2 similarity index ltac:(lia)) as [distances Hrow].
  rewrite Hrow. simpl.
  assert (length distances = len movies) as Hdist.
  { rewrite Forall_forall in Hcols. apply Hcols.
    apply list_elem_of_lookup. eauto. }
  set (row_of := fun i : nat * Q =>
                   m_data ← iloc movies i.1;
                   mret {| rec_title := m_data.1; rating := default 0%Q m_data.2 |}).
  destruct (mapM_Ok_total row_of (movie_list distances)) as [recommendations Hrecs].
  { apply Forall_forall. intros [i q] Hiq%elem_of_movie_list.
    apply lookup_lt_Some in Hiq. rewrite Hdist in Hiq.
    destruct (iloc_Ok i Hiq) as (row & Hiloc & _).
    unfold row_of. simpl. rewrite Hiloc. simpl. eauto. }
  rewrite Hrecs. simpl.
  assert (length recommendations = 30%nat) as Hlen_recs.
  { rewrite (mapM_Ok_length _ _ _ Hrecs), length_movie_list. lia. }
  set (picks := top_picks recommendations num_movies).
  assert (length picks
          = Z.to_nat (if num_movies <? 0 then Z.max 0 (30 + num_movies)
                      else Z.min num_movies 30)) as Hlen_picks.
  { subst picks. by rewrite length_top_picks_any, Hlen_recs. }
  destruct (mapM_Ok_total (fun m => recommend_poster API_KEY requests_get (rec_title m)) picks)
    as [posters Hposters].
  { apply Forall_forall. intros m _.
    destruct (recommend_poster_Ok API_KEY requests_get (rec_title m)) as (p & _ & ->).
    eauto. }
  rewrite Hposters. simpl.
  exists (rec_title <$> picks), posters.
  pose proof (mapM_Ok_inv _ _ _ Hposters) as Hall.
  split; [done|]. split; [by rewrite length_fmap|].
  split; [by rewrite (mapM_Ok_length _ _ _ Hposters), length_fmap|].
  split.
  - apply Forall2_fmap_l. eapply Forall2_impl; [exact Hall|].
    intros m poster. apply recommend_poster_for.
  - intros Hcontract. apply Forall_forall. intros p [k Hk]%list_elem_of_lookup.
    destruct (Forall2_lookup_r _ _ _ _ _ Hall Hk) as (m & _ & Hm).
    by eapply recommend_poster_is_url.
Qed.

End Recommend.

Lemma omdb_keeps_contract : App.poster_contract "key" Demo.omdb.
Proof.
  intros title fields p Hfetch Hp.
  unfold App.fetch_movie_details, Demo.omdb in Hfetch.
  repeat match type of Hfetch with
    | context [if ?b then _ else _] => destruct b; simpl in Hfetch
    end;
    try discriminate Hfetch; injection Hfetch as <-; injection Hp as <-.
  - right. eexists. split; [reflexivity|]. right. right. reflexivity.
  - right. eexists. split; [reflexivity|]. right. left. reflexivity.
Qed.

Lemma recommend_lists_witness :
  "Film 05" ∈ App.titles Demo.library
  /\ (31 <= App.len Demo.library)%nat
  /\ App.square Demo.library Demo.closeness
  /\ App.recommend "key" Demo.library Demo.closeness Demo.omdb "Film 05" 5
     = Ok (["Film 18"; "Film 12"; "Film 29"; "Film 06"; "Film 23"],
           [JStr App.no_image; JStr App.no_image; JStr App.no_image;
            JStr "https://img.omdbapi.com/film06.jpg"; JStr App.no_image])
  /\ Lookup.poster_for "key" Demo.omdb "Film 06" (JStr "https://img.omdbapi.com/film06.jpg")
  /\ Lookup.poster_for "key" Demo.omdb "Film 18" (JStr App.no_image).
Proof.
  assert ("Film 05" ∈ App.titles Demo.library) as Hin
    by (apply list_elem_of_lookup; exists 4%nat; reflexivity).
  assert (31 <= App.len Demo.library)%nat as Hlen by (vm_compute; lia).
  assert (App.square Demo.library Demo.closeness) as Hsquare.
  { split; [reflexivity|]. apply Forall_fmap, Forall_forall. intros i _.
    unfold compose. rewrite length_fmap, length_seq. reflexivity. }
  split; [exact Hin|]. split; [exact Hlen|]. split; [exact Hsquare|].
  destruct (recommend_lists "key" Demo.library Demo.closeness Demo.omdb "Film 05" 5
              Hin Hlen Hsquare)
    as (names & posters & Hcall & _ & _ & Hposters & _).
  vm_compute in Hcall. injection Hcall as <- <-.
  split; [reflexivity|].
  split.
  - exact (Forall2_lookup_lr _ _ _ 3%nat _ _ Hposters eq_refl eq_refl).
  - exact (Forall2_lookup_lr _ _ _ 0%nat _ _ Hposters eq_refl eq_refl).
Defined.

(** C8, as stated, fails in two ways. A negative count cuts from the
    end of the picks: with the count -1 the call returns 29 names and
    29 posters. And a poster is whatever the service reports, unless
    it is [None], "N/A" or empty: from a service that writes "n/a"
    the posters are "n/a", which is no web address. *)
Lemma recommend_count_and_poster_off :
  (exists names posters,
      App.recommend "key" Demo.library Demo.closeness Demo.omdb "Film 05" (-1)
      = Ok (names, posters)
      /\ length names = 29%nat
      /\ length posters = 29%nat)
  /\ App.recommend "key" Demo.library Demo.closeness Samples.omdb_lowercase "Film 05" 2
     = Ok (["Film 18"; "Film 12"], [JStr "n/a"; JStr "n/a"])
  /\ App.is_url "n/a" = false.
Proof.
  split; [|split; [by vm_compute|reflexivity]].
  destruct (App.recommend "key" Demo.library Demo.closeness Demo.omdb "Film 05" (-1))
    as [[names posters]|e] eqn:Hcall; [|vm_compute in Hcall; discriminate].
  exists names, posters. vm_compute in Hcall. injection Hcall as <- <-. by repeat split.
Qed.

(** ** Content-based recommendations *)

Section ContentBased.
Import Recommender.
Variable session_get : request -> result response.
Variable tfidf_cosine : string -> list string -> result (list Q).
Implicit Types (self : MovieRecommender) (movie_id : Z).

(** A candidate kept by the loop is a movie of the list whose id
    differs from the target's; what is kept are its fetched details. *)
Lemma candidate_kept self movie_id (movie : json) (feature_str : string) (details : json) :
  candidate session_get self movie_id movie = Ok (Some (feature_str, details)) ->
  exists id, subscript movie "id" = Ok id
             /\ eq_int id movie_id = false
             /\ details = get_movie_details session_get self id.
Proof.
  unfold candidate. destruct (subscript movie "id") as [id|e]; simpl; [|discriminate].
  destruct (eq_int id movie_id) eqn:Hne; simpl; [discriminate|].
  destruct (truthy (get_movie_details session_get self id)); simpl; [|discriminate].
  destruct (create_feature_string _); simpl; [|discriminate].
  intros [= _ <-]. by exists id.
Qed.

(** For [top_n] of 1 or more, a call that returns gives at most
    [top_n] movies, each the fetched details of a movie of the list
    whose id differs from the target's. *)
Lemma content_based_recommendations_sound self movie_id (movies_list : list json)
    (top_n : Z) (recommendations : list json) :
  1 <= top_n ->
  get_content_based_recommendations session_get tfidf_cosine self movie_id movies_list top_n
  = Ok recommendations ->
  (length recommendations <= Z.to_nat top_n)%nat
  /\ Forall (fun details =>
               exists movie id,
                 movie ∈ movies_list
                 /\ subscript movie "id" = Ok id
                 /\ eq_int id movie_id = false
                 /\ details = get_movie_details session_get self id)
       recommendations.
Proof.
  intros Htop. unfold get_content_based_recommendations.
  destruct (negb (truthy _)); [intros [= <-]; split; [simpl; lia|constructor]|].
  destruct (create_feature_string _) as [target_features|e]; simpl; [|discriminate].
  destruct (mapM _ movies_list) as [found|e] eqn:Hfound; simpl; [|discriminate].
  destruct (length (omap id found).*1 =? 0)%nat;
    [intros [= <-]; split; [simpl; lia|constructor]|].
  destruct (tfidf_cosine _ _) as [similarities|e]; simpl; [|discriminate].
  intros Hrecs. pose proof (mapM_Ok_inv _ _ _ Hrecs) as Hall. split.
  - rewrite (mapM_Ok_length _ _ _ Hrecs), length_reverse, slice_last by lia.
    rewrite length_drop. lia.
  - apply Forall_forall. intros details [k Hk]%list_elem_of_lookup.
    destruct (Forall2_lookup_r _ _ _ _ _ Hall Hk) as (i & _ & Hi).
    destruct ((omap id found).*2 !! i) as [m|] eqn:Hm; [|discriminate].
    injection Hi as ->.
    apply list_elem_of_lookup_2, list_elem_of_fmap in Hm as ([feature_str d] & -> & Hin).
    apply list_elem_of_omap in Hin as (o & Ho & Hsome). simpl in Hsome. subst o.
    apply list_elem_of_lookup in Ho as [j Hj].
    destruct (Forall2_lookup_r _ _ _ _ _ (mapM_Ok_inv _ _ _ Hfound) Hj)
      as (movie & Hmovie & Hcandidate).
    destruct (candidate_kept _ _ _ _ _ Hcandidate) as (id & Hid & Hne & Heq).
    exists movie, id. eauto using list_elem_of_lookup_2.
Qed.

End ContentBased.

(** C9 at [top_n = 0]. The target is film 603 and the candidates are
    films 603 and 604. Whatever the similarity computation, as long as
    it gives one score per text, the call returns the details of film
    604: one movie, where at most zero were asked for. The slice
    [[-top_n:]] is the whole array when [top_n] is 0. *)
Theorem top_n_zero_returns_all (tfidf_cosine : string -> list string -> result (list Q)) :
  (forall target texts, exists scores,
      tfidf_cosine target texts = Ok scores /\ length scores = length texts) ->
  Recommender.get_content_based_recommendations Demo.tmdb tfidf_cosine
    Demo.recommender 603 [Demo.matrix; Demo.reloaded] 0
  = Ok [Demo.reloaded_details].
Proof.
  intros Hscores.
  unfold Recommender.get_content_based_recommendations.
  change (Recommender.get_movie_details Demo.tmdb Demo.recommender (JNum (inject_Z 603)))
    with Demo.matrix_details.
  change (truthy Demo.matrix_details) with true.
  change (Recommender.create_feature_string Demo.matrix_details)
    with (Ok (A := string) "Action A hacker learns what the world is.").
  change (mapM (Recommender.candidate Demo.tmdb Demo.recommender 603)
            [Demo.matrix; Demo.reloaded])
    with (Ok [None; Some ("Action The war against the machines goes on.",
                          Demo.reloaded_details)]).
  simpl.
  destruct (Hscores "Action A hacker learns what the world is."
              ["Action The war against the machines goes on."])
    as (scores & -> & Hlen).
  destruct scores as [|q [|? ?]]; try discriminate Hlen.
  reflexivity.
Qed.

Lemma top_n_zero_returns_all_witness :
  length [Demo.matrix; Demo.reloaded] = 2%nat
  /\ Recommender.get_content_based_recommendations Demo.tmdb Demo.flat_scores
       Demo.recommender 603 [Demo.matrix; Demo.reloaded] 0
     = Ok [Demo.reloaded_details].
Proof.
  split; [reflexivity|].
  apply (top_n_zero_returns_all Demo.flat_scores).
  intros target texts. exists (replicate (length texts) (1 # 2)).
  split; [reflexivity|apply length_replicate].
Defined.

(** ** The ranking of [recommend] *)

Section Ranking.
Import App.
Variable API_KEY : string.
Variable movies : frame.
Variable similarity : list (list Q).
Variable requests_get : string -> result response.

Lemma slice_to_prefix {A} (n : Z) (l : list A) :
  exists k, Py.slice None (Some n) l = take k l.
Proof. unfold Py.slice. simpl. rewrite drop_0. eauto. Qed.

Lemma NoDup_enumerate {A} (l : list A) : NoDup (Py.enumerate l).
Proof.
  apply NoDup_alt. intros i j [k x] Hi Hj.
  unfold Py.enumerate in *. rewrite list_lookup_imap in Hi, Hj.
  destruct (l !! i), (l !! j); simpl in *; congruence.
Qed.

(** The picks are in descending order of rating, whatever the count. *)
Lemma top_picks_sorted (recommendations : list recommendation) (num_movies : Z) :
  StronglySorted (Py.desc rating) (top_picks recommendations num_movies).
Proof.
  unfold top_picks. destruct (slice_to_prefix num_movies
                                (Py.sorted_desc rating recommendations)) as [k ->].
  apply StronglySorted_take, sorted_desc_sorted.
Qed.

(** When the query's own score is strictly the largest of its row,
    the sorted row starts with the query, and the query is nowhere
    else in it. *)
Lemma sorted_row_head (distances : list Q) (index : nat) (q0 : Q) :
  distances !! index = Some q0 ->
  (forall j q, j <> index -> distances !! j = Some q -> (q < q0)%Q) ->
  exists rest,
    Py.sorted_desc snd (Py.enumerate distances) = (index, q0) :: rest
    /\ forall i q, (i, q) ∈ rest -> i <> index.
Proof.
  intros Hself Hstrict.
  pose proof (sorted_desc_sorted snd (Py.enumerate distances)) as Hsorted.
  pose proof (stable_sort_Permutation (fun x y : nat * Q => Qle_bool y.2 x.2)
                (Py.enumerate distances)) as Hperm.
  fold (Py.sorted_desc snd (Py.enumerate distances)) in Hperm.
  assert (NoDup (Py.sorted_desc snd (Py.enumerate distances))) as Hnodup
    by (rewrite Hperm; apply NoDup_enumerate).
  assert ((index, q0) ∈ Py.sorted_desc snd (Py.enumerate distances)) as Hin
    by (rewrite Hperm; by apply elem_of_enumerate).
  assert (forall i q, (i, q) ∈ Py.sorted_desc snd (Py.enumerate distances) ->
                      distances !! i = Some q) as Hlookup
    by (intros i q; rewrite Hperm; apply elem_of_enumerate).
  destruct (Py.sorted_desc snd (Py.enumerate distances)) as [|[i0 q0'] rest];
    [by apply elem_of_nil in Hin|].
  apply StronglySorted_inv in Hsorted as [_ Hhead].
  apply NoDup_cons in Hnodup as [Hfresh _].
  assert (i0 = index) as ->.
  { destruct (decide (i0 = index)) as [|Hne]; [done|].
    pose proof (Hstrict i0 q0' Hne (Hlookup _ _ (list_elem_of_here _ _))) as Hlt.
    apply elem_of_cons in Hin as [[= <- _]|Hin]; [done|].
    rewrite Forall_forall in Hhead. specialize (Hhead _ Hin).
    unfold Py.desc in Hhead. simpl in Hhead.
    exfalso. eapply Qlt_not_le; eassumption. }
  assert (q0' = q0) as ->.
  { pose proof (Hlookup _ _ (list_elem_of_here _ _)) as H0. congruence. }
  exists rest. split; [done|].
  intros i q Hiq ->. apply Hfresh.
  pose proof (Hlookup _ _ (list_elem_of_further _ _ _ Hiq)) as Hq.
  assert (q = q0) as -> by congruence. done.
Qed.

(** In that case the query is not in the pool. *)
Lemma movie_list_excludes_query (distances : list Q) (index : nat) (q0 : Q) :
  distances !! index = Some q0 ->
  (forall j q, j <> index -> distances !! j = Some q -> (q < q0)%Q) ->
  forall i q, (i, q) ∈ movie_list distances -> i <> index.
Proof.
  intros Hself Hstrict i q. rewrite movie_list_take.
  destruct (sorted_row_head distances index q0 Hself Hstrict) as (rest & -> & Hrest).
  simpl. rewrite drop_0. intros Hin%subseteq_take. by eapply Hrest.
Qed.

(** What a returning call of [recommend] computed: the pool is the
    sorted similarity row of the title without its first entry, cut at
    thirty; each entry of the pool gives the title and the rating of
    the catalog row at its position; and the names are those of the
    pool's entries in descending order of rating, cut at the count. *)
Lemma recommend_ranked (movie_name : string) (num_movies : Z)
    (names : list string) (posters : list json) :
  recommend API_KEY movies similarity requests_get movie_name num_movies
  = Ok (names, posters) ->
  exists index distances recommendations,
    first_index movies movie_name = Ok index
    /\ similarity !! index = Some distances
    /\ Forall2 (fun (entry : nat * Q) (r : recommendation) =>
                  exists row, iloc movies entry.1 = Ok row
                              /\ rec_title r = row.1
                              /\ rating r = default 0%Q row.2)
         (movie_list distances) recommendations
    /\ names = rec_title <$> top_picks recommendations num_movies
    /\ StronglySorted (Py.desc rating) (top_picks recommendations num_movies).
Proof.
  unfold recommend.
  destruct (first_index movies movie_name) as [index|e] eqn:Hindex; simpl; [|discriminate].
  destruct (similarity !! index) as [distances|] eqn:Hrow; simpl; [|discriminate].
  destruct (mapM _ (movie_list distances)) as [recommendations|e] eqn:Hrecs;
    simpl; [|discriminate].
  destruct (mapM _ (top_picks recommendations num_movies)) as [ps|e]; simpl; [|discriminate].
  intros [= <- <-]. exists index, distances, recommendations.
  split; [done|]. split; [done|]. split; [|split; [done|apply top_picks_sorted]].
  eapply Forall2_impl; [exact (mapM_Ok_inv _ _ _ Hrecs)|].
  intros [i q] r. simpl.
  destruct (iloc movies i) as [row|e]; simpl; [|discriminate].
  intros [= <-]. eauto.
Qed.

Lemma iloc_title (i : nat) (row : string * option Q) :
  iloc movies i = Ok row -> titles movies !! i = Some row.1.
Proof.
  unfold iloc, titles. destruct movies as [rows|rows].
  - destruct (rows !! i) as [t|] eqn:Ht; [|discriminate]. by intros [= <-].
  - rewrite list_lookup_fmap. destruct (rows !! i) as [[t r]|] eqn:Ht; [|discriminate].
    by intros [= <-].
Qed.

Lemma first_index_title (movie_name : string) (index : nat) :
  first_index movies movie_name = Ok index -> titles movies !! index = Some movie_name.
Proof.
  unfold first_index.
  destruct (list_find _ _) as [[i t]|] eqn:Hfind; [|discriminate].
  intros [= <-]. by apply list_find_Some in Hfind as (Hi & -> & _).
Qed.

(** Over a catalog without repeated titles, when the score of the
    query with itself is strictly the largest of its row, the query is
    not among the names returned. *)
Lemma recommend_excludes_query (movie_name : string) (num_movies : Z)
    (names : list string) (posters : list json) :
  NoDup (titles movies) ->
  (forall index distances,
      first_index movies movie_name = Ok index ->
      similarity !! index = Some distances ->
      exists q0, distances !! index = Some q0
                 /\ forall j q, j <> index -> distances !! j = Some q -> (q < q0)%Q) ->
  recommend API_KEY movies similarity requests_get movie_name num_movies
  = Ok (names, posters) ->
  movie_name ∉ names.
Proof.
  intros Hnodup Hstrict Hcall.
  destruct (recommend_ranked _ _ _ _ Hcall)
    as (index & distances & recommendations & Hindex & Hrow & Hpool & -> & _).
  destruct (Hstrict index distances Hindex Hrow) as (q0 & Hself & Hmax).
  intros (r & Hname & Hr)%list_elem_of_fmap.
  assert (r ∈ recommendations) as Hin.
  { unfold top_picks in Hr.
    destruct (slice_to_prefix num_movies (Py.sorted_desc rating recommendations)) as [k Hk].
    rewrite Hk in Hr. apply subseteq_take in Hr.
    unfold Py.sorted_desc in Hr. by apply elem_of_stable_sort in Hr. }
  apply list_elem_of_lookup in Hin as [k Hk].
  destruct (Forall2_lookup_r _ _ _ _ _ Hpool Hk) as ([i q] & Hentry & row & Hiloc & Htitle & _).
  simpl in Hiloc.
  apply list_elem_of_lookup_2 in Hentry.
  pose proof (movie_list_excludes_query distances index q0 Hself Hmax i q Hentry) as Hne.
  apply Hne. eapply NoDup_lookup; [exact Hnodup| |exact (first_index_title _ _ Hindex)].
  rewrite (iloc_title _ _ Hiloc). congruence.
Qed.

End Ranking.

(** C1 at a catalog with two films of equal tags. "Aliens" is the
    second row; its similarity to "Alien", the first row, is 1, as is
    its similarity to itself. The sorted row starts with "Alien", which
    the slice drops; "Aliens" itself stays in the pool and is returned,
    and its nearest neighbour is not. *)
Theorem recommend_keeps_query_on_tie :
  App.first_index Demo.catalog "Aliens" = Ok 1%nat
  /\ Demo.twins !! 1%nat = Some [1; 1; 4 # 10; 1 # 10]%Q
  /\ App.movie_list [1; 1; 4 # 10; 1 # 10]%Q = [(1%nat, 1%Q); (2%nat, 4 # 10); (3%nat, 1 # 10)]
  /\ exists posters,
       App.recommend "key" Demo.catalog Demo.twins Demo.offline "Aliens" 3
       = Ok (["Aliens"; "Heat"; "Brazil"], posters).
Proof. do 3 (split; [reflexivity|]). eexists. vm_compute. reflexivity. Qed.

(** * Further properties *)

(** ** The card grid of app.py *)

Section Grid.
Import App AppView.
Context {A : Type}.
Implicit Types (items : list A).

Lemma grid_row_take items (i : nat) : grid_row items i = take 5 (drop i items).
Proof.
  unfold grid_row.
  assert (forall j, (if (i + j <? length items)%nat then items !! (i + j)%nat else None)
                    = drop i items !! j) as Hcell.
  { intros j. rewrite lookup_drop.
    destruct (Nat.ltb_spec (i + j) (length items)) as [|Hge]; [done|].
    symmetry. by apply lookup_ge_None. }
  erewrite (list_omap_ext _ (fun j => drop i items !! j) _ (seq 0 5));
    [|apply Forall2_same_length_lookup; split; [done|];
      intros k x y Hx Hy; rewrite Hx in Hy; injection Hy as <-; apply Hcell].
  by destruct (drop i items) as [|x0 [|x1 [|x2 [|x3 [|x4 rest]]]]].
Qed.

Lemma concat_chunks items (m : nat) :
  concat ((fun k => take 5 (drop (k * 5) items)) <$> seq 0 m) = take (m * 5) items.
Proof.
  induction m as [|m IH]; [done|].
  rewrite seq_S, fmap_app, concat_app, IH. simpl. rewrite app_nil_r.
  rewrite take_take_drop. f_equal. lia.
Qed.

(** The grid shows every item once, in order, five to a row: the rows
    put end to end are the list, there are [ceil(len / 5)] of them,
    none is empty, and every row before the last holds five cells. *)
Theorem grid_shows_each_item_once items :
  concat (grid items) = items
  /\ length (grid items) = ((length items + 4) / 5)%nat
  /\ Forall (fun row => (1 <= length row <= 5)%nat) (grid items)
  /\ (forall (k : nat) (row : list A),
        grid items !! k = Some row ->
        (S k < length (grid items))%nat -> length row = 5%nat).
Proof.
  assert (grid items
          = (fun k => take 5 (drop (k * 5) items)) <$> seq 0 ((length items + 4) / 5))
    as Hgrid.
  { unfold grid, range_step. rewrite <- list_fmap_compose.
    replace (length items + 5 - 1)%nat with (length items + 4)%nat by lia.
    apply list_fmap_ext. intros _ k _. apply grid_row_take. }
  set (m := ((length items + 4) / 5)%nat) in *.
  assert (length items <= m * 5 /\ m * 5 < length items + 5)%nat as [Hlo Hhi].
  { subst m. pose proof (Nat.div_mod_eq (length items + 4) 5).
    pose proof (Nat.mod_upper_bound (length items + 4) 5). lia. }
  assert (length (grid items) = m) as Hlen
    by (by rewrite Hgrid, length_fmap, length_seq).
  split; [rewrite Hgrid, concat_chunks; by apply take_ge|].
  split; [done|]. split.
  - rewrite Hgrid. apply Forall_fmap, Forall_forall.
    intros k Hk%elem_of_seq. simpl. rewrite length_take, length_drop. lia.
  - intros k row Hrow Hk. rewrite Hlen in Hk. rewrite Hgrid in Hrow.
    rewrite list_lookup_fmap in Hrow.
    destruct (seq 0 m !! k) as [k'|] eqn:Hseq; [|discriminate].
    apply lookup_seq in Hseq as [-> _]. injection Hrow as <-.
    rewrite length_take, length_drop. lia.
Qed.

End Grid.

(** ** Deep links and the trending view of app.py *)

Section AppSession.
Import App AppView.
Implicit Types (movies : frame) (st : session_state) (query_params : gmap string string).

Lemma handle_url_params_offset movies query_params st :
  trending_offset (handle_url_params movies query_params st) = trending_offset st.
Proof.
  unfold handle_url_params. destruct (query_params !! "movie"); [|done].
  repeat case_bool_decide; simpl; try done; by destruct (negb _).
Qed.

Lemma sync_selection_offset selected_movie st query_params st' query_params' :
  sync_selection selected_movie st query_params = Ok (st', query_params') ->
  trending_offset st' = trending_offset st.
Proof.
  unfold sync_selection. destruct (selected_movie_name st); [|discriminate].
  intros [= <- _]. by case_bool_decide.
Qed.

(** A link round trip. When the select box returns a title of the
    catalog, the script stores it as the selection and writes it to the
    "movie" parameter; a later run that starts from any session and
    reads the parameters written selects that title again. When the
    select box returns nothing, the parameter is removed, and after
    [go_back] the parameters are empty: in both cases a later run
    leaves the session it starts from as it is. *)
Theorem deep_link_round_trip movies (t : string) (selected_movie : option string)
    st query_params st' query_params' (later : session_state) :
  t ∈ titles movies ->
  t <> "" ->
  sync_selection selected_movie st query_params = Ok (st', query_params') ->
  selected_movie_name st' = Some selected_movie
  /\ (selected_movie = Some t ->
        query_params' !! "movie" = Some t
        /\ selected_movie_name (handle_url_params movies query_params' later)
           = Some (Some t))
  /\ (chosen selected_movie = false ->
        query_params' !! "movie" = None
        /\ handle_url_params movies query_params' later = later)
  /\ handle_url_params movies (go_back st query_params).2 later = later
  /\ selected_movie_name (go_back st query_params).1 = Some None.
Proof.
  intros Hin Hne. unfold sync_selection.
  destruct (selected_movie_name st) as [current|] eqn:Hcurrent; [|discriminate].
  intros [= <- <-]. split; [|split; [|split; [|split]]].
  - case_bool_decide; simpl; congruence.
  - intros ->. simpl.
    assert (negb (String.eqb t "") = true) as ->
      by (apply negb_true_iff, String.eqb_neq, Hne).
    assert (<["movie" := t]> query_params !! "movie" = Some t) as Hq
      by apply lookup_insert_eq.
    split; [done|].
    unfold handle_url_params. rewrite Hq.
    rewrite bool_decide_eq_true_2 by done.
    destruct (bool_decide (selected_movie_name later = None)); simpl; [done|].
    case_bool_decide; simpl; done.
  - intros Hfalse.
    assert ((match selected_movie with
             | Some t0 => if chosen selected_movie then <["movie" := t0]> query_params
                          else delete "movie" query_params
             | None => delete "movie" query_params
             end) = delete "movie" query_params) as ->
      by (destruct selected_movie; by rewrite ?Hfalse).
    assert (delete "movie" query_params !! "movie" = None) as Hq
      by apply lookup_delete_eq.
    split; [done|]. unfold handle_url_params. by rewrite Hq.
  - reflexivity.
  - reflexivity.
Qed.

(** The trending offset of a reachable session, once set, is a
    multiple of ten and not negative: the key starts at 0 and only the
    Refresh button changes it, by ten. *)
Theorem trending_offset_multiple_of_ten movies st (offset : Z) :
  reachable movies st ->
  trending_offset st = Some offset ->
  exists k : nat, offset = 10 * Z.of_nat k.
Proof.
  intros Hreach. revert offset.
  induction Hreach as [|qp st _ IH|st _ IH|t st _ IH|qp st _ IH
                      |sel qp st st' qp' _ IH Hsync|st st' _ IH Hrefresh];
    intros offset; simpl.
  - discriminate.
  - rewrite handle_url_params_offset. apply IH.
  - unfold init_selected_movie_name, init_trending_offset.
    destruct (trending_offset st) as [o|] eqn:Ho.
    + destruct (selected_movie_name st); simpl; rewrite ?Ho; apply IH.
    + destruct (selected_movie_name st); simpl; intros [= <-]; by exists 0%nat.
  - apply IH.
  - apply IH.
  - rewrite (sync_selection_offset _ _ _ _ _ Hsync). apply IH.
  - unfold refresh in Hrefresh.
    destruct (trending_offset st) as [o|] eqn:Ho; [|discriminate].
    injection Hrefresh as <-. simpl. intros [= <-].
    destruct (IH o eq_refl) as [k ->]. exists (S k). lia.
Qed.

Lemma slice_fmap {A B} (f : A -> B) (lo hi : option Z) (l : list A) :
  f <$> Py.slice lo hi l = Py.slice lo hi (f <$> l).
Proof. unfold Py.slice. by rewrite fmap_take, fmap_drop, length_fmap. Qed.

Lemma titles_iloc_slice movies (a b : Z) :
  titles (iloc_slice movies a b) = Py.slice (Some a) (Some b) (titles movies).
Proof. destruct movies as [rows|rows]; simpl; [done|apply slice_fmap]. Qed.

Lemma StronglySorted_lookup {A} (R : A -> A -> Prop) (l : list A) (i j : nat) (x y : A) :
  StronglySorted R l -> (i < j)%nat -> l !! i = Some x -> l !! j = Some y -> R x y.
Proof.
  intros Hsorted. revert i j.
  induction Hsorted as [|z l Hl IH Hz]; intros i j Hij Hi Hj; [done|].
  destruct j as [|j]; [exfalso; lia|]. destruct i as [|i]; simpl in *.
  - injection Hi as <-. rewrite Forall_forall in Hz.
    by eapply Hz, list_elem_of_lookup_2.
  - apply (IH i j); [lia|done..].
Qed.

Lemma stable_sort_sorts_by_rating : Trending.sorts_by_rating sort_values_desc.
Proof.
  intros rows. exists (Py.sorted_desc snd rows).
  split; [done|]. split; [apply stable_sort_Permutation|apply sorted_desc_sorted].
Qed.

(** Over a catalog of more than ten rows, the trending view shows ten
    rows: those that follow position [offset mod (len - 10)] of the
    catalog or, when there are ratings, of the catalog as
    [sort_values] arranged it, which is some descending order of
    rating. The window ends before the last row of that order, for
    every offset: no row shown has a lower rating than a row after
    the window, and there is such a row. *)
Theorem trending_window (sort_values : frame -> frame) movies (offset : Z) :
  Trending.sorts_by_rating sort_values ->
  (10 < len movies)%nat ->
  let start := Z.to_nat (offset mod (Z.of_nat (len movies) - 10)) in
  (start + 10 < len movies)%nat
  /\ match movies with
     | Titles rows =>
         Trending.trending_movies sort_values movies offset
         = Ok (Titles (take 10 (drop start rows)))
     | Rated rows =>
         exists sorted,
           sort_values movies = Rated sorted
           /\ sorted ≡ₚ rows
           /\ StronglySorted (Py.desc snd) sorted
           /\ Trending.trending_movies sort_values movies offset
              = Ok (Rated (take 10 (drop start sorted)))
           /\ length (take 10 (drop start sorted)) = 10%nat
           /\ drop (start + 10) sorted <> []
           /\ Forall (fun shown =>
                        Forall (fun later => (later.2 <= shown.2)%Q)
                          (drop (start + 10) sorted))
                (take 10 (drop start sorted))
     end.
Proof.
  intros Hsort Hlen. cbv zeta.
  pose proof (Z.mod_pos_bound offset (Z.of_nat (len movies) - 10) ltac:(lia)) as Hstart.
  split; [lia|].
  unfold Trending.trending_movies, py_mod.
  destruct movies as [rows|rows]; simpl has_vote_average; cbv iota.
  - destruct (Z.eqb_spec (Z.of_nat (len (Titles rows)) - 10) 0) as [Hzero|_];
      [exfalso; lia|].
    simpl. rewrite slice_between; [|lia|unfold len in *; simpl in *; lia].
    do 4 f_equal. lia.
  - destruct (Hsort rows) as (sorted & Hsorted & Hperm & Hdesc).
    exists sorted. split; [done|]. split; [done|]. split; [done|].
    rewrite Hsorted.
    assert (length sorted = len (Rated rows)) as Hsame.
    { unfold len. simpl. by rewrite length_fmap, Hperm. }
    assert (len (Rated sorted) = len (Rated rows)) as Hsame'.
    { unfold len. simpl. by rewrite !length_fmap, Hperm. }
    rewrite Hsame'.
    destruct (Z.eqb_spec (Z.of_nat (len (Rated rows)) - 10) 0) as [Hzero|_];
      [exfalso; lia|].
    simpl. rewrite slice_between; [|lia|lia].
    set (start := Z.to_nat (offset mod (Z.of_nat (len (Rated rows)) - 10))).
    replace (Z.to_nat (offset mod (Z.of_nat (len (Rated rows)) - 10) + 10
                       - offset mod (Z.of_nat (len (Rated rows)) - 10))) with 10%nat by lia.
    split; [done|].
    split; [rewrite length_take, length_drop; lia|].
    split.
    + intros Hnil. apply (f_equal length) in Hnil.
      rewrite length_drop in Hnil. simpl in Hnil. lia.
    + apply Forall_forall. intros shown [i Hi]%list_elem_of_lookup.
      apply Forall_forall. intros later [j Hj]%list_elem_of_lookup.
      apply lookup_take_Some in Hi as [Hi Hten].
      rewrite lookup_drop in Hi, Hj.
      exact (StronglySorted_lookup (Py.desc snd) sorted (start + i) (start + 10 + j)
               shown later Hdesc ltac:(lia) Hi Hj).
Qed.

(** A catalog of exactly ten rows makes the trending view raise
    [ZeroDivisionError], whatever the offset. *)
Theorem trending_ten_rows_raises movies (offset : Z) :
  len movies = 10%nat ->
  trending_titles movies offset = Raise ZeroDivisionError.
Proof.
  intros Hlen. unfold trending_titles, start_idx, py_mod. by rewrite Hlen.
Qed.

End AppSession.

(** ** More on [recommend] *)

Section RecommendMore.
Import App AppView.
Variable API_KEY : string.
Variable movies : frame.
Variable similarity : list (list Q).
Variable requests_get : string -> result response.

Lemma recommend_posters_inv (movie_name : string) (num_movies : Z)
    (names : list string) (posters : list json) :
  recommend API_KEY movies similarity requests_get movie_name num_movies
  = Ok (names, posters) ->
  Forall2 (fun name poster => recommend_poster API_KEY requests_get name = Ok poster)
    names posters.
Proof.
  unfold recommend.
  destruct (first_index movies movie_name) as [index|e]; simpl; [|discriminate].
  destruct (similarity !! index) as [distances|]; simpl; [|discriminate].
  destruct (mapM _ (movie_list distances)) as [recommendations|e]; simpl; [|discriminate].
  destruct (mapM _ (top_picks recommendations num_movies)) as [ps|e] eqn:Hps;
    simpl; [|discriminate].
  intros [= <- <-]. apply Forall2_fmap_l. exact (mapM_Ok_inv _ _ _ Hps).
Qed.

Lemma top_picks_subseteq (recommendations : list recommendation) (num_movies : Z) :
  top_picks recommendations num_movies ⊆ recommendations.
Proof.
  unfold top_picks.
  destruct (slice_to_prefix num_movies (Py.sorted_desc rating recommendations)) as [k ->].
  intros r Hr%subseteq_take. unfold Py.sorted_desc in Hr.
  by apply elem_of_stable_sort in Hr.
Qed.

Lemma length_top_picks_le (recommendations : list recommendation) (num_movies : Z) :
  (length (top_picks recommendations num_movies) <= length recommendations)%nat.
Proof.
  unfold top_picks.
  destruct (slice_to_prefix num_movies (Py.sorted_desc rating recommendations)) as [k ->].
  rewrite length_take. unfold Py.sorted_desc. rewrite length_stable_sort. lia.
Qed.

(** The names that a call of [recommend] returns are listed in
    descending order of rating: there are picks, one per name and in
    the same order, each with the title and the [vote_average] (0
    without that column) of a catalog row whose position is in the
    pool of the title's similarity row, and no pick has a higher
    rating than a pick before it. *)
Theorem recommend_names_by_rating (movie_name : string) (num_movies : Z)
    (names : list string) (posters : list json) :
  recommend API_KEY movies similarity requests_get movie_name num_movies
  = Ok (names, posters) ->
  exists (index : nat) (distances : list Q) (picks : list recommendation),
    first_index movies movie_name = Ok index
    /\ similarity !! index = Some distances
    /\ names = rec_title <$> picks
    /\ StronglySorted (fun earlier later => (rating later <= rating earlier)%Q) picks
    /\ Forall (fun pick =>
                 exists (i : nat) (q : Q) (row : string * option Q),
                   (i, q) ∈ movie_list distances
                   /\ iloc movies i = Ok row
                   /\ rec_title pick = row.1
                   /\ rating pick = default 0%Q row.2)
         picks.
Proof.
  intros Hcall.
  destruct (recommend_ranked _ _ _ _ _ _ _ _ Hcall)
    as (index & distances & recommendations & Hindex & Hrow & Hpool & -> & Hsorted).
  exists index, distances, (top_picks recommendations num_movies).
  split; [done|]. split; [done|]. split; [done|]. split; [exact Hsorted|].
  apply Forall_forall. intros pick Hpick%top_picks_subseteq.
  apply list_elem_of_lookup in Hpick as [k Hk].
  destruct (Forall2_lookup_r _ _ _ _ _ Hpool Hk)
    as ([i q] & Hentry & row & Hiloc & Htitle & Hrating).
  exists i, q, row. eauto using list_elem_of_lookup_2.
Qed.

(** A call of [recommend] that returns gives as many posters as
    names, at most thirty of each and, for a count that is not
    negative, at most the count; every name is a title of the
    catalog. *)
Theorem recommend_bounds (movie_name : string) (num_movies : Z)
    (names : list string) (posters : list json) :
  recommend API_KEY movies similarity requests_get movie_name num_movies
  = Ok (names, posters) ->
  length posters = length names
  /\ (length names <= 30)%nat
  /\ (0 <= num_movies -> (length names <= Z.to_nat num_movies)%nat)
  /\ Forall (fun name => name ∈ titles movies) names.
Proof.
  intros Hcall.
  pose proof (Forall2_length _ _ _ (recommend_posters_inv _ _ _ _ Hcall)) as Hposters.
  destruct (recommend_ranked _ _ _ _ _ _ _ _ Hcall)
    as (index & distances & recommendations & Hindex & Hrow & Hpool & -> & _).
  pose proof (Forall2_length _ _ _ Hpool) as Hlen.
  rewrite length_movie_list in Hlen.
  pose proof (length_top_picks_le recommendations num_movies) as Hle.
  rewrite length_fmap in *.
  split; [done|]. split; [lia|]. split.
  - intros Hn. rewrite length_top_picks by done. lia.
  - apply Forall_fmap, Forall_forall. intros pick Hpick%top_picks_subseteq.
    apply list_elem_of_lookup in Hpick as [k Hk].
    destruct (Forall2_lookup_r _ _ _ _ _ Hpool Hk)
      as ([i q] & _ & row & Hiloc & Htitle & _).
    simpl. rewrite Htitle. eapply list_elem_of_lookup_2, iloc_title, Hiloc.
Qed.

(** No poster that [recommend] returns is [None], empty or "N/A":
    the fallback of the recommendation grid never changes one. *)
Theorem recommend_posters_present (movie_name : string) (num_movies : Z)
    (names : list string) (posters : list json) :
  recommend API_KEY movies similarity requests_get movie_name num_movies
  = Ok (names, posters) ->
  Forall (fun poster => missing_poster poster = false /\ grid_poster poster = poster)
    posters.
Proof.
  intros Hcall%recommend_posters_inv.
  apply Forall_forall. intros poster [k Hk]%list_elem_of_lookup.
  destruct (Forall2_lookup_r _ _ _ _ _ Hcall Hk) as (name & _ & Hname).
  destruct (recommend_poster_Ok API_KEY requests_get name) as (p & _ & Hp).
  rewrite Hp in Hname. injection Hname as <-.
  assert (missing_poster (poster_or_no_image p) = false) as Hpresent
    by (unfold poster_or_no_image; by destruct (missing_poster p) eqn:E).
  split; [done|]. unfold grid_poster.
  unfold poster_or_no_image at 1. by rewrite Hpresent.
Qed.

(** For a name that is no title of the catalog, [recommend] raises
    [IndexError]: [.index[0]] is taken on an empty selection. *)
Theorem recommend_unknown_title (movie_name : string) (num_movies : Z) :
  movie_name ∉ titles movies ->
  recommend API_KEY movies similarity requests_get movie_name num_movies
  = Raise IndexError.
Proof.
  intros Hnot. unfold recommend, first_index.
  destruct (list_find _ _) as [[i t]|] eqn:Hfind; [|done].
  apply list_find_Some in Hfind as (Hi & -> & _).
  exfalso. eauto using list_elem_of_lookup_2.
Qed.

End RecommendMore.

(** ** Likes, history and persistence *)

Section ViewsFacts.
Import Recommender Views.
Implicit Types (self : MovieRecommender) (movie_id : Z).

Lemma like_button_press_flips movie_id (movie movie' : json) (mode mode' : option string)
    (now now' : datetime) (w w' : write) self :
  let once := like_button_press movie_id movie mode now w self in
  let twice := like_button_press movie_id movie' mode' now' w' once in
  is_movie_liked movie_id once = negb (is_movie_liked movie_id self)
  /\ (forall other, other <> movie_id ->
        liked_movies once !! other = liked_movies self !! other)
  /\ dom (liked_movies twice) = dom (liked_movies self).
Proof.
  cbv zeta. unfold like_button_press.
  destruct (is_movie_liked movie_id self) eqn:Hliked; cbv beta iota.
  - assert (is_movie_liked movie_id (unlike_movie movie_id w self) = false) as Hnot.
    { unfold is_movie_liked. apply bool_decide_eq_false.
      rewrite liked_movies_unlike, dom_delete_L, elem_of_difference, elem_of_singleton.
      by intros [_ []]. }
    rewrite Hnot. cbv beta iota. split; [done|]. split.
    + intros other Hne. rewrite liked_movies_unlike. by apply lookup_delete_ne.
    + rewrite liked_movies_like, liked_movies_unlike, dom_insert_L, dom_delete_L.
      apply bool_decide_eq_true in Hliked.
      apply set_eq. intros x.
      rewrite elem_of_union, elem_of_singleton, elem_of_difference, elem_of_singleton.
      destruct (decide (x = movie_id)) as [->|]; tauto.
  - assert (is_movie_liked movie_id (like_movie movie_id movie mode now w self) = true)
      as Hyes.
    { apply is_movie_liked_spec. rewrite liked_movies_like, lookup_insert_eq. eauto. }
    rewrite Hyes. cbv beta iota. split; [done|]. split.
    + intros other Hne. rewrite liked_movies_like. by apply lookup_insert_ne.
    + rewrite liked_movies_unlike, liked_movies_like, delete_insert_eq.
      f_equal. apply delete_id, not_elem_of_dom.
      by apply bool_decide_eq_false in Hliked.
Qed.

Lemma synced_inv self :
  synced self ->
  user_search_history self = load [] (search_history_file self)
  /\ liked_movies self = load ∅ (liked_movies_file self).
Proof.
  unfold synced, reopen, init. destruct self; simpl. by intros [= <- <-].
Qed.

(** What the run after a press finds, by the outcome of the write. *)
Lemma press_like_cases movie_id (movie : json) (mode : option string) (now : datetime)
    (w : write) self :
  synced self ->
  match w with
  | Stored =>
      press_like movie_id movie mode now w self
      = like_button_press movie_id movie mode now w self
  | OpenFailed => press_like movie_id movie mode now w self = self
  | DumpFailed =>
      liked_movies (press_like movie_id movie mode now w self) = ∅
      /\ user_search_history (press_like movie_id movie mode now w self)
         = user_search_history self
  end.
Proof.
  intros Hsynced. destruct (synced_inv self Hsynced) as [Hhistory Hliked].
  unfold press_like, like_button_press, unlike_movie.
  destruct (is_movie_liked movie_id self); destruct w;
    unfold like_movie, reopen, init, save_liked_movies, with_liked_movies; simpl;
    rewrite <- ?Hhistory, <- ?Hliked; try done;
    by destruct self.
Qed.

(** A press on the Like or Unlike button of a card, followed by the
    run that it starts. For a recommender that agrees with its files:
    when the write is stored, the press turns the liked status of the
    movie into the opposite, leaves the record of every other movie
    alone and leaves a recommender that agrees with its files again,
    so that after a second stored press the set of liked ids is the
    one before the first; when the file cannot be opened the press
    changes nothing; and when the dump fails no movie is liked any
    more. *)
Theorem like_button_toggles movie_id (movie movie' : json) (mode mode' : option string)
    (now now' : datetime) self :
  synced self ->
  let once := press_like movie_id movie mode now Stored self in
  let twice := press_like movie_id movie' mode' now' Stored once in
  is_movie_liked movie_id once = negb (is_movie_liked movie_id self)
  /\ (forall other, other <> movie_id ->
        liked_movies once !! other = liked_movies self !! other)
  /\ synced once
  /\ dom (liked_movies twice) = dom (liked_movies self)
  /\ press_like movie_id movie mode now OpenFailed self = self
  /\ liked_movies (press_like movie_id movie mode now DumpFailed self) = ∅.
Proof.
  intros Hsynced. cbv zeta.
  pose proof (press_like_cases movie_id movie mode now Stored self Hsynced) as Honce.
  simpl in Honce.
  assert (synced (press_like movie_id movie mode now Stored self)) as Hsynced'.
  { unfold synced, press_like at 2. unfold reopen at 1. unfold press_like.
    by destruct (like_button_press movie_id movie mode now Stored self). }
  pose proof (press_like_cases movie_id movie' mode' now' Stored _ Hsynced') as Htwice.
  simpl in Htwice. rewrite Htwice, Honce.
  destruct (like_button_press_flips movie_id movie movie' mode mode' now now'
              Stored Stored self) as (Hflip & Hothers & Hdom).
  split; [done|]. split; [done|]. split; [by rewrite <- Honce|].
  split; [done|]. split.
  - exact (press_like_cases movie_id movie mode now OpenFailed self Hsynced).
  - exact (proj1 (press_like_cases movie_id movie mode now DumpFailed self Hsynced)).
Qed.

(** The sidebar lists at most five searches, none with the query
    "browsing", the latest first: read backwards they are entries of
    the history in the order of the history, namely the ones among its
    last five that have another query. *)
Theorem recent_searches_latest_first self :
  let recent := recent_searches self in
  let history := user_search_history self in
  (length recent <= 5)%nat
  /\ Forall (fun entry => query entry <> "browsing") recent
  /\ reverse recent
     = filter (fun entry => query entry <> "browsing") (drop (length history - 5) history)
  /\ reverse recent `sublist_of` history.
Proof.
  cbv zeta. unfold recent_searches.
  rewrite (slice_last 5) by lia. change (Z.to_nat 5) with 5%nat.
  set (history := user_search_history self).
  set (P := fun entry : search_entry => query entry <> "browsing").
  assert (reverse (filter P (reverse (drop (length history - 5) history)))
          = filter P (drop (length history - 5) history)) as Hrev
    by (by rewrite filter_reverse, reverse_involutive).
  split; [|split; [|split]].
  - etrans; [apply length_filter|]. rewrite length_reverse, length_drop. lia.
  - apply Forall_forall. by intros entry [HP _]%list_elem_of_filter.
  - exact Hrev.
  - rewrite Hrev. etrans; [apply sublist_filter|apply sublist_drop].
Qed.

(** The next run of [main] builds its recommender from the files. When
    the object holds what its files hold and a method stores its
    write, the next run gets the object as the method left it. A like
    whose dump fails leaves the next run without any liked movie, and
    one whose file cannot be opened leaves it with the liked movies
    held before the like. *)
Theorem stored_write_survives_rerun (m : method) movie_id (data : json)
    (mode : option string) (now : datetime) self :
  synced self ->
  reopen (call m Stored self) = call m Stored self
  /\ liked_movies (reopen (like_movie movie_id data mode now DumpFailed self)) = ∅
  /\ liked_movies (reopen (like_movie movie_id data mode now OpenFailed self))
     = liked_movies self.
Proof.
  intros Hsynced. destruct (synced_inv self Hsynced) as [Hh Hl].
  split; [|split].
  - destruct m as [id d md t|id|q ids langs t|]; unfold call.
    + unfold like_movie, reopen, init, save_liked_movies, with_liked_movies. simpl.
      by rewrite <- Hh.
    + unfold unlike_movie. destruct (is_movie_liked id self); [|exact Hsynced].
      unfold reopen, init, save_liked_movies, with_liked_movies. simpl.
      by rewrite <- Hh.
    + unfold add_to_search_history, reopen, init, save_search_history,
        with_search_history. simpl. by rewrite <- Hl.
    + unfold clear_history, reopen, init, save_search_history, with_search_history.
      simpl. by rewrite <- Hl.
  - reflexivity.
  - simpl. by rewrite Hl.
Qed.

Lemma last_fifty_snoc (x : list search_entry) (e : search_entry) :
  let kept := drop (length x - 50) x in
  drop (length (kept ++ [e]) - 50) (kept ++ [e])
  = drop (length (x ++ [e]) - 50) (x ++ [e]).
Proof.
  cbv zeta. rewrite !length_app, length_drop. simpl.
  destruct (decide (length x <= 50)%nat) as [Hle|Hgt].
  - replace (length x - 50)%nat with 0%nat by lia. rewrite drop_0. f_equal. lia.
  - rewrite !drop_app_le by (rewrite ?length_drop; lia).
    rewrite drop_drop. do 2 f_equal. lia.
Qed.

(** After a series of calls of [add_to_search_history], one at least,
    the history is the last 50 entries of the history before the
    series followed by the entries of the calls in the order of the
    calls, whatever the writes did. *)
Theorem search_history_after_calls (first : search_call) (calls : list search_call) self :
  let appended := user_search_history self ++ (entry_of <$> first :: calls) in
  user_search_history (add_all (first :: calls) self)
  = drop (length appended - 50) appended.
Proof.
  cbv zeta. induction calls as [|c calls IH] using rev_ind.
  - apply history_after_add.
  - unfold add_all in *. rewrite app_comm_cons, foldl_snoc.
    pose proof (history_after_add (call_query c) (call_ids c) (call_langs c) (call_now c)
                  (call_write c)) as Hadd.
    cbv zeta in Hadd. rewrite Hadd, IH. fold (entry_of c).
    rewrite last_fifty_snoc. rewrite fmap_app. by rewrite (assoc_L (++)).
Qed.

(** The search view records a search on its first page only. A
    recording that goes through logs the id of every movie, in the
    order of the movies, and the [original_language] values of the
    movies, in the same order, without those that are not truthy; on
    any other page, or without results, the recommender is left as it
    was. *)
Theorem track_search_first_page (search_query : string) (search_page : Z)
    (movies : json) (now : datetime) (w : write) self (self' : MovieRecommender) :
  track_search search_query search_page movies now w self = Ok self' ->
  (search_page <> 1 \/ truthy movies = false -> self' = self)
  /\ (search_page = 1 -> truthy movies = true ->
        exists items ids spoken,
          iter movies = Ok items
          /\ Forall2 (fun movie id => subscript movie "id" = Ok id) items ids
          /\ Forall2 (fun movie language =>
                        dict_get movie "original_language" JNull = Ok language)
               items spoken
          /\ self' = add_to_search_history search_query (Some ids)
                       (Some (filter (fun language => truthy language = true) spoken))
                       now w self).
Proof.
  unfold track_search. intros Hcall. split.
  - intros [Hpage|Hfalse]; [|rewrite Hfalse in Hcall; congruence].
    destruct (truthy movies); [|congruence].
    destruct (Z.eqb_spec search_page 1); [done|congruence].
  - intros -> Hmovies. rewrite Hmovies in Hcall. simpl in Hcall.
    destruct (iter movies) as [items|e]; simpl in Hcall; [|discriminate].
    destruct (mapM (fun movie => subscript movie "id") items) as [ids|e] eqn:Hids;
      simpl in Hcall; [|discriminate].
    destruct (mapM _ items) as [langs|e] eqn:Hlangs in Hcall; simpl in Hcall;
      [|discriminate].
    injection Hcall as <-.
    pose proof (mapM_Ok_inv _ _ _ Hlangs) as Hall.
    assert (exists spoken,
               Forall2 (fun movie language =>
                          dict_get movie "original_language" JNull = Ok language)
                 items spoken
               /\ concat langs = filter (fun language => truthy language = true) spoken)
      as (spoken & Hspoken & Hkept).
    { clear -Hall. induction Hall as [|movie l items langs Hmovie _ (spoken & IH1 & IH2)].
      - by exists [].
      - destruct (dict_get movie "original_language" JNull) as [language|e] eqn:Hget;
          simpl in Hmovie; [|discriminate].
        exists (language :: spoken). split; [by constructor|].
        rewrite filter_cons. simpl. rewrite IH2.
        destruct (truthy language) eqn:Ht; injection Hmovie as <-.
        + by rewrite decide_True.
        + by rewrite decide_False. }
    exists items, ids, spoken.
    split; [done|]. split; [exact (mapM_Ok_inv _ _ _ Hids)|].
    split; [done|]. by rewrite Hkept.
Qed.

End ViewsFacts.

(** ** More on the TMDb calls and the content-based recommendations *)

Section Sorting.
Context {A : Type}.
Implicit Types (l : list A) (R : A -> A -> Prop).

Lemma StronglySorted_drop R (n : nat) l :
  StronglySorted R l -> StronglySorted R (drop n l).
Proof.
  intros H. revert n. induction H as [|x l Hl IH Hx]; intros [|n]; simpl;
    try constructor; auto.
Qed.

Lemma StronglySorted_slice R (lo hi : option Z) l :
  StronglySorted R l -> StronglySorted R (Py.slice lo hi l).
Proof. intros H. unfold Py.slice. by apply StronglySorted_take, StronglySorted_drop. Qed.

Lemma StronglySorted_snoc R l (x : A) :
  StronglySorted R l -> Forall (fun y => R y x) l -> StronglySorted R (l ++ [x]).
Proof.
  induction 1 as [|y l Hl IH Hy]; intros Hx; simpl.
  - repeat constructor.
  - apply Forall_cons in Hx as [Hyx Hx]. constructor; [by apply IH|].
    apply Forall_app. split; [done|by constructor].
Qed.

Lemma StronglySorted_reverse R l :
  StronglySorted R l -> StronglySorted (flip R) (reverse l).
Proof.
  induction 1 as [|x l Hl IH Hx]; [constructor|].
  rewrite reverse_cons. apply StronglySorted_snoc; [done|].
  apply Forall_forall. intros y Hy. rewrite elem_of_reverse in Hy.
  rewrite Forall_forall in Hx. unfold flip. by apply Hx.
Qed.

Lemma insert_asc_sorted (key : A -> Q) (x : A) l :
  StronglySorted (fun a b => (key a <= key b)%Q) l ->
  StronglySorted (fun a b => (key a <= key b)%Q)
    (Py.insert_before (fun a b => Qle_bool (key a) (key b)) x l).
Proof.
  induction 1 as [|y l Hl IH Hy]; simpl.
  - repeat constructor.
  - destruct (Qle_bool (key x) (key y)) eqn:E.
    + apply Qle_bool_iff in E.
      constructor; [by constructor|].
      constructor; [done|].
      eapply Forall_impl; [exact Hy|]. intros z Hz. simpl in *.
      eapply Qle_trans; eassumption.
    + constructor; [done|].
      assert (key y <= key x)%Q as Hyx.
      { apply Qlt_le_weak, Qnot_le_lt. intros Hle.
        apply Qle_bool_iff in Hle. congruence. }
      rewrite insert_before_Permutation. by constructor.
Qed.

Lemma sorted_asc_sorted (key : A -> Q) l :
  StronglySorted (fun a b => (key a <= key b)%Q) (Py.sorted_asc key l).
Proof.
  unfold Py.sorted_asc, Py.stable_sort.
  induction l as [|x l IH]; simpl; [constructor|].
  by apply insert_asc_sorted.
Qed.

Lemma slice_sublist (lo hi : option Z) l : Py.slice lo hi l `sublist_of` l.
Proof. unfold Py.slice. etrans; [apply sublist_take|apply sublist_drop]. Qed.

Lemma slice_last_all (k : Z) l :
  Z.of_nat (length l) <= k -> Py.slice (Some (- k)) None l = l.
Proof.
  intros Hk. unfold Py.slice, Py.slice_bound. simpl.
  assert ((if - k <? 0 then 0 `max` (Z.of_nat (length l) + - k)
           else (- k) `min` Z.of_nat (length l)) = 0) as ->
    by (destruct (Z.ltb_spec (- k) 0); lia).
  rewrite drop_0, Z.sub_0_r, Nat2Z.id. apply firstn_all.
Qed.

Lemma enumerate_fst l : (Py.enumerate l).*1 = seq 0 (length l).
Proof.
  unfold Py.enumerate. rewrite fmap_imap.
  rewrite (imap_ext _ (fun j _ => id j)) by done.
  by rewrite imap_seq_0, list_fmap_id.
Qed.

End Sorting.

Section ContentBasedMore.
Import Recommender.
Variable session_get : request -> result response.
Variable tfidf_cosine : string -> list string -> result (list Q).
Implicit Types (self : MovieRecommender) (movie_id : Z).

(** The flag [include_dubbed] of [get_latest_movies] changes nothing:
    the call sends the same request and returns the same value with
    the flag set and with the flag cleared. *)
Theorem latest_ignores_include_dubbed self (page : Z)
    (language_codes : option (list string)) (include_dubbed : bool) :
  get_latest_movies session_get self page language_codes include_dubbed
  = get_latest_movies session_get self page language_codes (negb include_dubbed).
Proof.
  unfold get_latest_movies.
  destruct include_dubbed, (0 <? length (default [] language_codes))%nat; reflexivity.
Qed.

(** The positions that the call ranks: the similarities with their
    positions, sorted, cut and turned round. *)
Lemma ranked_positions (similarities : list Q) (top_n : Z) :
  reverse (Py.slice (Some (- top_n)) None (Py.argsort similarities))
  = (reverse (Py.slice (Some (- top_n)) None
                (Py.sorted_asc snd (Py.enumerate similarities)))).*1.
Proof. unfold Py.argsort. by rewrite <- slice_fmap, fmap_reverse. Qed.

Lemma content_based_inv self movie_id (movies_list : list json) (top_n : Z)
    (recommendations : list json) :
  get_content_based_recommendations session_get tfidf_cosine self movie_id movies_list top_n
  = Ok recommendations ->
  recommendations <> [] ->
  exists (target_features : string) (found : list (option (string * json)))
         (similarities : list Q),
    create_feature_string (get_movie_details session_get self (JNum (inject_Z movie_id)))
    = Ok target_features
    /\ mapM (candidate session_get self movie_id) movies_list = Ok found
    /\ tfidf_cosine target_features (omap id found).*1 = Ok similarities
    /\ Forall2 (fun i details => (omap id found).*2 !! i = Some details)
         (reverse (Py.slice (Some (- top_n)) None (Py.argsort similarities)))
         recommendations.
Proof.
  unfold get_content_based_recommendations.
  destruct (negb (truthy _)); [by intros [= <-]|].
  destruct (create_feature_string _) as [target_features|e]; simpl; [|discriminate].
  destruct (mapM _ movies_list) as [found|e] eqn:Hfound; simpl; [|discriminate].
  destruct (length (omap id found).*1 =? 0)%nat; [by intros [= <-]|].
  destruct (tfidf_cosine _ _) as [similarities|e] eqn:Hscores; simpl; [|discriminate].
  intros Hrecs _. exists target_features, found, similarities.
  repeat split; try done.
  eapply Forall2_impl; [exact (mapM_Ok_inv _ _ _ Hrecs)|].
  intros i details. simpl. by destruct (_ !! i); intros [= <-].
Qed.

Lemma slice_from_drop {A} (a : Z) (l : list A) :
  exists k, Py.slice (Some a) None l = drop k l.
Proof.
  unfold Py.slice. simpl.
  exists (Z.to_nat (Py.slice_bound (Z.of_nat (length l)) a)).
  apply take_ge. rewrite length_drop. lia.
Qed.

(** The recommendations come most similar first, by the similarity
    to the feature string of the target. Each one stands at a position
    of the list of candidates that were kept, no position is used
    twice, along the result the similarity computed for the position
    never goes up, and no candidate that was left out is more similar
    than one that is returned. *)
Theorem content_based_most_similar_first self movie_id (movies_list : list json)
    (top_n : Z) (recommendations : list json) :
  get_content_based_recommendations session_get tfidf_cosine self movie_id movies_list top_n
  = Ok recommendations ->
  recommendations <> [] ->
  exists (target_features : string) (found : list (option (string * json)))
         (similarities : list Q) (scored : list (nat * Q)),
    create_feature_string (get_movie_details session_get self (JNum (inject_Z movie_id)))
    = Ok target_features
    /\ mapM (candidate session_get self movie_id) movies_list = Ok found
    /\ tfidf_cosine target_features (omap id found).*1 = Ok similarities
    /\ Forall2 (fun (entry : nat * Q) details =>
                  similarities !! entry.1 = Some entry.2
                  /\ (omap id found).*2 !! entry.1 = Some details)
         scored recommendations
    /\ StronglySorted (fun earlier later => (later.2 <= earlier.2)%Q) scored
    /\ NoDup scored.*1
    /\ (forall (i : nat) (q : Q),
          similarities !! i = Some q -> i ∉ scored.*1 ->
          Forall (fun entry => (q <= entry.2)%Q) scored).
Proof.
  intros Hcall Hne.
  destruct (content_based_inv _ _ _ _ _ Hcall Hne)
    as (target_features & found & similarities & Htarget & Hfound & Hscores & Hall).
  rewrite ranked_positions in Hall.
  set (sorted := Py.sorted_asc snd (Py.enumerate similarities)) in *.
  set (scored := reverse (Py.slice (Some (- top_n)) None sorted)) in *.
  assert (sorted ≡ₚ Py.enumerate similarities) as Hperm
    by apply stable_sort_Permutation.
  assert (scored ⊆ Py.enumerate similarities) as Hsub.
  { intros x Hx. unfold scored in Hx. rewrite elem_of_reverse in Hx. rewrite <- Hperm.
    eapply elem_of_sublist; [done|apply slice_sublist]. }
  exists target_features, found, similarities, scored.
  split; [done|]. split; [done|]. split; [done|]. split; [|split; [|split]].
  - apply Forall2_fmap_l in Hall.
    apply Forall2_same_length_lookup_2.
    + by eapply Forall2_length.
    + intros k [i q] details Hk Hd. split.
      * apply (elem_of_enumerate similarities i q), Hsub.
        by eapply list_elem_of_lookup_2.
      * eapply Forall2_lookup_lr in Hall; [|exact Hk|exact Hd]. exact Hall.
  - apply (StronglySorted_reverse (fun a b : nat * Q => (a.2 <= b.2)%Q)).
    apply StronglySorted_slice, sorted_asc_sorted.
  - subst scored. rewrite fmap_reverse, reverse_Permutation.
    apply (sublist_NoDup _ sorted.*1); [|apply fmap_sublist, slice_sublist].
    rewrite Hperm, enumerate_fst. apply NoDup_seq.
  - intros i q Hi Hout.
    destruct (slice_from_drop (- top_n) sorted) as [k Hk].
    assert ((i, q) ∈ sorted) as Hin by (by rewrite Hperm; apply elem_of_enumerate).
    rewrite <- (take_drop k sorted) in Hin. apply elem_of_app in Hin as [Hin|Hin].
    + apply list_elem_of_lookup in Hin as [a Ha].
      apply lookup_take_Some in Ha as [Ha Hak].
      apply Forall_forall. intros entry Hentry.
      unfold scored in Hentry. rewrite elem_of_reverse, Hk in Hentry.
      apply list_elem_of_lookup in Hentry as [b Hb]. rewrite lookup_drop in Hb.
      exact (StronglySorted_lookup (fun x y : nat * Q => (x.2 <= y.2)%Q) sorted a (k + b)
               (i, q) entry (sorted_asc_sorted snd _) ltac:(lia) Ha Hb).
    + destruct Hout. apply list_elem_of_fmap. exists (i, q). split; [done|].
      unfold scored. by rewrite elem_of_reverse, Hk.
Qed.

End ContentBasedMore.


(** ** The feature string *)

Section FeatureString.
Import Recommender.
Variable session_get : request -> result response.
Variable tfidf_cosine : string -> list string -> result (list Q).
Implicit Types (self : MovieRecommender) (movie_id : Z) (fields : list (string * json)).

Lemma join_not_text (sep : string) (parts : list json) (v : json) :
  (forall s, v <> JStr s) -> exists e, join sep (parts ++ [v]) = Raise e.
Proof.
  intros Hv. unfold join.
  assert (exists e, mapM (fun v => if v is JStr s then Ok s else Raise TypeError)
                         (parts ++ [v]) = Raise e) as [e ->]; [|by exists e].
  induction parts as [|p parts [e IH]]; simpl.
  - destruct v; try (by eexists); by destruct (Hv s).
  - destruct p; try (by eexists). rewrite IH. by eexists.
Qed.

Local Ltac stage :=
  match goal with
  | |- exists e, mbind _ ?m = Raise e =>
      destruct m eqn:?; simpl; [|by eexists]
  end.

Lemma feature_string_overview_text fields (v : json) :
  assoc "overview" fields = Some v -> (forall s, v <> JStr s) ->
  exists e, create_feature_string (JObj fields) = Raise e.
Proof.
  intros Hv Htext. unfold create_feature_string.
  repeat stage.
  match goal with
  | Hlast : _ = Ok ?l |- exists e, join _ (_ ++ _ ++ _ ++ _ ++ ?l) = _ =>
      rewrite Hv in Hlast; simpl in Hlast; injection Hlast as <-
  end.
  rewrite !app_assoc. by apply join_not_text.
Qed.

Lemma string_app_assoc (s1 s2 s3 : string) : (s1 +:+ s2) +:+ s3 = s1 +:+ s2 +:+ s3.
Proof.
  induction s1 as [|c s1 IH]; [done|].
  change (String c ((s1 +:+ s2) +:+ s3) = String c (s1 +:+ s2 +:+ s3)).
  by rewrite IH.
Qed.

Lemma concat_snoc (sep : string) (strs : list string) (o : string) :
  exists before, String.concat sep (strs ++ [o]) = before +:+ o.
Proof.
  induction strs as [|x strs [before IH]]; [by exists ""|].
  destruct strs as [|y strs].
  - exists (x +:+ sep). simpl. by rewrite string_app_assoc.
  - exists (x +:+ sep +:+ before).
    change (x +:+ sep +:+ String.concat sep ((y :: strs) ++ [o])
            = (x +:+ sep +:+ before) +:+ o).
    by rewrite IH, !string_app_assoc.
Qed.

Lemma join_snoc (sep : string) (parts : list json) (v : json) (s : string) :
  join sep (parts ++ [v]) = Ok s ->
  exists o before, v = JStr o /\ s = before +:+ o.
Proof.
  unfold join.
  destruct (mapM _ (parts ++ [v])) as [strs|e] eqn:Hstrs; simpl; [|discriminate].
  intros [= <-]. apply mapM_Ok_inv, Forall2_app_inv_l in Hstrs.
  destruct Hstrs as (strs0 & last & _ & Hlast & ->).
  apply Forall2_cons_inv_l in Hlast as (o & rest & Ho & Hrest & ->).
  apply Forall2_nil_inv_l in Hrest as ->.
  destruct v; try discriminate. injection Ho as ->.
  destruct (concat_snoc sep strs0 o) as [before Hbefore]. by exists o, before.
Qed.

Local Ltac passed :=
  match goal with
  | |- mbind _ ?m = Ok _ -> _ => destruct m eqn:?; simpl; [|discriminate]
  end.

(** The overview closes the feature string: when the call returns
    for a movie that has an [overview], the overview is a string and
    the feature string ends with it. *)
Theorem feature_string_ends_with_overview fields (v : json) (features : string) :
  assoc "overview" fields = Some v ->
  create_feature_string (JObj fields) = Ok features ->
  exists overview before, v = JStr overview /\ features = before +:+ overview.
Proof.
  intros Hv. unfold create_feature_string.
  repeat passed.
  match goal with
  | Hlast : _ = Ok ?l |- join _ (_ ++ _ ++ _ ++ _ ++ ?l) = _ -> _ =>
      rewrite Hv in Hlast; simpl in Hlast; injection Hlast as <-
  end.
  rewrite !app_assoc. apply join_snoc.
Qed.

(** A movie whose details arrive with an [overview] that is not a
    string, such as [null], cannot be recommended for: the call raises
    instead of returning a list. *)
Theorem content_based_needs_text_overview self movie_id (movies_list : list json)
    (top_n : Z) fields (v : json) :
  get_movie_details session_get self (JNum (inject_Z movie_id)) = JObj fields ->
  assoc "overview" fields = Some v ->
  (forall s, v <> JStr s) ->
  exists e, get_content_based_recommendations session_get tfidf_cosine self movie_id
              movies_list top_n = Raise e.
Proof.
  intros Hdetails Hv Htext. unfold get_content_based_recommendations.
  rewrite Hdetails.
  destruct (feature_string_overview_text fields v Hv Htext) as [e He].
  destruct fields as [|field fields]; [discriminate|].
  simpl truthy. cbv beta iota. simpl negb. cbv iota.
  rewrite He. by exists e.
Qed.

(** When the details of the target cannot be fetched, the call
    returns the empty list, whatever the candidates are. *)
Theorem content_based_without_details self movie_id (movies_list : list json)
    (top_n : Z) (e : exn) :
  session_get {| url := MovieById (JNum (inject_Z movie_id));
                 headers := auth_headers self;
                 params := [("append_to_response", JStr "credits,keywords,similar")] |}
  = Raise e ->
  get_content_based_recommendations session_get tfidf_cosine self movie_id
    movies_list top_n = Ok [].
Proof.
  intros Hdown. unfold get_content_based_recommendations, get_movie_details.
  by rewrite Hdown.
Qed.

End FeatureString.


(** ** A cut that is as long as the candidates *)

Section Positions.
Context {A : Type}.
Implicit Types (l : list A).

Lemma omap_lookup_seq_app (pre l : list A) :
  omap (fun i => (pre ++ l) !! i) (seq (length pre) (length l)) = l.
Proof.
  revert pre. induction l as [|x l IH]; intros pre; [done|].
  simpl. rewrite list_lookup_middle by done. f_equal.
  specialize (IH (pre ++ [x])).
  rewrite length_app, Nat.add_1_r, <- (assoc_L (++)) in IH. exact IH.
Qed.

Lemma omap_lookup_seq l : omap (fun i => l !! i) (seq 0 (length l)) = l.
Proof. exact (omap_lookup_seq_app [] l). Qed.

Lemma lookups_omap l (positions : list nat) (picked : list A) :
  Forall2 (fun i x => l !! i = Some x) positions picked ->
  picked = omap (fun i => l !! i) positions.
Proof. induction 1 as [|i x positions picked Hi _ IH]; simpl; [done|]. by rewrite Hi, IH. Qed.

Lemma lookups_Permutation l (positions : list nat) (picked : list A) :
  Forall2 (fun i x => l !! i = Some x) positions picked ->
  positions ≡ₚ seq 0 (length l) ->
  picked ≡ₚ l.
Proof.
  intros Hall Hperm. rewrite (lookups_omap _ _ _ Hall), Hperm.
  by rewrite omap_lookup_seq.
Qed.

Lemma argsort_Permutation (a : list Q) : Py.argsort a ≡ₚ seq 0 (length a).
Proof.
  unfold Py.argsort, Py.sorted_asc.
  by rewrite stable_sort_Permutation, enumerate_fst.
Qed.

End Positions.

Section ContentBasedAll.
Import Recommender.
Variable session_get : request -> result response.
Variable tfidf_cosine : string -> list string -> result (list Q).
Implicit Types (self : MovieRecommender) (movie_id : Z).

(** With [top_n] no smaller than the number of candidates that were
    kept, the call returns every one of them, each once: where the
    similarity computation gives one score for each text, the result
    is a rearrangement of the details that were fetched. *)
Theorem content_based_returns_every_candidate self movie_id (movies_list : list json)
    (top_n : Z) (target_features : string) (found : list (option (string * json)))
    (similarities : list Q) :
  truthy (get_movie_details session_get self (JNum (inject_Z movie_id))) = true ->
  create_feature_string (get_movie_details session_get self (JNum (inject_Z movie_id)))
  = Ok target_features ->
  mapM (candidate session_get self movie_id) movies_list = Ok found ->
  tfidf_cosine target_features (omap id found).*1 = Ok similarities ->
  length similarities = length (omap id found) ->
  Z.of_nat (length similarities) <= top_n ->
  exists recommendations,
    get_content_based_recommendations session_get tfidf_cosine self movie_id
      movies_list top_n = Ok recommendations
    /\ recommendations ≡ₚ (omap id found).*2.
Proof.
  intros Htarget Hfeatures Hfound Hscores Hlen Htop.
  unfold get_content_based_recommendations.
  rewrite Htarget, Hfeatures. simpl. rewrite Hfound. simpl.
  rewrite length_fmap.
  destruct (Nat.eqb_spec (length (omap id found)) 0) as [Hnone|Hsome].
  - exists []. split; [done|].
    by destruct (omap id found); [|discriminate].
  - rewrite Hscores. simpl.
    rewrite slice_last_all
      by (unfold Py.argsort, Py.sorted_asc;
          rewrite length_fmap, length_stable_sort, length_enumerate; lia).
    destruct (mapM_Ok_total
                (fun i => match (omap id found).*2 !! i with
                          | Some m => Ok m
                          | None => Raise IndexError
                          end)
                (reverse (Py.argsort similarities))) as [recommendations Hrecs].
    { apply Forall_forall. intros i Hi.
      rewrite elem_of_reverse, argsort_Permutation, elem_of_seq in Hi.
      destruct (lookup_lt_is_Some_2 (omap id found).*2 i) as [m Hm];
        [rewrite length_fmap; lia|].
      exists m. by rewrite Hm. }
    exists recommendations. split; [done|].
    apply (lookups_Permutation _ (reverse (Py.argsort similarities))).
    + eapply Forall2_impl; [exact (mapM_Ok_inv _ _ _ Hrecs)|].
      intros i m. simpl. by destruct (_ !! i); intros [= <-].
    + by rewrite reverse_Permutation, argsort_Permutation, length_fmap, Hlen.
Qed.

End ContentBasedAll.


(** ** The recommendation panel *)

Section Chunks.
Context {A : Type}.

Lemma concat_chunks_of (n : nat) (items : list A) (m : nat) :
  concat ((fun k => take n (drop (k * n) items)) <$> seq 0 m) = take (m * n) items.
Proof.
  induction m as [|m IH]; [done|].
  rewrite seq_S, fmap_app, concat_app, IH. simpl. rewrite app_nil_r.
  rewrite take_take_drop. f_equal. lia.
Qed.

End Chunks.

Section PanelFacts.
Import Recommender Panel.
Variable session_get : request -> result response.
Variable tfidf_cosine : string -> list string -> result (list Q).
Implicit Types (s : Panel.state) (recommendations : list json) (self : MovieRecommender).

Lemma page_recommendations_chunk recommendations (p : Z) :
  1 <= p ->
  page_recommendations recommendations p
  = take 10 (drop (Z.to_nat (p - 1) * 10) recommendations).
Proof.
  intros Hp. unfold page_recommendations, items_per_page.
  set (a := (p - 1) * 10). set (n := length recommendations).
  replace (Z.to_nat (p - 1) * 10)%nat with (Z.to_nat a) by lia.
  destruct (Z.le_gt_cases a (Z.of_nat n)) as [Hin|Hout].
  - rewrite slice_between by (fold n; lia).
    destruct (Z.le_gt_cases (a + 10) (Z.of_nat n)).
    + f_equal. lia.
    + rewrite !take_ge; [done| |]; rewrite length_drop; fold n; lia.
  - unfold Py.slice, Py.slice_bound. simpl. fold n.
    destruct (Z.ltb_spec a 0); [exfalso; lia|].
    destruct (Z.ltb_spec ((a + 10) `min` Z.of_nat n) 0); [exfalso; lia|].
    rewrite !drop_ge by (fold n; lia). by rewrite !take_nil.
Qed.

Lemma total_pages_bounds recommendations :
  Z.of_nat (length recommendations) <= total_pages recommendations * 10
  /\ total_pages recommendations * 10 < Z.of_nat (length recommendations) + 10.
Proof.
  unfold total_pages, items_per_page.
  pose proof (Z.div_mod (Z.of_nat (length recommendations) + 10 - 1) 10).
  pose proof (Z.mod_pos_bound (Z.of_nat (length recommendations) + 10 - 1) 10).
  lia.
Qed.

Lemma length_page_recommendations recommendations (p : Z) :
  1 <= p <= total_pages recommendations ->
  (1 <= length (page_recommendations recommendations p) <= 10)%nat.
Proof.
  intros Hp. pose proof (total_pages_bounds recommendations).
  rewrite page_recommendations_chunk by lia.
  rewrite length_take, length_drop. lia.
Qed.

(** The pages of the panel show every recommendation once, in
    order: the pages from 1 to [total_pages] put end to end are the
    list, and each of them holds between one and ten movies. *)
Theorem recommendation_pages_partition recommendations :
  concat ((fun k : nat => page_recommendations recommendations (Z.of_nat (S k)))
          <$> seq 0 (Z.to_nat (total_pages recommendations)))
  = recommendations
  /\ Forall (fun k : nat =>
               (1 <= length (page_recommendations recommendations (Z.of_nat (S k))) <= 10)%nat)
       (seq 0 (Z.to_nat (total_pages recommendations))).
Proof.
  pose proof (total_pages_bounds recommendations) as [Hlo Hhi].
  split.
  - rewrite (list_fmap_ext _ (fun k => take 10 (drop (k * 10) recommendations)) _).
    + rewrite concat_chunks_of. apply take_ge. lia.
    + intros _ k _. rewrite page_recommendations_chunk by lia.
      do 2 f_equal. lia.
  - apply Forall_forall. intros k Hk. apply elem_of_seq in Hk.
    apply length_page_recommendations. lia.
Qed.

Lemma generate_in_range self (movie_id : Z) s s' :
  in_range s -> generate session_get tfidf_cosine self movie_id s = Ok s' -> in_range s'.
Proof.
  intros Hs. unfold generate.
  destruct (_ || _); [|by intros [= <-]].
  destruct (base_movies _ _) as [movies|e]; simpl; [|discriminate].
  destruct (get_content_based_recommendations _ _ _ _ _ _) as [all_recs|e]; simpl;
    [|discriminate].
  intros [= <-]. split; simpl; [lia|]. intros Hne.
  pose proof (total_pages_bounds all_recs).
  destruct all_recs; [done|]. simpl in *. lia.
Qed.

Lemma paginate_in_range (clicked : option button) s s' :
  in_range s ->
  paginate clicked s = Go s' \/ paginate clicked s = Stop s' ->
  in_range s'.
Proof.
  intros [Hlo Hhi]. unfold paginate.
  destruct (Nat.ltb_spec 0 (length (Panel.all_recommendations s))) as [Hsome|Hnone];
    [|by intros [[= <-]|[=]]].
  assert (Panel.all_recommendations s <> []) as Hne
    by (intros Hnil; rewrite Hnil in Hsome; simpl in Hsome; lia).
  specialize (Hhi Hne).
  repeat match goal with
         | |- context [bool_decide (clicked = Some ?b) && ?c] =>
             destruct (bool_decide (clicked = Some b)); simpl;
             [destruct c eqn:?|]
         end;
    intros [[= <-]|[= <-]]; split; simpl; intros; lia.
Qed.

Lemma render_in_range (clicked : option button) self s s' :
  in_range s -> render session_get tfidf_cosine clicked self s = Ok s' -> in_range s'.
Proof.
  intros Hs. unfold render.
  destruct (selected_movie_id s) as [movie_id|]; [|by intros [= <-]].
  destruct (_ && _); [|by intros [= <-]].
  destruct (generate _ _ _ _ _) as [s1|e] eqn:Hgen; simpl; [|discriminate].
  apply generate_in_range in Hgen; [|done].
  destruct (paginate clicked s1) as [s2|s2] eqn:Hpage.
  - assert (in_range s2) by (eapply paginate_in_range; eauto).
    destruct (bool_decide _); intros [= <-]; [|done].
    split; simpl; [lia|done].
  - intros [= <-]. eapply paginate_in_range; eauto.
Qed.

(** Wherever the buttons lead, the panel is on a page that exists:
    the page number is at least 1, and while there are
    recommendations it is at most the number of pages, so that the
    page on screen holds between one and ten movies. *)
Theorem panel_page_exists s :
  Panel.reachable session_get tfidf_cosine s ->
  in_range s
  /\ (Panel.all_recommendations s <> [] ->
      (1 <= length (page_recommendations (Panel.all_recommendations s)
                      (Panel.recommendation_page s)) <= 10)%nat).
Proof.
  intros Hs.
  assert (in_range s) as Hrange.
  { induction Hs as [|movie_id s _ IH|clicked self s s' _ IH Hrender].
    - split; simpl; [lia|done].
    - exact IH.
    - by eapply render_in_range. }
  split; [done|]. intros Hne. destruct Hrange as [Hlo Hhi].
  apply length_page_recommendations. split; [done|by apply Hhi].
Qed.

(** Turning the pages does not fetch anything: once the
    recommendations for the selected movie are there, a run of the
    panel gives the same session whatever the network and the
    similarity computation would answer, and unless "Back to Browse"
    was pressed the recommendations stay as they are. *)
Theorem paging_keeps_recommendations (clicked : option button) self s (movie_id : Z)
    (other_get : request -> result response)
    (other_cosine : string -> list string -> result (list Q)) :
  selected_movie_id s = Some movie_id ->
  last_recommended_movie_id s = Some movie_id ->
  Panel.all_recommendations s <> [] ->
  exists s',
    render session_get tfidf_cosine clicked self s = Ok s'
    /\ render other_get other_cosine clicked self s = Ok s'
    /\ (clicked <> Some Back_to_browse ->
        Panel.all_recommendations s' = Panel.all_recommendations s).
Proof.
  intros Hselected Hlast Hne. unfold render, generate.
  rewrite Hselected, Hlast.
  destruct (show_recommendations s && negb (movie_id =? 0)); [|by exists s].
  destruct (Panel.all_recommendations s) as [|movie rest] eqn:Hrecs; [done|].
  rewrite (bool_decide_eq_true_2 (Some movie_id = Some movie_id)) by done. simpl.
  destruct (paginate clicked s) as [s2|s2] eqn:Hpage.
  - assert (s2 = s) as ->.
    { revert Hpage. unfold paginate. rewrite Hrecs. simpl.
      repeat (destruct (_ && _); [discriminate|]). by intros [= <-]. }
    case_bool_decide as Hback.
    + exists (back_to_browse s). by repeat split.
    + exists s. by repeat split.
  - exists s2. repeat split. intros _.
    revert Hpage. unfold paginate. rewrite Hrecs. simpl.
    repeat (destruct (_ && _); [by intros [= <-]|]). discriminate.
Qed.

End PanelFacts.


(** ** The page number across runs of [main] *)

Section MainFacts.
Import Recommender.
Implicit Types (i : inputs) (s : pages).

Lemma search_keeps_browsing i s :
  current_page (final (search i s)) = current_page s
  /\ previous_mode (final (search i s)) = previous_mode s.
Proof.
  unfold search.
  destruct (negb (String.eqb (search_query i) (previous_search_query s))); simpl;
    (destruct (negb (String.eqb (search_query i) "")); [|done]);
    repeat match goal with
           | |- context [if ?c then _ else _] => destruct c; try done
           | |- context [let '(_, _) := ?p in _] => destruct p
           end.
Qed.

Lemma render_panel_keeps_browsing i s :
  current_page (render_panel i s) = current_page s
  /\ previous_mode (render_panel i s) = previous_mode s.
Proof.
  unfold render_panel.
  repeat match goal with
         | |- context [if ?c then _ else _] => destruct c; try done
         end.
Qed.

Lemma browse_on_first_page i s :
  current_page s = 1 ->
  clicked i <> Some Next_top -> clicked i <> Some Next_bottom ->
  browse i s = Continue s.
Proof.
  intros Hpage Htop Hbottom. unfold browse, pressed. rewrite Hpage. simpl.
  rewrite !andb_false_r.
  rewrite (bool_decide_eq_false_2 (clicked i = Some Next_top)) by done.
  rewrite (bool_decide_eq_false_2 (clicked i = Some Next_bottom)) by done.
  by destruct (truthy _).
Qed.

(** Choosing another mode puts browsing back on page 1: when the
    radio differs from the mode of the last run and no Next button
    is pressed, the run ends on page 1 of the new mode. *)
Theorem mode_change_resets_page i s (m : mode) :
  previous_mode s = Some m ->
  mode_radio i <> m ->
  clicked i <> Some Next_top ->
  clicked i <> Some Next_bottom ->
  current_page (main i s) = 1 /\ previous_mode (main i s) = Some (mode_radio i).
Proof.
  intros Hprevious Hother Htop Hbottom. unfold main. rewrite Hprevious.
  cbv beta iota zeta. rewrite Hprevious.
  rewrite (bool_decide_eq_false_2 (Some m = Some (mode_radio i)))
    by (intros [= Heq]; by apply Hother).
  set (s1 := set_previous_mode (mode_radio i) (set_current_page 1 s)).
  assert (current_page s1 = 1 /\ previous_mode s1 = Some (mode_radio i)) as [Hpage Hmode]
    by done.
  assert (current_page (final (render_mode i s1)) = 1
          /\ previous_mode (final (render_mode i s1)) = Some (mode_radio i)
          /\ (forall s', render_mode i s1 = Continue s' -> s' = final (render_mode i s1)))
    as (Hpage' & Hmode' & Hcontinue).
  { assert (reset_on_filter_change i s1 = s1) as Hreset.
    { unfold reset_on_filter_change. destruct (filter_changed i); [|done].
      by destruct s. }
    unfold render_mode.
    destruct (mode_radio i) eqn:Hradio; rewrite ?Hreset;
      repeat match goal with
             | |- context [if ?c then _ else _] => destruct c
             end;
      rewrite ?browse_on_first_page by done; simpl;
      try (repeat split; [done..|by intros ? [= <-]]).
    destruct (search_keeps_browsing i s1) as [-> ->].
    repeat split; [done..|]. intros s' ->. done. }
  destruct (render_mode i s1) as [s'|s'] eqn:Hrender; simpl in *; [|done].
  destruct (render_panel_keeps_browsing i s') as [-> ->]. done.
Qed.

Lemma main_browsing i s (m : mode) :
  previous_mode s = Some m ->
  Browsing.on_screen m i ->
  current_page (main i s) = current_page (final (browse i s))
  /\ previous_mode (main i s) = Some m.
Proof.
  intros Hprevious (Hmode & Hbrowsing & Hfilter & Hgenres & Hselected).
  unfold main. rewrite Hprevious. cbv beta iota zeta. rewrite Hprevious, Hmode.
  rewrite (bool_decide_eq_true_2 (Some m = Some m)) by done.
  assert (render_mode i s = browse i s) as ->.
  { unfold render_mode, reset_on_filter_change.
    rewrite Hfilter, Hgenres, Hselected, Hmode. by destruct m. }
  assert (previous_mode (final (browse i s)) = Some m) as Hkept.
  { unfold browse.
    repeat match goal with
           | |- context [if ?c then _ else _] => destruct c; try done
           end. }
  destruct (browse i s) as [s'|s']; simpl in *; [|done].
  destruct (render_panel_keeps_browsing i s') as [-> ->]. done.
Qed.

Lemma browse_page i s :
  1 <= current_page s ->
  current_page (final (browse i s))
  = match clicked i with
    | Some Next_top => current_page s + 1
    | Some Previous_top => Z.max 1 (current_page s - 1)
    | None => if truthy (listing i (current_page s)) then current_page s
              else Z.max 1 (current_page s - 1)
    | Some _ => current_page (final (browse i s))
    end.
Proof.
  intros Hpage. unfold browse, pressed.
  destruct (clicked i) as [[]|]; simpl; try done;
    destruct (Z.ltb_spec 1 (current_page s)); simpl;
    try destruct (truthy (listing i (current_page s))); simpl; lia.
Qed.

(** Next and then Previous, each press with the run that it starts.
    In a browsing mode whose listing is on screen, from page [p]: the
    press on the top Next button and the run after it end on page
    [p + 1] when that page has movies, and back on page [p] when it
    has none; when pages [p + 1] and [p] have movies, the press on the
    top Previous button and the run after it lead back to page [p];
    after a Next onto a page without movies, Previous leads to the
    page before [p], or stays on page 1. *)
Theorem next_then_previous (i1 i2 i3 i4 : inputs) s (m : mode) :
  previous_mode s = Some m ->
  Browsing.on_screen m i1 -> Browsing.on_screen m i2 ->
  Browsing.on_screen m i3 -> Browsing.on_screen m i4 ->
  clicked i1 = Some Next_top -> clicked i2 = None ->
  clicked i3 = Some Previous_top -> clicked i4 = None ->
  1 <= current_page s ->
  let p := current_page s in
  let after_next := main i2 (main i1 s) in
  current_page after_next = (if truthy (listing i2 (p + 1)) then p + 1 else p)
  /\ (truthy (listing i2 (p + 1)) = true -> truthy (listing i4 p) = true ->
        current_page (main i4 (main i3 after_next)) = p)
  /\ (truthy (listing i2 (p + 1)) = false ->
        current_page (main i3 after_next) = Z.max 1 (p - 1)).
Proof.
  intros Hprevious Hon1 Hon2 Hon3 Hon4 Hnext Hidle Hback Hidle' Hpage. cbv zeta.
  destruct (main_browsing i1 s m Hprevious Hon1) as [Hp1 Hm1].
  rewrite browse_page, Hnext in Hp1 by done.
  destruct (main_browsing i2 _ m Hm1 Hon2) as [Hp2 Hm2].
  rewrite browse_page, Hidle, Hp1 in Hp2 by lia.
  destruct (main_browsing i3 _ m Hm2 Hon3) as [Hp3 Hm3].
  rewrite browse_page, Hback, Hp2 in Hp3
    by (rewrite Hp2; destruct (truthy _); lia).
  destruct (main_browsing i4 _ m Hm3 Hon4) as [Hp4 Hm4].
  rewrite browse_page, Hidle', Hp3 in Hp4
    by (rewrite Hp3; lia).
  split; [|split].
  - rewrite Hp2. destruct (truthy _); lia.
  - intros Hfull Hfull'. rewrite Hp4. rewrite Hfull.
    replace (Z.max 1 (current_page s + 1 - 1)) with (current_page s) by lia.
    by rewrite Hfull'.
  - intros Hempty. rewrite Hp3, Hempty. 
    replace (Z.max 1 (current_page s + 1 - 1)) with (current_page s) by lia. done.
Qed.

End MainFacts.


(** ** Recommendations from the history: what is returned *)

Section HistoryFacts.
Import Recommender History.
Variable score : list json -> json -> result Q.

Lemma py_eq_sym (v w : json) : py_eq v w = py_eq w v.
Proof.
  assert (forall p q, Qeq_bool p q = Qeq_bool q p) as Hsym.
  { intros p q. apply eq_true_iff_eq. rewrite !Qeq_bool_iff.
    split; intros H; by symmetry. }
  destruct v as [|[]| | | |], w as [|[]| | | |]; simpl; try done;
    try apply Hsym; apply String.eqb_sym.
Qed.

Lemma other_id_sym (movie movie' : json) : other_id movie movie' -> other_id movie' movie.
Proof. intros H id id' Hid Hid'. rewrite py_eq_sym. by apply H. Qed.

Lemma StronglySorted_Permutation {A} (R : A -> A -> Prop) (l l' : list A) :
  (forall x y, R x y -> R y x) ->
  l ≡ₚ l' -> StronglySorted R l -> StronglySorted R l'.
Proof.
  intros Hsym. induction 1 as [|x l l' Hperm IH|x y l|l l' l'' _ IH _ IH'];
    intros Hsorted.
  - done.
  - apply StronglySorted_inv in Hsorted as [Hl Hx].
    constructor; [by apply IH|]. by rewrite <- Hperm.
  - apply StronglySorted_inv in Hsorted as [Hsorted Hy].
    apply StronglySorted_inv in Hsorted as [Hl Hx].
    apply Forall_cons in Hy as [Hyx Hy].
    repeat constructor; auto.
  - auto.
Qed.

Lemma StronglySorted_sublist {A} (R : A -> A -> Prop) (l l' : list A) :
  l `sublist_of` l' -> StronglySorted R l' -> StronglySorted R l.
Proof.
  induction 1 as [|x l l' Hsub IH|x l l' Hsub IH]; intros Hsorted; [done| |];
    apply StronglySorted_inv in Hsorted as [Hl Hx].
  - constructor; [by apply IH|].
    rewrite Forall_forall in Hx. apply Forall_forall. intros y Hy.
    apply Hx. by eapply elem_of_sublist.
  - by apply IH.
Qed.

Lemma unique_recommendations_spec (seen_ids recommended_movies unique : list json) :
  unique_recommendations seen_ids recommended_movies = Ok unique ->
  unique `sublist_of` recommended_movies
  /\ Forall (unseen seen_ids) unique
  /\ StronglySorted other_id unique.
Proof.
  revert seen_ids unique.
  induction recommended_movies as [|movie rest IH]; intros seen_ids unique; simpl.
  - intros [= <-]. repeat split; constructor.
  - destruct (subscript movie "id") as [id|e] eqn:Hid; simpl; [|discriminate].
    unfold set_contains. destruct (hashable id); simpl; [|discriminate].
    destruct (existsb (py_eq id) seen_ids) eqn:Hseen.
    + intros Hrest. destruct (IH _ _ Hrest) as (Hsub & Hunseen & Hsorted).
      split; [by constructor|done].
    + destruct (unique_recommendations (id :: seen_ids) rest) as [more|e] eqn:Hrest;
        simpl; [|discriminate].
      intros [= <-]. destruct (IH _ _ Hrest) as (Hsub & Hunseen & Hsorted).
      split; [by constructor|]. split.
      * constructor.
        -- exists id. split; [done|]. apply Forall_forall. intros seen Hin.
           apply not_true_is_false. intros Heq.
           apply not_true_iff_false in Hseen. apply Hseen.
           apply existsb_exists. exists seen.
           split; [by apply list_elem_of_In|done].
        -- eapply Forall_impl; [exact Hunseen|].
           intros m (id' & Hid' & Hall). exists id'. split; [done|].
           by apply Forall_cons in Hall as [_ Hall].
      * constructor; [done|].
        eapply Forall_impl; [exact Hunseen|].
        intros m (id' & Hid' & Hall) id1 id2 Hid1 Hid2.
        rewrite Hid in Hid1. injection Hid1 as <-.
        rewrite Hid' in Hid2. injection Hid2 as <-.
        apply Forall_cons in Hall as [Hnew _]. by rewrite py_eq_sym.
Qed.

(** What the history-based recommendations hold when the call
    returns: every movie returned is one of the movies that were
    gathered and its id is no id of the search history; no two of them
    have the same id; they come in descending order of score; and for
    a [top_n] that is not negative there are at most [top_n]. *)
Theorem history_recommendations_fresh (all_ids liked_movie_details recommended_movies : list json)
    (top_n : Z) (returned : list json) :
  top_scored score all_ids liked_movie_details recommended_movies top_n = Ok returned ->
  Forall (fun movie => movie ∈ recommended_movies /\ unseen all_ids movie) returned
  /\ (forall (i j : nat) movie movie',
        i <> j -> returned !! i = Some movie -> returned !! j = Some movie' ->
        other_id movie movie')
  /\ (exists genres (scored : list (Q * json)),
        liked_genres liked_movie_details = Ok genres
        /\ returned = scored.*2
        /\ Forall (fun entry => score genres entry.2 = Ok entry.1) scored
        /\ StronglySorted (Py.desc fst) scored)
  /\ (0 <= top_n -> (length returned <= Z.to_nat top_n)%nat).
Proof.
  unfold top_scored, set_of.
  destruct (forallb hashable all_ids); simpl; [|discriminate].
  destruct (unique_recommendations all_ids recommended_movies) as [unique|e] eqn:Hunique;
    simpl; [|discriminate].
  destruct (liked_genres liked_movie_details) as [genres|e]; simpl; [|discriminate].
  destruct (mapM _ unique) as [scored_movies|e] eqn:Hscored; simpl; [|discriminate].
  intros [= <-].
  destruct (unique_recommendations_spec _ _ _ Hunique) as (Hsub & Hunseen & Hdistinct).
  apply mapM_Ok_inv in Hscored.
  assert (Forall (fun entry : Q * json => score genres entry.2 = Ok entry.1) scored_movies
          /\ scored_movies.*2 = unique) as [Hscore Hmovies].
  { clear -Hscored. induction Hscored as [|movie [s m] unique scored Hentry _ [IH1 IH2]];
      [done|].
    simpl in Hentry. destruct (score genres movie) as [s'|e] eqn:Hs; simpl in Hentry;
      [|discriminate].
    injection Hentry as <- <-. split; [by constructor|].
    exact (f_equal (cons movie) IH2). }
  set (sorted := Py.sorted_desc fst scored_movies).
  set (cut := Py.slice None (Some top_n) sorted).
  assert (sorted ≡ₚ scored_movies) as Hperm by apply stable_sort_Permutation.
  assert (cut `sublist_of` sorted) as Hcut by apply slice_sublist.
  assert (StronglySorted other_id cut.*2) as Hpairs.
  { eapply StronglySorted_sublist; [by apply fmap_sublist|].
    eapply (StronglySorted_Permutation _ unique); [apply other_id_sym| |done].
    by rewrite Hperm, Hmovies. }
  split; [|split; [|split]].
  - apply Forall_forall. intros movie Hin.
    assert (movie ∈ unique) as Hin'.
    { rewrite <- Hmovies, <- Hperm.
      eapply elem_of_sublist; [exact Hin|by apply fmap_sublist]. }
    split; [by eapply elem_of_sublist|].
    rewrite Forall_forall in Hunseen. by apply Hunseen.
  - intros i j movie movie' Hij Hi Hj.
    destruct (Nat.lt_total i j) as [Hlt|[Heq|Hgt]]; [| done |].
    + by eapply (StronglySorted_lookup _ _ i j).
    + apply other_id_sym. by eapply (StronglySorted_lookup _ _ j i).
  - exists genres, cut. split; [done|]. split; [done|]. split.
    + apply Forall_forall. intros entry Hin.
      rewrite Forall_forall in Hscore. apply Hscore. rewrite <- Hperm.
      by eapply elem_of_sublist.
    + apply StronglySorted_slice, sorted_desc_sorted.
  - intros Htop. rewrite length_fmap. subst cut.
    rewrite slice_to_take by done. rewrite length_take. lia.
Qed.

End HistoryFacts.

(** ** The preferred languages *)

Section LanguagesFacts.
Import Recommender History Languages.
Implicit Types (items : list (json * Z)) (langs : list json) (x lang : json).

Lemma py_eq_refl x : hashable x = true -> py_eq x x = true.
Proof.
  destruct x as [|b|q|s| |]; simpl; try done; intros _.
  - by apply Qeq_bool_iff.
  - by apply Qeq_bool_iff.
  - apply String.eqb_refl.
Qed.

Lemma py_eq_trans x y z : py_eq x y = true -> py_eq y z = true -> py_eq x z = true.
Proof.
  destruct x as [|b1|q1|s1| |], y as [|b2|q2|s2| |], z as [|b3|q3|s3| |]; simpl;
    try done;
    try (intros H1 H2; apply Qeq_bool_iff in H1, H2; apply Qeq_bool_iff;
         by eapply Qeq_trans).
  intros H1 H2. apply String.eqb_eq in H1, H2. apply String.eqb_eq. congruence.
Qed.

Lemma py_eq_class x y z : py_eq x y = true -> py_eq x z = py_eq y z.
Proof.
  intros Hxy. apply eq_true_iff_eq. split; intros H.
  - apply (py_eq_trans y x z); [by rewrite py_eq_sym|done].
  - by apply (py_eq_trans x y z).
Qed.

Lemma frequency_of_cons (key : json) (count : Z) items x :
  frequency_of ((key, count) :: items) x
  = if py_eq key x then count else frequency_of items x.
Proof.
  unfold frequency_of. simpl. destruct (py_eq key x) eqn:Heq.
  - by rewrite decide_True.
  - rewrite decide_False by done.
    by destruct (list_find _ items) as [[i item]|].
Qed.

Lemma bump_frequency lang items x :
  frequency_of (bump lang items) x
  = frequency_of items x + (if py_eq lang x then 1 else 0).
Proof.
  induction items as [|[key count] items IH]; simpl.
  - rewrite frequency_of_cons. unfold frequency_of. simpl. by destruct (py_eq lang x).
  - destruct (py_eq key lang) eqn:Hkey; rewrite !frequency_of_cons.
    + rewrite <- (py_eq_class key lang x Hkey). by destruct (py_eq key x); lia.
    + rewrite IH. destruct (py_eq key x) eqn:Hx; [|done].
      rewrite (py_eq_sym lang x), <- (py_eq_class key x lang Hx), Hkey. lia.
Qed.

Lemma searches_cons lang langs x :
  searches (lang :: langs) x
  = (if truthy lang && py_eq lang x then 1 else 0) + searches langs x.
Proof.
  unfold searches. rewrite filter_cons, (py_eq_sym x lang).
  destruct (truthy lang && py_eq lang x) eqn:Heq.
  - rewrite decide_True by done. rewrite length_cons. lia.
  - rewrite decide_False by done. lia.
Qed.

Lemma count_frequency items langs (counted : list (json * Z)) x :
  count_languages items langs = Ok counted ->
  frequency_of counted x = frequency_of items x + searches langs x.
Proof.
  revert items. induction langs as [|lang langs IH]; intros items; simpl.
  - intros [= <-]. unfold searches. simpl. lia.
  - rewrite searches_cons. destruct (truthy lang); simpl.
    + destruct (hashable lang); [|discriminate].
      intros Hrest. rewrite (IH _ Hrest), bump_frequency. lia.
    + intros Hrest. by rewrite (IH _ Hrest).
Qed.

Lemma bump_keys lang items (P : json -> Prop) :
  P lang -> Forall (fun item => P item.1) items ->
  Forall (fun item => P item.1) (bump lang items).
Proof.
  intros Hlang. induction 1 as [|[key count] items Hkey Hitems IH]; simpl.
  - by repeat constructor.
  - destruct (py_eq key lang); constructor; done.
Qed.

Lemma bump_distinct lang items :
  StronglySorted (fun a b : json * Z => py_eq a.1 b.1 = false) items ->
  StronglySorted (fun a b : json * Z => py_eq a.1 b.1 = false) (bump lang items).
Proof.
  induction 1 as [|[key count] items Hitems IH Hkey]; simpl.
  - repeat constructor.
  - destruct (py_eq key lang) eqn:Heq.
    + constructor; [done|]. exact Hkey.
    + constructor; [done|].
      by apply (bump_keys lang items (fun x => py_eq key x = false)).
Qed.

Lemma count_languages_keys items langs (counted : list (json * Z)) (P : json -> Prop) :
  count_languages items langs = Ok counted ->
  Forall (fun item => P item.1) items ->
  (forall lang, lang ∈ langs -> truthy lang = true -> hashable lang = true -> P lang) ->
  Forall (fun item => P item.1) counted.
Proof.
  revert items. induction langs as [|lang langs IH]; intros items; simpl.
  - by intros [= <-].
  - intros Hrest Hitems Hlangs.
    assert (forall l, l ∈ langs -> truthy l = true -> hashable l = true -> P l) as Hlater
      by (intros l Hl; apply Hlangs; by constructor).
    destruct (truthy lang) eqn:Htruthy.
    + destruct (hashable lang) eqn:Hhash; [|discriminate].
      apply (IH _ Hrest); [|done].
      apply bump_keys; [|done]. apply Hlangs; [constructor|done..].
    + by apply (IH _ Hrest).
Qed.

Lemma count_languages_distinct items langs (counted : list (json * Z)) :
  count_languages items langs = Ok counted ->
  StronglySorted (fun a b : json * Z => py_eq a.1 b.1 = false) items ->
  StronglySorted (fun a b : json * Z => py_eq a.1 b.1 = false) counted.
Proof.
  revert items. induction langs as [|lang langs IH]; intros items; simpl.
  - by intros [= <-].
  - destruct (truthy lang); [destruct (hashable lang); [|discriminate]|].
    + intros Hrest Hitems. apply (IH _ Hrest). by apply bump_distinct.
    + intros Hrest Hitems. by apply (IH _ Hrest).
Qed.

Lemma count_languages_total items langs :
  Forall (fun lang => truthy lang = true -> hashable lang = true) langs ->
  exists counted, count_languages items langs = Ok counted.
Proof.
  intros Hlangs. revert items.
  induction Hlangs as [|lang langs Hlang _ IH]; intros items; simpl; [by eexists|].
  destruct (truthy lang); [rewrite Hlang by done|]; apply IH.
Qed.

Lemma frequency_of_item items (key : json) (count : Z) :
  StronglySorted (fun a b : json * Z => py_eq a.1 b.1 = false) items ->
  Forall (fun item => hashable item.1 = true) items ->
  (key, count) ∈ items ->
  frequency_of items key = count.
Proof.
  induction 1 as [|[key' count'] items Hitems IH Hhead]; intros Hhash Hin.
  - by apply elem_of_nil in Hin.
  - apply Forall_cons in Hhash as [Hkey' Hhash]. rewrite frequency_of_cons.
    apply elem_of_cons in Hin as [[= -> ->]|Hin].
    + by rewrite py_eq_refl.
    + rewrite Forall_forall in Hhead. pose proof (Hhead _ Hin) as Hother.
      simpl in Hother. rewrite Hother. by apply IH.
Qed.

Lemma frequency_of_positive items x :
  0 < frequency_of items x ->
  exists key, (key, frequency_of items x) ∈ items /\ py_eq key x = true.
Proof.
  induction items as [|[key count] items IH]; [unfold frequency_of; simpl; lia|].
  rewrite frequency_of_cons. destruct (py_eq key x) eqn:Heq.
  - intros _. exists key. split; [constructor|done].
  - intros Hpos. destruct (IH Hpos) as (key' & Hin & Heq').
    exists key'. split; [by constructor|done].
Qed.

(** The preferred languages are the languages searched at least
    twice, most searched first. When every truthy language of the
    history can be hashed the computation returns; each language
    returned is truthy, stands in the history and was searched twice
    or more; no two are equal; along the list the number of searches
    never goes up; and every language searched twice or more is
    there. *)
Theorem preferred_languages_searched_twice langs :
  Forall (fun lang => truthy lang = true -> hashable lang = true) langs ->
  exists preferred,
    preferred_languages langs = Ok preferred
    /\ Forall (fun x => truthy x = true /\ x ∈ langs /\ 2 <= searches langs x) preferred
    /\ (forall (i j : nat) x y,
          i <> j -> preferred !! i = Some x -> preferred !! j = Some y ->
          py_eq x y = false)
    /\ StronglySorted (fun earlier later => searches langs later <= searches langs earlier)
         preferred
    /\ (forall x, x ∈ langs -> truthy x = true -> 2 <= searches langs x ->
          exists y, y ∈ preferred /\ py_eq y x = true).
Proof.
  intros Hlangs. unfold preferred_languages, language_frequency.
  destruct (count_languages_total [] langs Hlangs) as [items Hitems].
  rewrite Hitems. simpl.
  set (chosen := filter (fun item : json * Z => 2 <= item.2) items).
  set (preferred := Py.sorted_desc (fun x => inject_Z (frequency_of items x)) chosen.*1).
  exists preferred. split; [done|].
  assert (forall x, frequency_of items x = searches langs x) as Hfrequency.
  { intros x. rewrite (count_frequency [] langs items x Hitems).
    unfold frequency_of. simpl. lia. }
  assert (Forall (fun item : json * Z =>
                    hashable item.1 = true /\ truthy item.1 = true /\ item.1 ∈ langs) items)
    as Hkeys.
  { apply (count_languages_keys [] langs items
             (fun x => hashable x = true /\ truthy x = true /\ x ∈ langs) Hitems);
      [constructor|]. by intros lang Hin Htruthy Hhash. }
  assert (Forall (fun item : json * Z => hashable item.1 = true) items) as Hhash
    by (eapply Forall_impl; [exact Hkeys|]; by intros item (H & _)).
  assert (StronglySorted (fun a b : json * Z => py_eq a.1 b.1 = false) items) as Hdistinct
    by (apply (count_languages_distinct [] langs items Hitems); constructor).
  assert (preferred ≡ₚ chosen.*1) as Hperm by apply stable_sort_Permutation.
  assert (forall x, x ∈ preferred <-> exists count, (x, count) ∈ items /\ 2 <= count)
    as Hmembers.
  { intros x. rewrite Hperm, list_elem_of_fmap. split.
    - intros ([key count] & -> & Hin). apply list_elem_of_filter in Hin as [Hcount Hin].
      by exists count.
    - intros (count & Hin & Hcount). exists (x, count).
      split; [done|]. by apply list_elem_of_filter. }
  split; [|split; [|split]].
  - apply Forall_forall. intros x Hx. apply Hmembers in Hx as (count & Hin & Hcount).
    rewrite Forall_forall in Hkeys. destruct (Hkeys _ Hin) as (_ & Htruthy & Hlang).
    split; [done|]. split; [done|].
    by rewrite <- Hfrequency, (frequency_of_item items x count).
  - assert (StronglySorted (fun x y => py_eq x y = false) preferred) as Hsorted.
    { apply (StronglySorted_Permutation _ chosen.*1);
        [intros x y; by rewrite py_eq_sym|done|].
      assert (chosen `sublist_of` items) as Hsub by apply sublist_filter.
      clearbody chosen. clear -Hsub Hdistinct.
      assert (StronglySorted (fun a b : json * Z => py_eq a.1 b.1 = false) chosen)
        as Hchosen by (by eapply StronglySorted_sublist).
      clear -Hchosen. induction Hchosen as [|item chosen _ IH Hitem]; [constructor|].
      simpl. constructor; [done|]. by apply Forall_fmap. }
    intros i j x y Hij Hi Hj.
    destruct (Nat.lt_total i j) as [Hlt|[Heq|Hgt]]; [|done|].
    + exact (StronglySorted_lookup (fun x y => py_eq x y = false) preferred i j x y
               Hsorted Hlt Hi Hj).
    + rewrite py_eq_sym.
      exact (StronglySorted_lookup (fun x y => py_eq x y = false) preferred j i y x
               Hsorted Hgt Hj Hi).
  - pose proof (sorted_desc_sorted (fun x => inject_Z (frequency_of items x)) chosen.*1)
      as Hsorted.
    fold preferred in Hsorted. clear -Hsorted Hfrequency. clearbody preferred.
    induction Hsorted as [|x rest _ IH Hx]; [constructor|]. constructor; [done|].
    eapply Forall_impl; [exact Hx|]. intros y Hy. unfold Py.desc in Hy.
    rewrite <- !Hfrequency. by rewrite Zle_Qle.
  - intros x Hx Htruthy Htwice. rewrite <- Hfrequency in Htwice.
    destruct (frequency_of_positive items x) as (key & Hin & Heq); [lia|].
    exists key. split; [|done]. apply Hmembers. by exists (frequency_of items x).
Qed.

End LanguagesFacts.

(** * Instances *)

Lemma deep_link_round_trip_witness :
  "Heat" ∈ App.titles Demo.catalog
  /\ "Heat" <> ""
  /\ exists st' query_params',
       AppView.sync_selection (Some "Heat") Demo.idle ∅ = Ok (st', query_params')
       /\ query_params' !! "movie" = Some "Heat"
       /\ App.selected_movie_name
            (App.handle_url_params Demo.catalog query_params' AppView.blank)
          = Some (Some "Heat").
Proof.
  assert ("Heat" ∈ App.titles Demo.catalog) as Hin.
  { simpl. repeat first [apply list_elem_of_here | apply list_elem_of_further]. }
  assert ("Heat" <> "") as Hne by discriminate.
  split; [exact Hin|]. split; [exact Hne|].
  eexists _, _. split; [reflexivity|].
  exact (proj1 (proj2 (deep_link_round_trip Demo.catalog "Heat" (Some "Heat")
                         Demo.idle ∅ _ _ AppView.blank Hin Hne eq_refl)) eq_refl).
Defined.

Lemma trending_offset_multiple_of_ten_witness :
  let st := {| App.selected_movie_name := Some None;
               App.movie_selectbox := None;
               App.trending_offset := Some 20 |} in
  AppView.reachable Demo.catalog st
  /\ App.trending_offset st = Some 20
  /\ exists k : nat, 20 = 10 * Z.of_nat k.
Proof.
  cbv zeta.
  assert (AppView.reachable Demo.catalog
            {| App.selected_movie_name := Some None;
               App.movie_selectbox := None;
               App.trending_offset := Some 20 |}) as Hreach.
  { apply (AppView.reachable_refresh _
             {| App.selected_movie_name := Some None;
                App.movie_selectbox := None;
                App.trending_offset := Some 10 |}); [|reflexivity].
    apply (AppView.reachable_refresh _ Demo.idle); [|reflexivity].
    exact (AppView.reachable_init _ _ (AppView.reachable_blank _)). }
  split; [exact Hreach|]. split; [reflexivity|].
  exact (trending_offset_multiple_of_ten Demo.catalog _ 20 Hreach eq_refl).
Defined.

Lemma trending_window_witness :
  Trending.sorts_by_rating App.sort_values_desc
  /\ (10 < App.len Demo.library)%nat
  /\ Trending.trending_titles App.sort_values_desc Demo.library 30
     = Ok ["Film 22"; "Film 16"; "Film 10"; "Film 27"; "Film 04"; "Film 21";
           "Film 15"; "Film 09"; "Film 26"; "Film 03"]
  /\ exists sorted,
       App.sort_values_desc Demo.library = App.Rated sorted
       /\ drop 19 sorted <> [].
Proof.
  assert (10 < App.len Demo.library)%nat as Hlen by (vm_compute; lia).
  split; [exact stable_sort_sorts_by_rating|]. split; [exact Hlen|].
  destruct (trending_window App.sort_values_desc Demo.library 30
              stable_sort_sorts_by_rating Hlen)
    as (_ & sorted & Hsorted & _ & _ & Hcall & _ & Hrest & _).
  split.
  - unfold Trending.trending_titles. rewrite Hcall.
    vm_compute in Hsorted. injection Hsorted as <-. reflexivity.
  - exists sorted. split; [exact Hsorted|exact Hrest].
Defined.

Lemma trending_ten_rows_raises_witness :
  App.len Samples.ten = 10%nat
  /\ App.trending_titles Samples.ten 20 = Raise ZeroDivisionError.
Proof.
  split; [reflexivity|].
  apply trending_ten_rows_raises. reflexivity.
Defined.

Lemma recommend_names_by_rating_witness :
  exists names posters,
    App.recommend "key" Demo.library Demo.closeness Demo.omdb "Film 05" 5
    = Ok (names, posters)
    /\ exists picks,
         names = App.rec_title <$> picks
         /\ StronglySorted
              (fun earlier later => (App.rating later <= App.rating earlier)%Q) picks.
Proof.
  destruct (App.recommend "key" Demo.library Demo.closeness Demo.omdb "Film 05" 5)
    as [[names posters]|e] eqn:Hcall; [|vm_compute in Hcall; discriminate].
  exists names, posters. split; [reflexivity|].
  destruct (recommend_names_by_rating "key" Demo.library Demo.closeness Demo.omdb
              "Film 05" 5 names posters Hcall)
    as (index & distances & picks & _ & _ & Hnames & Hsorted & _).
  exists picks. split; [exact Hnames|exact Hsorted].
Defined.

Lemma recommend_bounds_witness :
  exists names posters,
    App.recommend "key" Demo.library Demo.closeness Demo.omdb "Film 05" 5
    = Ok (names, posters)
    /\ length posters = length names
    /\ (length names <= 5)%nat
    /\ Forall (fun name => name ∈ App.titles Demo.library) names.
Proof.
  destruct (App.recommend "key" Demo.library Demo.closeness Demo.omdb "Film 05" 5)
    as [[names posters]|e] eqn:Hcall; [|vm_compute in Hcall; discriminate].
  exists names, posters. split; [reflexivity|].
  destruct (recommend_bounds "key" Demo.library Demo.closeness Demo.omdb
              "Film 05" 5 names posters Hcall)
    as (Hsame & _ & Hcut & Htitles).
  split; [exact Hsame|]. split; [apply Hcut; lia|exact Htitles].
Defined.

Lemma recommend_posters_present_witness :
  exists names posters,
    App.recommend "key" Demo.library Demo.closeness Demo.omdb "Film 05" 5
    = Ok (names, posters)
    /\ Forall (fun poster => App.missing_poster poster = false
                             /\ App.grid_poster poster = poster) posters.
Proof.
  destruct (App.recommend "key" Demo.library Demo.closeness Demo.omdb "Film 05" 5)
    as [[names posters]|e] eqn:Hcall; [|vm_compute in Hcall; discriminate].
  exists names, posters. split; [reflexivity|].
  exact (recommend_posters_present "key" Demo.library Demo.closeness Demo.omdb
           "Film 05" 5 names posters Hcall).
Defined.

Lemma recommend_unknown_title_witness :
  ("Solaris" ∉ App.titles Demo.catalog)
  /\ App.recommend "key" Demo.catalog Demo.twins Demo.omdb "Solaris" 5 = Raise IndexError.
Proof.
  assert ("Solaris" ∉ App.titles Demo.catalog) as Hout.
  { simpl. intros H.
    repeat (apply elem_of_cons in H as [H|H]; [discriminate|]).
    by apply elem_of_nil in H. }
  split; [exact Hout|].
  exact (recommend_unknown_title "key" Demo.catalog Demo.twins Demo.omdb "Solaris" 5 Hout).
Defined.

Lemma stored_write_survives_rerun_witness :
  Views.synced Demo.recommender
  /\ Views.reopen (Recommender.like_movie 604 Demo.reloaded (Some "Search Movies")
                     1700000200 Recommender.Stored Demo.recommender)
     = Recommender.like_movie 604 Demo.reloaded (Some "Search Movies")
         1700000200 Recommender.Stored Demo.recommender.
Proof.
  assert (Views.synced Demo.recommender) as Hsynced by reflexivity.
  split; [exact Hsynced|].
  exact (proj1 (stored_write_survives_rerun
                  (Views.Like 604 Demo.reloaded (Some "Search Movies") 1700000200)
                  604 Demo.reloaded None 0 Demo.recommender Hsynced)).
Defined.

Lemma track_search_first_page_witness :
  Views.track_search "reloaded" 1 (JArr [Demo.reloaded; Samples.silent]) 1700000300
    Recommender.Stored Demo.recommender
  = Ok (Recommender.add_to_search_history "reloaded" (Some [JNum 604; JNum 700])
          (Some [JStr "en"]) 1700000300 Recommender.Stored Demo.recommender)
  /\ exists items ids spoken,
       Recommender.iter (JArr [Demo.reloaded; Samples.silent]) = Ok items
       /\ Forall2 (fun movie id => subscript movie "id" = Ok id) items ids
       /\ Forall2 (fun movie language =>
                     dict_get movie "original_language" JNull = Ok language)
            items spoken
       /\ Recommender.add_to_search_history "reloaded" (Some [JNum 604; JNum 700])
            (Some [JStr "en"]) 1700000300 Recommender.Stored Demo.recommender
          = Recommender.add_to_search_history "reloaded" (Some ids)
              (Some (filter (fun language => truthy language = true) spoken))
              1700000300 Recommender.Stored Demo.recommender.
Proof.
  split; [reflexivity|].
  exact (proj2 (track_search_first_page "reloaded" 1 (JArr [Demo.reloaded; Samples.silent])
                  1700000300 Recommender.Stored Demo.recommender _ eq_refl)
           eq_refl eq_refl).
Defined.


Lemma content_based_most_similar_first_witness :
  let listed := [Demo.matrix; Demo.reloaded; Samples.revolutions; Samples.animatrix] in
  Recommender.get_content_based_recommendations Samples.franchise Samples.rising
    Demo.recommender 603 listed 2
  = Ok [Samples.animatrix_details; Samples.revolutions_details]
  /\ exists (target_features : string) (similarities : list Q) (scored : list (nat * Q)),
       Recommender.create_feature_string Demo.matrix_details = Ok target_features
       /\ length scored = 2%nat
       /\ StronglySorted (fun earlier later => (later.2 <= earlier.2)%Q) scored
       /\ NoDup scored.*1
       /\ (forall (i : nat) (q : Q),
             similarities !! i = Some q -> i ∉ scored.*1 ->
             Forall (fun entry => (q <= entry.2)%Q) scored).
Proof.
  cbv zeta.
  assert (Recommender.get_content_based_recommendations Samples.franchise Samples.rising
            Demo.recommender 603
            [Demo.matrix; Demo.reloaded; Samples.revolutions; Samples.animatrix] 2
          = Ok [Samples.animatrix_details; Samples.revolutions_details]) as Hcall
    by reflexivity.
  split; [exact Hcall|].
  destruct (content_based_most_similar_first Samples.franchise Samples.rising
              Demo.recommender 603 _ 2 _ Hcall ltac:(discriminate))
    as (target_features & found & similarities & scored
        & Htarget & _ & _ & Hall & Hsorted & Hnodup & Hrest).
  exists target_features, similarities, scored.
  split; [exact Htarget|]. split; [exact (Forall2_length _ _ _ Hall)|].
  split; [exact Hsorted|]. split; [exact Hnodup|exact Hrest].
Defined.

Lemma feature_string_ends_with_overview_witness :
  Recommender.create_feature_string Demo.matrix_details
  = Ok "Action A hacker learns what the world is."
  /\ exists overview before,
       JStr "A hacker learns what the world is." = JStr overview
       /\ "Action A hacker learns what the world is." = before +:+ overview.
Proof.
  split; [reflexivity|].
  apply (feature_string_ends_with_overview
           [("id", JNum 603); ("title", JStr "The Matrix");
            ("genres", JArr [JObj [("id", JNum 28); ("name", JStr "Action")]]);
            ("overview", JStr "A hacker learns what the world is.")]);
    reflexivity.
Defined.

Lemma content_based_needs_text_overview_witness :
  Recommender.get_movie_details Samples.tmdb_untranslated Demo.recommender (JNum 603)
  = Samples.untranslated_details
  /\ exists e,
       Recommender.get_content_based_recommendations Samples.tmdb_untranslated
         Demo.flat_scores Demo.recommender 603 [Demo.reloaded] 10 = Raise e.
Proof.
  split; [reflexivity|].
  apply (content_based_needs_text_overview Samples.tmdb_untranslated Demo.flat_scores
           Demo.recommender 603 [Demo.reloaded] 10
           [("id", JNum 603); ("title", JStr "The Matrix"); ("overview", JNull)] JNull);
    [reflexivity|reflexivity|intros s; discriminate].
Defined.

Lemma content_based_without_details_witness :
  Recommender.get_content_based_recommendations Samples.unplugged Demo.flat_scores
    Demo.recommender 603 [Demo.reloaded] 10 = Ok [].
Proof.
  apply (content_based_without_details Samples.unplugged Demo.flat_scores
           Demo.recommender 603 [Demo.reloaded] 10 ConnectionError).
  reflexivity.
Defined.

Lemma content_based_returns_every_candidate_witness :
  exists recommendations,
    Recommender.get_content_based_recommendations Demo.tmdb Demo.flat_scores
      Demo.recommender 603 [Demo.matrix; Demo.reloaded] 50 = Ok recommendations
    /\ recommendations ≡ₚ [Demo.reloaded_details].
Proof.
  exact (content_based_returns_every_candidate Demo.tmdb Demo.flat_scores
           Demo.recommender 603 [Demo.matrix; Demo.reloaded] 50
           "Action A hacker learns what the world is."
           [None; Some ("Action The war against the machines goes on.",
                        Demo.reloaded_details)]
           [1 # 2]%Q
           eq_refl eq_refl eq_refl eq_refl eq_refl ltac:(simpl; lia)).
Defined.

Lemma panel_page_exists_witness :
  exists s1 s2,
    Panel.render Samples.franchise Samples.rising None Demo.recommender
      (Panel.press_recommend 603 Panel.fresh) = Ok s1
    /\ Panel.render Samples.franchise Samples.rising (Some Recommender.Next_rec_top)
         Demo.recommender s1 = Ok s2
    /\ Panel.reachable Samples.franchise Samples.rising s2
    /\ length (Panel.all_recommendations s2) = 15%nat
    /\ Panel.total_pages (Panel.all_recommendations s2) = 2
    /\ Panel.recommendation_page s2 = 2
    /\ Panel.in_range s2
    /\ (1 <= length (Panel.page_recommendations (Panel.all_recommendations s2)
                       (Panel.recommendation_page s2)) <= 10)%nat.
Proof.
  destruct (Panel.render Samples.franchise Samples.rising None Demo.recommender
              (Panel.press_recommend 603 Panel.fresh)) as [s1|e] eqn:Hfirst;
    [|vm_compute in Hfirst; discriminate].
  destruct (Panel.render Samples.franchise Samples.rising (Some Recommender.Next_rec_top)
              Demo.recommender s1) as [s2|e] eqn:Hnext.
  2: { vm_compute in Hfirst. injection Hfirst as <-.
       vm_compute in Hnext. discriminate. }
  exists s1, s2. split; [reflexivity|]. split; [exact Hnext|].
  assert (Panel.reachable Samples.franchise Samples.rising s2) as Hreach.
  { apply (Panel.reachable_render _ _ (Some Recommender.Next_rec_top) Demo.recommender s1);
      [|exact Hnext].
    apply (Panel.reachable_render _ _ None Demo.recommender
             (Panel.press_recommend 603 Panel.fresh)); [|exact Hfirst].
    apply Panel.reachable_recommend, Panel.reachable_fresh. }
  split; [exact Hreach|].
  destruct (panel_page_exists Samples.franchise Samples.rising s2 Hreach) as [Hrange Hpage].
  vm_compute in Hfirst. injection Hfirst as <-.
  vm_compute in Hnext. injection Hnext as <-.
  split; [reflexivity|]. split; [reflexivity|]. split; [reflexivity|].
  split; [exact Hrange|]. apply Hpage. discriminate.
Defined.

Lemma paging_keeps_recommendations_witness :
  exists s',
    Panel.render Demo.tmdb Demo.flat_scores (Some Recommender.Next_rec_top)
      Demo.recommender Samples.open_panel = Ok s'
    /\ Panel.render Samples.unplugged Demo.flat_scores (Some Recommender.Next_rec_top)
         Demo.recommender Samples.open_panel = Ok s'
    /\ Panel.all_recommendations s' = [Demo.reloaded_details].
Proof.
  destruct (paging_keeps_recommendations Demo.tmdb Demo.flat_scores
              (Some Recommender.Next_rec_top) Demo.recommender Samples.open_panel 603
              Samples.unplugged Demo.flat_scores eq_refl eq_refl ltac:(discriminate))
    as (s' & Hhere & Hthere & Hkept).
  exists s'. split; [exact Hhere|]. split; [exact Hthere|].
  apply Hkept. discriminate.
Defined.

Lemma mode_change_resets_page_witness :
  let i := Samples.run Recommender.LatestMovies None in
  Recommender.previous_mode Samples.third_page = Some Recommender.BrowseTrending
  /\ Recommender.current_page (Recommender.main i Samples.third_page) = 1
  /\ Recommender.previous_mode (Recommender.main i Samples.third_page)
     = Some Recommender.LatestMovies.
Proof.
  cbv zeta. split; [reflexivity|].
  apply (mode_change_resets_page (Samples.run Recommender.LatestMovies None)
           Samples.third_page Recommender.BrowseTrending);
    [reflexivity|discriminate..].
Defined.

Lemma next_then_previous_witness :
  let run := Samples.run Recommender.BrowseTrending in
  let short := Samples.run_until 3 Recommender.BrowseTrending in
  Recommender.current_page Samples.third_page = 3
  /\ Recommender.current_page
       (Recommender.main (run None)
          (Recommender.main (run (Some Recommender.Previous_top))
             (Recommender.main (run None)
                (Recommender.main (run (Some Recommender.Next_top))
                   Samples.third_page)))) = 3
  /\ Recommender.current_page
       (Recommender.main (short None)
          (Recommender.main (short (Some Recommender.Next_top)) Samples.third_page)) = 3
  /\ Recommender.current_page
       (Recommender.main (short (Some Recommender.Previous_top))
          (Recommender.main (short None)
             (Recommender.main (short (Some Recommender.Next_top))
                Samples.third_page))) = 2.
Proof.
  cbv zeta. split; [reflexivity|].
  assert (forall i, Recommender.mode_radio i = Recommender.BrowseTrending ->
                    Recommender.filter_changed i = false ->
                    Recommender.genres_found i = true ->
                    Recommender.selected i = true ->
                    Browsing.on_screen Recommender.BrowseTrending i) as Hon
    by (intros i ? ? ? ?; by repeat split).
  split.
  - refine (proj1 (proj2 (next_then_previous
                            (Samples.run Recommender.BrowseTrending (Some Recommender.Next_top))
                            (Samples.run Recommender.BrowseTrending None)
                            (Samples.run Recommender.BrowseTrending
                               (Some Recommender.Previous_top))
                            (Samples.run Recommender.BrowseTrending None)
                            Samples.third_page Recommender.BrowseTrending
                            eq_refl _ _ _ _ eq_refl eq_refl eq_refl eq_refl _))
              eq_refl eq_refl);
      first [by apply Hon | simpl; lia].
  - destruct (next_then_previous
                (Samples.run_until 3 Recommender.BrowseTrending (Some Recommender.Next_top))
                (Samples.run_until 3 Recommender.BrowseTrending None)
                (Samples.run_until 3 Recommender.BrowseTrending
                   (Some Recommender.Previous_top))
                (Samples.run_until 3 Recommender.BrowseTrending None)
                Samples.third_page Recommender.BrowseTrending
                eq_refl
                (Hon (Samples.run_until 3 Recommender.BrowseTrending
                        (Some Recommender.Next_top)) eq_refl eq_refl eq_refl eq_refl)
                (Hon (Samples.run_until 3 Recommender.BrowseTrending None)
                   eq_refl eq_refl eq_refl eq_refl)
                (Hon (Samples.run_until 3 Recommender.BrowseTrending
                        (Some Recommender.Previous_top)) eq_refl eq_refl eq_refl eq_refl)
                (Hon (Samples.run_until 3 Recommender.BrowseTrending None)
                   eq_refl eq_refl eq_refl eq_refl)
                eq_refl eq_refl eq_refl eq_refl ltac:(simpl; lia))
      as (Hafter & _ & Hbelow).
    split; [exact Hafter|exact (Hbelow eq_refl)].
Defined.

Lemma history_recommendations_fresh_witness :
  History.top_scored Samples.level (History.all_movie_ids Demo.recommender) [Demo.matrix]
    [Demo.matrix; Demo.reloaded; Demo.reloaded] 20
  = Ok [Demo.reloaded]
  /\ Forall (fun movie => movie ∈ [Demo.matrix; Demo.reloaded; Demo.reloaded]
                          /\ History.unseen (History.all_movie_ids Demo.recommender) movie)
       [Demo.reloaded].
Proof.
  assert (History.top_scored Samples.level (History.all_movie_ids Demo.recommender)
            [Demo.matrix] [Demo.matrix; Demo.reloaded; Demo.reloaded] 20
          = Ok [Demo.reloaded]) as Hcall by reflexivity.
  split; [exact Hcall|].
  exact (proj1 (history_recommendations_fresh Samples.level _ _ _ _ _ Hcall)).
Defined.

Lemma preferred_languages_searched_twice_witness :
  Forall (fun lang => truthy lang = true -> History.hashable lang = true) Samples.spoken
  /\ Languages.preferred_languages Samples.spoken = Ok [JStr "en"; JStr "fr"]
  /\ Forall (fun x => 2 <= Languages.searches Samples.spoken x) [JStr "en"; JStr "fr"].
Proof.
  assert (Forall (fun lang => truthy lang = true -> History.hashable lang = true)
            Samples.spoken) as Hlangs by (repeat constructor).
  split; [exact Hlangs|].
  destruct (preferred_languages_searched_twice Samples.spoken Hlangs)
    as (preferred & Hcall & Hsearched & _).
  vm_compute in Hcall. injection Hcall as <-.
  split; [reflexivity|].
  eapply Forall_impl; [exact Hsearched|]. by intros x (_ & _ & Htwice).
Defined.

Lemma like_button_toggles_witness :
  Views.synced Demo.recommender
  /\ Recommender.is_movie_liked 603 Demo.recommender = true
  /\ Recommender.is_movie_liked 603
       (Views.press_like 603 Demo.matrix (Some "Search Movies") 1700000400
          Recommender.Stored Demo.recommender) = false
  /\ dom (Recommender.liked_movies
            (Views.press_like 603 Demo.matrix (Some "Search Movies") 1700000500
               Recommender.Stored
               (Views.press_like 603 Demo.matrix (Some "Search Movies") 1700000400
                  Recommender.Stored Demo.recommender)))
     = dom (Recommender.liked_movies Demo.recommender).
Proof.
  assert (Views.synced Demo.recommender) as Hsynced by reflexivity.
  split; [exact Hsynced|]. split; [reflexivity|].
  destruct (like_button_toggles 603 Demo.matrix Demo.matrix (Some "Search Movies")
              (Some "Search Movies") 1700000400 1700000500 Demo.recommender Hsynced)
    as (Hflip & _ & _ & Hdom & _).
  split; [exact Hflip|exact Hdom].
Defined.
